(** * FinSync360 ML service

    A shallow embedding of the model lifecycle and serving layer of the
    ML service:

    - [models/base_model.py]            ([BaseMLModel]),
    - [models/payment_prediction.py]    ([PaymentDelayPredictor],
                                         [PaymentAmountPredictor]),
    - [services/prediction_service.py]  ([PredictionService]),
    - [services/training_service.py]    ([TrainingService]),
    - [api/routes/predictions.py]       (the prediction routes).

    Python floats are IEEE 754 binary64 numbers and are embedded as Rocq's
    primitive floats, Python integers as [Z], dictionaries used as maps as
    [gmap], exceptions as the left summand of a sum type, and the mutable
    attributes of an object as a record that every operation takes and
    returns. *)

From Stdlib Require Import ZArith List String Floats Bool Lia.
From stdpp Require Import gmap strings list.
Set Warnings "-inexact-float".

Local Open Scope Z_scope.

(** ** Python values and exceptions *)

Module Py.

(** The exceptions the modelled code raises or lets through.  The source
    raises [ValueError] with a formatted message in most places; one
    constructor stands for each distinct message. *)
Inductive exn : Type :=
| InsufficientData (have need : nat) (* "Insufficient training data: {have} < {need}" *)
| NotTrained (name : string)         (* "Model {name} is not trained" *)
| UnsupportedOperation (name : string)
                                     (* "Model {name} does not support probability predictions" *)
| SaveUntrained                      (* "Cannot save untrained model" *)
| CustomerNotFound (id : string)     (* "Customer {id} not found" *)
| UnseenLabels (label : string)      (* sklearn: "y contains previously unseen labels: {label}" *)
| EmptyInput                         (* sklearn: "Found array with 0 sample(s)" *)
| InfiniteInput                      (* sklearn: "Input X contains infinity" *)
| NotAnInteger                       (* int() of nan or of an infinity *)
| IndexError
| AttributeError
| IOError (what : string)
| External (what : string).          (* an exception of a library call or of the database *)

Definition result (A : Type) : Type := exn + A.

Definition ok {A} (a : A) : result A := inr a.
Definition raise {A} (e : exn) : result A := inl e.

Definition bind {A B} (r : result A) (k : A -> result B) : result B :=
  match r with
  | inl e => inl e
  | inr a => k a
  end.

Definition is_ok {A} (r : result A) : bool :=
  match r with inr _ => true | inl _ => false end.

(** [float(n)] for an integer [n]: the nearest binary64 number. *)
Definition float_of_Z (n : Z) : float :=
  SF2Prim (binary_normalize prec emax n 0 false).

(** [a / b] on integers is true division: the float nearest to the exact
    quotient, ties to even, whatever the size of the operands.  The
    quotient of the absolute values is computed with at least 55 significant
    bits, a further bit records whether the division left a remainder, and
    the result is rounded once.  A zero dividend gives a zero with the sign
    of the divisor.  Python raises [ZeroDivisionError] for [b = 0] and
    [OverflowError] for a quotient beyond the floats; the divisor is at
    least 1 at both places the code divides integers. *)
Definition truediv (a b : Z) : float :=
  if a =? 0 then (if b <? 0 then (-0)%float else 0%float)
  else
    let k := Z.max 0 (Z.log2 (Z.abs b) - Z.log2 (Z.abs a) + 55) in
    let n := Z.abs a * 2 ^ k in
    let q := n / Z.abs b in
    let sticky := if n mod Z.abs b =? 0 then 0 else 1 in
    let m := 2 * q + sticky in
    let negative := xorb (a <? 0) (b <? 0) in
    SF2Prim (binary_normalize prec emax (if negative then - m else m) (- k - 1) false).

(** [int(x)]: truncation toward zero; [nan] and the infinities raise. *)
Definition int_of_float (x : float) : result Z :=
  match Prim2SF x with
  | S754_zero _ => ok 0
  | S754_finite s m e =>
      let v := if 0 <=? e then Z.pos m * 2 ^ e else Z.quot (Z.pos m) (2 ^ (- e)) in
      ok (if s then - v else v)
  | S754_infinity _ | S754_nan => raise NotAnInteger
  end.

(** [max(a, b)] keeps its first argument unless the second is greater,
    [min(a, b)] unless the second is smaller. *)
Definition max (a b : float) : float := if (a <? b)%float then b else a.
Definition min (a b : float) : float := if (b <? a)%float then b else a.

(** [x > y] *)
Definition gt (x y : float) : bool := (y <? x)%float.
(** [x >= y] *)
Definition ge (x y : float) : bool := (y <=? x)%float.

(** [sub in s] on strings. *)
Fixpoint contains (sub s : string) : bool :=
  if String.prefix sub s then true
  else match s with
       | EmptyString => false
       | String _ rest => contains sub rest
       end.

End Py.

Notation "'let*' x ':=' r 'in' k" := (Py.bind r (fun x => k))
  (at level 10, x name, r at level 200, k at level 200).

(** ** Calendar arithmetic of [datetime]

    A naive [datetime] is the number of seconds since 1970-01-01T00:00:00;
    the calendar fields are computed from the day number with the usual
    proleptic Gregorian conversion. *)

Module Calendar.

Definition timestamp : Type := Z.

Definition seconds_per_day : Z := 86400.

(** [dt.date()] as a day number. *)
Definition date (t : timestamp) : Z := t / seconds_per_day.

(** [dt + timedelta(days=n)] *)
Definition add_days (t : timestamp) (n : Z) : timestamp := t + n * seconds_per_day.

(** [(a - b).days] *)
Definition days_between (a b : timestamp) : Z := (a - b) / seconds_per_day.

(** Year, month and day of a day number. *)
Definition civil (days : Z) : Z * Z * Z :=
  let z := days + 719468 in
  let era := z / 146097 in
  let doe := z - era * 146097 in
  let yoe := (doe - doe / 1460 + doe / 36524 - doe / 146096) / 365 in
  let doy := doe - (365 * yoe + yoe / 4 - yoe / 100) in
  let mp := (5 * doy + 2) / 153 in
  let d := doy - (153 * mp + 2) / 5 + 1 in
  let m := if mp <? 10 then mp + 3 else mp - 9 in
  let y := yoe + era * 400 + (if m <=? 2 then 1 else 0) in
  (y, m, d).

Definition month (t : timestamp) : Z := snd (fst (civil (date t))).
Definition day (t : timestamp) : Z := snd (civil (date t)).
Definition quarter (t : timestamp) : Z := (month t - 1) / 3 + 1.
(** Monday is 0; 1970-01-01 was a Thursday. *)
Definition dayofweek (t : timestamp) : Z := (date t + 3) mod 7.

End Calendar.

(** ** The documents read from the database

    The storage layer is outside the modelled code; a collection is a finite
    map from [_id] to document, or, where the code queries by a foreign key
    with a sort order, the documents of a key in that order.  A field that a
    document may lack is an [option].  Amounts are floats (an amount stored
    as an integer is read as the float of the same value, which the
    arithmetic of the code does to it anyway); stock levels and sold
    quantities are integers. *)

Record customer_doc := {
  averageOrderValue : option float;
  creditLimit : option float;
  outstandingAmount : option float;
  category : option string;
  preferredPaymentMethod : option string
}.

Record payment_doc := {
  isLate : option bool
}.

Record sale_doc := {
  quantity : option Z;
  sale_date : option Calendar.timestamp
}.

Record item_doc := {
  stockLevel : option Z;
  itemName : option string
}.

Record database := {
  customers : gmap string customer_doc;
  (** payments of a customer, latest [paymentDate] first *)
  payments : gmap string (list payment_doc);
  inventory : gmap string item_doc;
  (** sales of an item, latest [date] first *)
  sales : gmap string (list sale_doc)
}.

(** [dict.get(key, default)] *)
Definition get {A} (field : option A) (default : A) : A :=
  match field with
  | Some a => a
  | None => default
  end.

(** ** [PredictionService]: the rule-based paths *)

Module PredictionRules.

Local Open Scope string_scope.

Definition _get_customer_data (db : database) (customer_id : string) : option customer_doc :=
  customers db !! customer_id.

Definition _get_item_data (db : database) (item_id : string) : option item_doc :=
  inventory db !! item_id.

(** [find({"itemId": item_id}, sort=[("date", -1)], limit=365)] *)
Definition _get_item_sales_history (db : database) (item_id : string) : list sale_doc :=
  take 365 (get (sales db !! item_id) []).

(** [find({"customerId": customer_id}, sort=[("paymentDate", -1)], limit=50)] *)
Definition _get_customer_payment_history (db : database) (customer_id : string)
  : list payment_doc :=
  take 50 (get (payments db !! customer_id) []).

Definition _calculate_risk_level (probability : float) : string :=
  if Py.ge probability 0.7 then "High"
  else if Py.ge probability 0.4 then "Medium"
  else "Low".

Definition sum_Z (l : list Z) : Z := fold_left Z.add l 0.

Definition _calculate_average_daily_demand (now : Calendar.timestamp)
    (sales_data : list sale_doc) : float :=
  match sales_data with
  | [] => 1.0%float
  | _ =>
      let total_quantity := sum_Z (map (fun sale => get (quantity sale) 0) sales_data) in
      let dates : gset Z :=
        list_to_set (map (fun sale => Calendar.date (get (sale_date sale) now)) sales_data) in
      let days := Z.of_nat (size dates) in
      Py.truediv total_quantity (Z.max days 1)
  end.

Definition seasonal_factors : list (Z * float) :=
  [ (1, 0.8%float); (2, 0.9%float); (3, 1.1%float); (4, 1.0%float);
    (5, 1.0%float); (6, 1.0%float); (7, 1.2%float); (8, 1.1%float);
    (9, 1.0%float); (10, 1.1%float); (11, 1.3%float); (12, 1.4%float) ].

Fixpoint lookup_factor (month : Z) (table : list (Z * float)) : float :=
  match table with
  | [] => 1.0%float
  | (m, f) :: rest => if (m =? month)%Z then f else lookup_factor month rest
  end.

Definition _get_seasonal_factor (date : Calendar.timestamp) (sales_data : list sale_doc)
  : float :=
  lookup_factor (Calendar.month date) seasonal_factors.

Record forecast_point := {
  fp_date : Calendar.timestamp;
  fp_predicted_demand : Z;
  fp_confidence : float
}.

Record reorder_recommendation := {
  should_reorder : bool;
  recommended_quantity : Z;
  reorder_date : Calendar.timestamp;
  (** the two numbers the [reason] text is formatted from *)
  reason_demand : Z;
  reason_stock : Z
}.

Record item_forecast := {
  item_id : string;
  item_name : string;
  current_stock : Z;
  predicted_demand : list forecast_point;
  reorder : reorder_recommendation;
  confidence_score : float
}.

(** The body of [for day in range(1, days_ahead + 1)]. *)
Definition forecast_day (now : Calendar.timestamp) (avg_daily_demand : float)
    (include_seasonality : bool) (sales_data : list sale_doc) (day : Z)
  : Py.result forecast_point :=
  let forecast_date := Calendar.add_days now day in
  let base_demand :=
    if include_seasonality
    then (avg_daily_demand * _get_seasonal_factor forecast_date sales_data)%float
    else avg_daily_demand in
  let* n := Py.int_of_float base_demand in
  Py.ok {| fp_date := forecast_date;
           fp_predicted_demand := Z.max 0 n;
           fp_confidence := 0.75%float |}.

Fixpoint forecast_days (now : Calendar.timestamp) (avg_daily_demand : float)
    (include_seasonality : bool) (sales_data : list sale_doc) (days : list Z)
  : Py.result (list forecast_point) :=
  match days with
  | [] => Py.ok []
  | day :: rest =>
      let* p := forecast_day now avg_daily_demand include_seasonality sales_data day in
      let* ps := forecast_days now avg_daily_demand include_seasonality sales_data rest in
      Py.ok (p :: ps)
  end.

(** [range(1, days_ahead + 1)] *)
Definition day_range (days_ahead : Z) : list Z :=
  map (fun i => Z.of_nat i + 1) (seq 0 (Z.to_nat days_ahead)).

(** The body of [for item_id in item_ids] for an item that was found. *)
Definition forecast_item (db : database) (now : Calendar.timestamp) (id : string)
    (item_data : item_doc) (days_ahead : Z) (include_seasonality : bool)
  : Py.result item_forecast :=
  let sales_data := _get_item_sales_history db id in
  let stock := get (stockLevel item_data) 0 in
  let avg_daily_demand := _calculate_average_daily_demand now sales_data in
  let* forecast_data :=
    forecast_days now avg_daily_demand include_seasonality sales_data (day_range days_ahead) in
  let total_predicted_demand := sum_Z (map fp_predicted_demand forecast_data) in
  let reorder_point := Z.max 0 (total_predicted_demand - stock) in
  Py.ok {| item_id := id;
           item_name := get (itemName item_data) "Unknown";
           current_stock := stock;
           predicted_demand := forecast_data;
           reorder := {| should_reorder := (0 <? reorder_point)%Z;
                         recommended_quantity := reorder_point;
                         reorder_date := Calendar.add_days now 7;
                         reason_demand := total_predicted_demand;
                         reason_stock := stock |};
           confidence_score := 0.75%float |}.

Fixpoint forecast_inventory_demand (db : database) (now : Calendar.timestamp)
    (item_ids : list string) (days_ahead : Z) (include_seasonality : bool)
  : Py.result (list item_forecast) :=
  match item_ids with
  | [] => Py.ok []
  | id :: rest =>
      match _get_item_data db id with
      | None => forecast_inventory_demand db now rest days_ahead include_seasonality
      | Some item_data =>
          let* r := forecast_item db now id item_data days_ahead include_seasonality in
          let* rs := forecast_inventory_demand db now rest days_ahead include_seasonality in
          Py.ok (r :: rs)
      end
  end.

Record risk_factor := {
  factor : string;
  (** the number the [value] text is formatted from *)
  value : float;
  impact : string
}.

Record risk_assessment := {
  ra_customer_id : string;
  risk_score : float;
  risk_level : string;
  risk_factors : list risk_factor;
  recommendations : list string;
  assessment_date : Calendar.timestamp
}.

(** The recommendations that depend on the factors that fired. *)
Definition factor_recommendation (f : risk_factor) : list string :=
  if Py.contains "Credit Utilization" (factor f)
  then ["Consider discussing credit limit adjustment"]
  else if Py.contains "Late Payments" (factor f)
  then ["Implement automated payment reminders"]
  else [].

Definition _generate_risk_recommendations (level : string) (factors : list risk_factor)
  : list string :=
  ((if String.eqb level "High" then
     [ "Consider reducing credit limit or requiring advance payment";
       "Implement more frequent payment reminders";
       "Review customer's financial stability and payment capacity" ]
   else if String.eqb level "Medium" then
     [ "Monitor payment behavior closely";
       "Consider offering payment plan options";
       "Send proactive payment reminders" ]
   else [ "Continue regular monitoring" ])
  ++ concat (map factor_recommendation factors))%list.

(** The running pair [(risk_factors, risk_score)] of [assess_customer_risk]. *)
Definition risk_acc : Type := list risk_factor * float.

Definition fire (acc : risk_acc) (f : risk_factor) (weight : float) : risk_acc :=
  ((fst acc ++ [f])%list, (snd acc + weight)%float).

(** Credit utilization risk *)
Definition credit_utilization_rule (credit_limit outstanding : float) (acc : risk_acc)
  : risk_acc :=
  if Py.gt credit_limit 0 then
    let utilization := (outstanding / credit_limit)%float in
    if Py.gt utilization 0.8
    then fire acc {| factor := "High Credit Utilization";
                     value := utilization; impact := "High" |} 0.3
    else acc
  else acc.

(** Payment history risk *)
Definition payment_history_rule (payment_history : list payment_doc) (acc : risk_acc)
  : risk_acc :=
  match payment_history with
  | [] => acc
  | _ =>
      let late_payments :=
        Z.of_nat (length (List.filter (fun p => get (isLate p) false) payment_history)) in
      let late_payment_ratio :=
        Py.truediv late_payments (Z.of_nat (length payment_history)) in
      if Py.gt late_payment_ratio 0.2
      then fire acc {| factor := "Frequent Late Payments";
                       value := late_payment_ratio; impact := "High" |} 0.4
      else acc
  end.

(** Outstanding amount risk *)
Definition outstanding_amount_rule (credit_limit outstanding : float) (acc : risk_acc)
  : risk_acc :=
  if Py.gt outstanding (credit_limit * 0.5)%float
  then fire acc {| factor := "High Outstanding Amount";
                   value := outstanding; impact := "Medium" |} 0.2
  else acc.

Definition score_level (score : float) : string :=
  if Py.ge score 0.7 then "High"
  else if Py.ge score 0.4 then "Medium"
  else "Low".

Definition assess_customer_risk (db : database) (now : Calendar.timestamp)
    (customer_id : string) (assessment_type : string) : Py.result risk_assessment :=
  match _get_customer_data db customer_id with
  | None => Py.raise (Py.CustomerNotFound customer_id)
  | Some customer_data =>
      let payment_history := _get_customer_payment_history db customer_id in
      let credit_limit := get (creditLimit customer_data) 0%float in
      let outstanding := get (outstandingAmount customer_data) 0%float in
      let acc : risk_acc := ([], 0.0%float) in
      let acc := credit_utilization_rule credit_limit outstanding acc in
      let acc := payment_history_rule payment_history acc in
      let acc := outstanding_amount_rule credit_limit outstanding acc in
      let level := score_level (snd acc) in
      Py.ok {| ra_customer_id := customer_id;
               risk_score := Py.min (snd acc) 1.0;
               risk_level := level;
               risk_factors := fst acc;
               recommendations := _generate_risk_recommendations level (fst acc);
               assessment_date := now |}
  end.

End PredictionRules.

(** ** The parts of numpy and scikit-learn the code relies on

    Both are dependencies, not part of the repository, and are modelled
    from their implementation: [np.sum] adds the elements of a contiguous
    array pairwise; [LabelEncoder] numbers the sorted distinct labels it was
    fit on and rejects a label it has not seen; [StandardScaler] rejects an
    infinite value and standardises every column with the mean and the
    population standard deviation of the samples it was last fit on, a
    column whose variance is within the rounding error of 0 being left with
    scale 1. *)

Module Numpy.

(** The eight running sums of the unrolled addition loop. *)
Record sums := {
  r0 : float; r1 : float; r2 : float; r3 : float;
  r4 : float; r5 : float; r6 : float; r7 : float
}.

(** [for (i = 8; i < n - (n % 8); i += 8) r[j] += a[i + j]]: whole groups of
    eight are added to the running sums, what is left of the array is
    returned. *)
Fixpoint accumulate (r : sums) (a : list float) : sums * list float :=
  match a with
  | a0 :: a1 :: a2 :: a3 :: a4 :: a5 :: a6 :: a7 :: rest =>
      accumulate {| r0 := r0 r + a0; r1 := r1 r + a1; r2 := r2 r + a2; r3 := r3 r + a3;
                    r4 := r4 r + a4; r5 := r5 r + a5; r6 := r6 r + a6; r7 := r7 r + a7 |}%float
                 rest
  | _ => (r, a)
  end.

(** An array of at most 128 elements: fewer than eight are added from the
    left, starting from -0; otherwise the eight running sums are combined
    and the elements after the last whole group are added from the left. *)
Definition block (a : list float) : float :=
  match a with
  | a0 :: a1 :: a2 :: a3 :: a4 :: a5 :: a6 :: a7 :: rest =>
      let '(r, tail) :=
        accumulate {| r0 := a0; r1 := a1; r2 := a2; r3 := a3;
                      r4 := a4; r5 := a5; r6 := a6; r7 := a7 |} rest in
      fold_left PrimFloat.add tail
        (((r0 r + r1 r) + (r2 r + r3 r)) + ((r4 r + r5 r) + (r6 r + r7 r)))%float
  | _ => fold_left PrimFloat.add a (-0)%float
  end.

Definition PW_BLOCKSIZE : nat := 128.

(** [pairwise_sum]: an array of more than 128 elements is cut near its
    middle, at a multiple of eight, and the sums of the two parts are
    added.  [depth] bounds the number of cuts; every cut shortens the
    array, so that its length is enough. *)
Fixpoint pairwise_sum (depth : nat) (a : list float) : float :=
  match depth with
  | O => block a
  | S depth' =>
      if (length a <=? PW_BLOCKSIZE)%nat then block a
      else
        let n2 := (length a / 2)%nat in
        let n2 := (n2 - n2 mod 8)%nat in
        (pairwise_sum depth' (take n2 a) + pairwise_sum depth' (drop n2 a))%float
  end.

(** [np.sum] of a one-dimensional or of a contiguous column: the reduction
    starts from the identity of the addition. *)
Definition sum (l : list float) : float := (0 + pairwise_sum (length l) l)%float.

(** [np.mean]: the sum divided by the number of elements. *)
Definition mean (l : list float) : float :=
  (sum l / Py.float_of_Z (Z.of_nat (length l)))%float.

(** [np.nansum]: the sum with every [nan] replaced by 0. *)
Definition nansum (l : list float) : float :=
  sum (map (fun x => if PrimFloat.is_nan x then 0%float else x) l).

End Numpy.

Module Sklearn.

Module LabelEncoder.

(** The fitted attribute [classes_]. *)
Definition classes : Type := list string.

Fixpoint insert_sorted (s : string) (l : list string) : list string :=
  match l with
  | [] => [s]
  | x :: rest =>
      match String.compare s x with
      | Lt => s :: l
      | Eq => l
      | Gt => x :: insert_sorted s rest
      end
  end.

(** [fit(y)]: the sorted distinct labels. *)
Definition fit (y : list string) : classes := fold_right insert_sorted [] y.

Fixpoint encode (cs : classes) (s : string) : option Z :=
  match cs with
  | [] => None
  | c :: rest => if String.eqb c s then Some 0 else option_map Z.succ (encode rest s)
  end.

Definition seen (cs : classes) (s : string) : bool :=
  match encode cs s with Some _ => true | None => false end.

(** [transform(y)]: the labels are looked up one after the other, and the
    first one outside [classes_] is the one the error names. *)
Definition transform (cs : classes) (y : list string) : Py.result (list Z) :=
  match List.filter (fun s => negb (seen cs s)) y with
  | [] => Py.ok (map (fun s => get (encode cs s) 0) y)
  | first :: _ => Py.raise (Py.UnseenLabels first)
  end.

Definition fit_transform (y : list string) : classes * Py.result (list Z) :=
  (fit y, transform (fit y) y).

End LabelEncoder.

Module StandardScaler.

(** The fitted attributes, one entry per column. *)
Record fitted := {
  mean_ : list float;
  scale_ : list float
}.

Definition column (X : list (list float)) (j : nat) : list float :=
  map (fun row => nth j row 0%float) X.

(** The number of values of a column that are not [nan]. *)
Definition sample_count (col : list float) : Z :=
  Z.of_nat (length (List.filter (fun x => negb (PrimFloat.is_nan x)) col)).

(** [_incremental_mean_and_var] on a scaler that has seen no sample: the
    mean is the sum of the column, added to the empty sum 0 of the samples
    seen before, over the number of values. *)
Definition column_mean (col : list float) : float :=
  ((0 + Numpy.nansum col) / Py.float_of_Z (sample_count col))%float.

(** The variance by the corrected two-pass algorithm: the squared
    deviations from the mean are added, and the square of the sum of the
    deviations, which is 0 in exact arithmetic, is subtracted. *)
Definition column_var (col : list float) : float :=
  let n := Py.float_of_Z (sample_count col) in
  let T := (Numpy.nansum col / n)%float in
  let temp := map (fun x => x - T)%float col in
  let correction := Numpy.nansum temp in
  let unnormalized :=
    (Numpy.nansum (map (fun t => t * t)%float temp) - correction * correction / n)%float in
  (unnormalized / n)%float.

(** [np.finfo(np.float64).eps] *)
Definition eps : float := 0x1p-52%float.

(** [_is_constant_feature]: the variance is within the error bound of the
    two-pass algorithm. *)
Definition _is_constant_feature (var mean : float) (n_samples : Z) : bool :=
  let n := Py.float_of_Z n_samples in
  let upper_bound := (n * eps * var + (n * mean * eps) * (n * mean * eps))%float in
  (var <=? upper_bound)%float.

(** [scale_]: the square root of the variance, and 1 for a column that
    is constant. *)
Definition column_scale (col : list float) : float :=
  let var := column_var col in
  if _is_constant_feature var (column_mean col) (sample_count col)
  then 1%float else PrimFloat.sqrt var.

Definition width (X : list (list float)) : nat :=
  match X with
  | [] => 0
  | row :: _ => length row
  end.

(** The validation of the input lets [nan] through and rejects an
    infinity. *)
Definition has_infinity (X : list (list float)) : bool :=
  existsb (existsb PrimFloat.is_infinity) X.

(** [fit(X)]: an array with an infinite value or without samples is
    rejected. *)
Definition fit (X : list (list float)) : Py.result fitted :=
  if has_infinity X then Py.raise Py.InfiniteInput
  else
    match X with
    | [] => Py.raise Py.EmptyInput
    | _ =>
        let cols := map (column X) (seq 0 (width X)) in
        Py.ok {| mean_ := map column_mean cols; scale_ := map column_scale cols |}
    end.

Fixpoint scale_row (row means scales : list float) : list float :=
  match row, means, scales with
  | x :: row', m :: means', s :: scales' =>
      ((x - m) / s)%float :: scale_row row' means' scales'
  | _, _, _ => []
  end.

Definition transform (f : fitted) (X : list (list float)) : list (list float) :=
  map (fun row => scale_row row (mean_ f) (scale_ f)) X.

(** [fit_transform(X)]: the scaler is reset, fit on [X], and [X] is
    transformed with the statistics just computed. *)
Definition fit_transform (X : list (list float))
  : option fitted * Py.result (list (list float)) :=
  match fit X with
  | inl e => (None, inl e)
  | inr f => (Some f, Py.ok (transform f X))
  end.

End StandardScaler.

End Sklearn.

(** ** Settings ([config/settings.py]) *)

Record settings := {
  MIN_TRAINING_DATA_SIZE : nat;
  MODEL_RETRAIN_INTERVAL_HOURS : Z;
  MIN_MODEL_ACCURACY : float;
  MIN_MODEL_PRECISION : float;
  MIN_MODEL_RECALL : float
}.

Definition default_settings : settings := {|
  MIN_TRAINING_DATA_SIZE := 100;
  MODEL_RETRAIN_INTERVAL_HOURS := 24;
  MIN_MODEL_ACCURACY := 0.75;
  MIN_MODEL_PRECISION := 0.70;
  MIN_MODEL_RECALL := 0.70
|}.

(** ** [BaseMLModel]: the model lifecycle manager *)

Module BaseModel.

Local Open Scope string_scope.

(** The scores [train] records. *)
Record evaluation := {
  train_score : float;
  test_score : float;
  cv_mean_score : float;
  cv_std_score : float;
  metrics : list (string * float)
}.

(** [model_metadata] after a training run; the empty dictionary of a new
    manager is [None]. *)
Record metadata := {
  md_model_name : string;
  md_model_type : string;
  trained_at : Calendar.timestamp;
  training_data_size : nat;
  feature_count : nat;
  md_evaluation : evaluation;
  md_feature_columns : list string;
  md_target_column : option string
}.

(** A path of the model storage directory: no file, a file that a failed
    write left incomplete, or a complete file. *)
Inductive file (A : Type) : Type :=
| Missing
| Truncated
| Stored (content : A).
Arguments Missing {A}.
Arguments Truncated {A}.
Arguments Stored {A} content.

Definition exists_ {A} (f : file A) : bool :=
  match f with
  | Missing => false
  | Truncated | Stored _ => true
  end.

(** How a write to a path ends. *)
Inductive write_outcome : Type :=
| Written            (* the file holds the new content *)
| FailedUntouched    (* the write raised before the file was opened *)
| FailedTruncated.   (* the write raised after the file was opened *)

Definition write {A} (o : write_outcome) (old : file A) (content : A) : file A * bool :=
  match o with
  | Written => (Stored content, true)
  | FailedUntouched => (old, false)
  | FailedTruncated => (Truncated, false)
  end.

(** What [prepare_features] leaves behind: the attributes of the subclass,
    [feature_columns] when the call got as far as assigning it, and the
    prepared frame or the exception. *)
Record prep_outcome (Pipeline Prepared : Type) := {
  po_pipeline : Pipeline;
  po_feature_columns : option (list string);
  po_result : Py.result Prepared
}.
Arguments po_pipeline {Pipeline Prepared} _.
Arguments po_feature_columns {Pipeline Prepared} _.
Arguments po_result {Pipeline Prepared} _.

(** The abstract methods of [BaseMLModel] that shape the data; the
    constructor arguments [model_name] and [model_type] come with them. *)
Class Variant (DataFrame Prepared Pipeline : Type) := {
  model_name : string;
  model_type : string;
  (** [len(data)] *)
  frame_len : DataFrame -> nat;
  prepare_features :
    Calendar.timestamp -> Pipeline -> DataFrame -> prep_outcome Pipeline Prepared
}.

(** The estimator of a variant: what [create_model] returns and the calls
    into scikit-learn that [train] and [predict] make on it. *)
Class Learner (Prepared Split Estimator : Type) := {
  create_model : Estimator;
  (** [hasattr(model, 'predict_proba')] *)
  has_predict_proba : Estimator -> bool;
  (** [model.feature_importances_], when the estimator has the attribute *)
  feature_importances_ : Estimator -> option (list float);
  (** [X = processed[feature_columns]; y = processed[target_column];
      train_test_split(X, y, test_size=0.2, random_state=42, stratify=...)] *)
  train_test_split :
    Prepared -> list string -> option string -> bool -> Py.result Split;
  (** [model.fit(X_train, y_train)] *)
  fit : Estimator -> Split -> Py.result Estimator;
  (** the two scores, the metrics of the held-out part and [cross_val_score] *)
  evaluate :
    Estimator -> Split -> Prepared -> list string -> option string -> Py.result evaluation;
  (** [model.predict(processed[feature_columns])] *)
  estimator_predict : Estimator -> Prepared -> list string -> Py.result (list float);
  (** [model.predict_proba(processed[feature_columns])] *)
  estimator_predict_proba :
    Estimator -> Prepared -> list string -> Py.result (list (list float))
}.

Section Manager.

Context {DataFrame Prepared Pipeline Split Estimator : Type}.
Context `{V : Variant DataFrame Prepared Pipeline}.
Context `{L : Learner Prepared Split Estimator}.

(** The attributes of a manager; [pipeline] holds those the subclass adds. *)
Record manager := {
  model : option Estimator;
  is_trained : bool;
  feature_columns : list string;
  target_column : option string;
  model_metadata : option metadata;
  pipeline : Pipeline
}.

(** [__init__], followed by the assignments of the subclass constructor. *)
Definition init (target : option string) (p : Pipeline) : manager := {|
  model := None;
  is_trained := false;
  feature_columns := [];
  target_column := target;
  model_metadata := None;
  pipeline := p
|}.

(** The two files of the variant: the pickled [self.model] and the JSON
    text of [self.model_metadata]. *)
Record storage := {
  model_file : file (option Estimator);
  metadata_file : file (option metadata)
}.

Definition empty_storage : storage :=
  {| model_file := Missing; metadata_file := Missing |}.

(** How the two writes of [save_model] end. *)
Record save_io := {
  dump_model : write_outcome;
  dump_metadata : write_outcome
}.

Definition no_fault : save_io := {| dump_model := Written; dump_metadata := Written |}.

(** What a call finds outside the program. *)
Record run_env := {
  now : Calendar.timestamp;
  (** the outcome of [load_training_data()] *)
  loaded : Py.result DataFrame;
  io : save_io
}.

Definition set_model (m : manager) (e : option Estimator) : manager :=
  {| model := e; is_trained := is_trained m; feature_columns := feature_columns m;
     target_column := target_column m; model_metadata := model_metadata m;
     pipeline := pipeline m |}.

Definition set_is_trained (m : manager) (b : bool) : manager :=
  {| model := model m; is_trained := b; feature_columns := feature_columns m;
     target_column := target_column m; model_metadata := model_metadata m;
     pipeline := pipeline m |}.

Definition set_model_metadata (m : manager) (md : option metadata) : manager :=
  {| model := model m; is_trained := is_trained m; feature_columns := feature_columns m;
     target_column := target_column m; model_metadata := md;
     pipeline := pipeline m |}.

(** The attributes after a call of [prepare_features]. *)
Definition after_prepare (m : manager) (po : prep_outcome Pipeline Prepared) : manager :=
  {| model := model m; is_trained := is_trained m;
     feature_columns := get (po_feature_columns po) (feature_columns m);
     target_column := target_column m; model_metadata := model_metadata m;
     pipeline := po_pipeline po |}.

Definition _is_classification (m : manager) : bool :=
  match model m with
  | Some e => has_predict_proba e
  | None => false
  end.

Fixpoint metric (name : string) (ms : list (string * float)) : float :=
  match ms with
  | [] => 0%float
  | (k, v) :: rest => if String.eqb k name then v else metric name rest
  end.

Definition _meets_performance_requirements (cfg : settings) (m : manager)
    (ms : list (string * float)) : bool :=
  if _is_classification m then
    Py.ge (metric "accuracy" ms) (MIN_MODEL_ACCURACY cfg)
    && Py.ge (metric "precision" ms) (MIN_MODEL_PRECISION cfg)
    && Py.ge (metric "recall" ms) (MIN_MODEL_RECALL cfg)
  else Py.ge (metric "r2_score" ms) 0.5.

(** [save_model]: the estimator is written first, the metadata second. *)
Definition save_model (m : manager) (d : storage) (o : save_io)
  : storage * Py.result unit :=
  if negb (is_trained m) then (d, Py.raise Py.SaveUntrained)
  else
    let '(mf, written) := write (dump_model o) (model_file d) (model m) in
    let d1 := {| model_file := mf; metadata_file := metadata_file d |} in
    if negb written then (d1, Py.raise (Py.IOError "joblib.dump"))
    else
      let '(jf, written) :=
        write (dump_metadata o) (metadata_file d1) (model_metadata m) in
      let d2 := {| model_file := model_file d1; metadata_file := jf |} in
      if negb written then (d2, Py.raise (Py.IOError "json.dump"))
      else (d2, Py.ok tt).

(** [load_model]: every exception is caught and answered with [False];
    what was assigned before it stays assigned. *)
Definition load_model (m : manager) (d : storage) : manager * bool :=
  if exists_ (model_file d) && exists_ (metadata_file d) then
    match model_file d with
    | Stored est =>
        let m1 := set_model m est in
        match metadata_file d with
        | Stored md =>
            ({| model := est; is_trained := true;
                feature_columns :=
                  match md with Some x => md_feature_columns x | None => [] end;
                target_column :=
                  match md with Some x => md_target_column x | None => None end;
                model_metadata := md;
                pipeline := pipeline m |}, true)
        | _ => (m1, false)
        end
    | _ => (m, false)
    end
  else (m, false).

Definition train (cfg : settings) (env : run_env) (m : manager) (d : storage)
    (data : option DataFrame) (retrain : bool)
  : manager * storage * Py.result metadata :=
  match (match data with Some df => Py.ok df | None => loaded env end) with
  | inl e => (m, d, inl e)
  | inr data =>
      if (frame_len data <? MIN_TRAINING_DATA_SIZE cfg)%nat then
        (m, d, Py.raise (Py.InsufficientData (frame_len data) (MIN_TRAINING_DATA_SIZE cfg)))
      else
        let po := prepare_features (now env) (pipeline m) data in
        let m := after_prepare m po in
        match po_result po with
        | inl e => (m, d, inl e)
        | inr processed =>
            match train_test_split processed (feature_columns m) (target_column m)
                    (_is_classification m) with
            | inl e => (m, d, inl e)
            | inr split =>
                let est :=
                  match model m with
                  | Some e => if retrain then create_model else e
                  | None => create_model
                  end in
                let m := set_model m (Some est) in
                match fit est split with
                | inl e => (m, d, inl e)
                | inr fitted =>
                    let m := set_model m (Some fitted) in
                    match evaluate fitted split processed (feature_columns m)
                            (target_column m) with
                    | inl e => (m, d, inl e)
                    | inr ev =>
                        let md := {| md_model_name := model_name;
                                     md_model_type := model_type;
                                     trained_at := now env;
                                     training_data_size := frame_len data;
                                     feature_count := length (feature_columns m);
                                     md_evaluation := ev;
                                     md_feature_columns := feature_columns m;
                                     md_target_column := target_column m |} in
                        let m := set_model_metadata m (Some md) in
                        (* a model below the performance requirements is
                           only logged *)
                        let m := set_is_trained m true in
                        let '(d', saved) := save_model m d (io env) in
                        match saved with
                        | inl e => (m, d', inl e)
                        | inr _ => (m, d', inr md)
                        end
                    end
                end
            end
        end
  end.

(** The common start of [predict] and [predict_proba]: the lazy load. *)
Definition ensure_loaded (m : manager) (d : storage) : manager :=
  if is_trained m then m else fst (load_model m d).

(** The common end: features, then the estimator. *)
Definition run_estimator {R} (call : Estimator -> Prepared -> list string -> Py.result R)
    (env : run_env) (m : manager) (data : DataFrame) : manager * Py.result R :=
  let po := prepare_features (now env) (pipeline m) data in
  let m := after_prepare m po in
  match po_result po with
  | inl e => (m, inl e)
  | inr processed =>
      match model m with
      | None => (m, Py.raise Py.AttributeError)
      | Some est => (m, call est processed (feature_columns m))
      end
  end.

Definition predict (env : run_env) (m : manager) (d : storage) (data : DataFrame)
  : manager * Py.result (list float) :=
  let m := ensure_loaded m d in
  if negb (is_trained m) then (m, Py.raise (Py.NotTrained model_name))
  else run_estimator estimator_predict env m data.

Definition predict_proba (env : run_env) (m : manager) (d : storage) (data : DataFrame)
  : manager * Py.result (list (list float)) :=
  let m := ensure_loaded m d in
  if negb (is_trained m) then (m, Py.raise (Py.NotTrained model_name))
  else if negb (match model m with Some e => has_predict_proba e | None => false end)
  then (m, Py.raise (Py.UnsupportedOperation model_name))
  else run_estimator estimator_predict_proba env m data.

(** [sorted(..., key=lambda x: x[1], reverse=True)]: by importance,
    largest first, ties in their original order. *)
Fixpoint insert_by_importance (x : string * float) (l : list (string * float))
  : list (string * float) :=
  match l with
  | [] => [x]
  | y :: rest =>
      if (snd x <? snd y)%float then y :: insert_by_importance x rest else x :: l
  end.

Fixpoint zip {A B} (l1 : list A) (l2 : list B) : list (A * B) :=
  match l1, l2 with
  | a :: l1', b :: l2' => (a, b) :: zip l1' l2'
  | _, _ => []
  end.

(** [get_feature_importance], written the same way in both subclasses. *)
Definition get_feature_importance (m : manager) : list (string * float) :=
  if negb (is_trained m) then []
  else
    match model m with
    | None => []
    | Some est =>
        match feature_importances_ est with
        | None => []
        | Some imps =>
            fold_right insert_by_importance [] (zip (feature_columns m) imps)
        end
    end.



End Manager.

Arguments manager : clear implicits.
Arguments storage : clear implicits.
Arguments run_env : clear implicits.

End BaseModel.

(** ** [PaymentDelayPredictor]: the feature pipeline of the delay classifier *)

Module PaymentDelayPredictor.

Local Open Scope string_scope.

(** A row of the input frame.  A cell that is [None] is a value that is
    missing, [NaN], or that [to_datetime] / [to_numeric] could not parse
    (both are called with [errors='coerce']). *)
Record row := {
  cell_dueDate : option Calendar.timestamp;
  cell_paymentDate : option Calendar.timestamp;
  cell_createdAt : option Calendar.timestamp;
  cell_amount : option float;
  cell_creditLimit : option float;
  cell_outstandingAmount : option float;
  cell_customerCategory : option string;
  cell_paymentMethod : option string
}.

(** A frame: the names of its columns and its rows; the cell of a row under
    a column the frame does not have is not read. *)
Record frame := {
  columns : list string;
  rows : list row
}.

(** [name in df.columns] *)
Definition has_column (df : frame) (name : string) : bool :=
  existsb (String.eqb name) (columns df).

(** A row of the prepared frame: the fourteen feature columns and the target. *)
Record feature_row := {
  payment_amount : float;
  credit_limit : float;
  outstanding_amount : float;
  credit_utilization : float;
  due_day_of_week : Z;
  due_day_of_month : Z;
  due_month : Z;
  due_quarter : Z;
  days_until_due : float;
  customer_category_encoded : Z;
  payment_method_encoded : Z;
  avg_delay_days : Z;
  payment_frequency : Z;
  total_payments : Z;
  is_delayed : Z
}.

(** The attributes the subclass adds to the manager. *)
Record pipeline := {
  scaler : option Sklearn.StandardScaler.fitted;
  label_encoders : gmap string Sklearn.LabelEncoder.classes
}.

(** [__init__]: an unfitted scaler and no encoders. *)
Definition new_pipeline : pipeline := {| scaler := None; label_encoders := ∅ |}.

Definition the_feature_columns : list string :=
  [ "payment_amount"; "credit_limit"; "outstanding_amount"; "credit_utilization";
    "due_day_of_week"; "due_day_of_month"; "due_month"; "due_quarter";
    "days_until_due"; "customer_category_encoded"; "payment_method_encoded";
    "avg_delay_days"; "payment_frequency"; "total_payments" ].

(** [pd.to_numeric(col, errors='coerce').fillna(0)], or 0 without the column *)
Definition numeric (present : bool) (cell : option float) : float :=
  if present then
    match cell with
    | Some x => if PrimFloat.is_nan x then 0%float else x
    | None => 0%float
    end
  else 0%float.

(** A calendar field of [dueDate], 0 where there is no date. *)
Definition due_field (present : bool) (f : Calendar.timestamp -> Z)
    (cell : option Calendar.timestamp) : Z :=
  if present then
    match cell with
    | Some t => f t
    | None => 0
    end
  else 0.

(** The columns that are computed row by row; the two encoded columns are
    filled in afterwards. *)
Definition base_features (df : frame) (current_date : Calendar.timestamp) (r : row)
  : feature_row :=
  let has_due := has_column df "dueDate" in
  let delayed :=
    if has_column df "paymentDate" && has_due then
      match cell_paymentDate r, cell_dueDate r with
      | Some paid, Some due => if (0 <? Calendar.days_between paid due)%Z then 1 else 0
      | _, _ => 0
      end
    else 0 in
  let limit := numeric (has_column df "creditLimit") (cell_creditLimit r) in
  let outstanding := numeric (has_column df "outstandingAmount") (cell_outstandingAmount r) in
  {| payment_amount := numeric (has_column df "amount") (cell_amount r);
     credit_limit := limit;
     outstanding_amount := outstanding;
     credit_utilization :=
       if Py.gt limit 0
       then (let u := (outstanding / limit)%float in if PrimFloat.is_nan u then 0%float else u)
       else 0%float;
     due_day_of_week := due_field has_due Calendar.dayofweek (cell_dueDate r);
     due_day_of_month := due_field has_due Calendar.day (cell_dueDate r);
     due_month := due_field has_due Calendar.month (cell_dueDate r);
     due_quarter := due_field has_due Calendar.quarter (cell_dueDate r);
     days_until_due :=
       Py.float_of_Z
         (due_field has_due (fun due => Calendar.days_between due current_date)
            (cell_dueDate r));
     customer_category_encoded := 0;
     payment_method_encoded := 0;
     avg_delay_days := 0;
     payment_frequency := 1;
     total_payments := 1;
     is_delayed := delayed |}.

(** The encoding of one categorical column: the encoder is created and fit
    on the first frame that has the column, and only applied afterwards. *)
Definition encode_column (name : string) (present : bool) (values : list (option string))
    (encoders : gmap string Sklearn.LabelEncoder.classes)
  : gmap string Sklearn.LabelEncoder.classes * Py.result (list Z) :=
  let filled := map (fun v => get v "Unknown") values in
  if present then
    match encoders !! name with
    | None =>
        let '(cs, codes) := Sklearn.LabelEncoder.fit_transform filled in
        (<[name := cs]> encoders, codes)
    | Some cs => (encoders, Sklearn.LabelEncoder.transform cs filled)
    end
  else (encoders, Py.ok (map (fun _ => 0) values)).

Definition numerical_features (r : feature_row) : list float :=
  [ payment_amount r; credit_limit r; outstanding_amount r;
    credit_utilization r; days_until_due r ].

(** One prepared row from its row-wise columns, its two codes and its
    scaled numerical columns. *)
Definition assemble_row (b : feature_row) (category method : Z) (scaled : list float)
  : feature_row :=
  {| payment_amount := nth 0 scaled 0%float;
     credit_limit := nth 1 scaled 0%float;
     outstanding_amount := nth 2 scaled 0%float;
     credit_utilization := nth 3 scaled 0%float;
     due_day_of_week := due_day_of_week b;
     due_day_of_month := due_day_of_month b;
     due_month := due_month b;
     due_quarter := due_quarter b;
     days_until_due := nth 4 scaled 0%float;
     customer_category_encoded := category;
     payment_method_encoded := method;
     avg_delay_days := avg_delay_days b;
     payment_frequency := payment_frequency b;
     total_payments := total_payments b;
     is_delayed := is_delayed b |}.

Fixpoint assemble (base : list feature_row) (categories methods : list Z)
    (scaled : list (list float)) : list feature_row :=
  match base, categories, methods, scaled with
  | b :: base', c :: categories', m :: methods', s :: scaled' =>
      assemble_row b c m s :: assemble base' categories' methods' scaled'
  | _, _, _, _ => []
  end.

Definition prepare_features (current_date : Calendar.timestamp) (self : pipeline)
    (data : frame) : BaseModel.prep_outcome pipeline (list feature_row) :=
  let base := map (base_features data current_date) (rows data) in
  let '(encoders1, categories) :=
    encode_column "customerCategory" (has_column data "customerCategory")
      (map cell_customerCategory (rows data)) (label_encoders self) in
  match categories with
  | inl e =>
      {| BaseModel.po_pipeline := {| scaler := scaler self; label_encoders := encoders1 |};
         BaseModel.po_feature_columns := None;
         BaseModel.po_result := inl e |}
  | inr categories =>
      let '(encoders2, methods) :=
        encode_column "paymentMethod" (has_column data "paymentMethod")
          (map cell_paymentMethod (rows data)) encoders1 in
      match methods with
      | inl e =>
          {| BaseModel.po_pipeline :=
               {| scaler := scaler self; label_encoders := encoders2 |};
             BaseModel.po_feature_columns := None;
             BaseModel.po_result := inl e |}
      | inr methods =>
          let '(fitted, scaled) :=
            Sklearn.StandardScaler.fit_transform (map numerical_features base) in
          {| BaseModel.po_pipeline := {| scaler := fitted; label_encoders := encoders2 |};
             BaseModel.po_feature_columns := Some the_feature_columns;
             BaseModel.po_result :=
               let* X := scaled in
               Py.ok (assemble base categories methods X) |}
      end
  end.

End PaymentDelayPredictor.

(** [PaymentDelayPredictor] as a variant: [super().__init__("payment_delay",
    "classification")] and the overridden [prepare_features]. *)
#[export] Instance delay_variant :
  BaseModel.Variant PaymentDelayPredictor.frame
    (list PaymentDelayPredictor.feature_row) PaymentDelayPredictor.pipeline := {|
  BaseModel.model_name := "payment_delay";
  BaseModel.model_type := "classification";
  BaseModel.frame_len := fun df => length (PaymentDelayPredictor.rows df);
  BaseModel.prepare_features := PaymentDelayPredictor.prepare_features
|}.

(** ** [PredictionService]: the payment-delay path *)

Module PredictionService.

Import PredictionRules.
Local Open Scope string_scope.

Record prediction := {
  dp_customer_id : string;
  delay_probability : float;
  predicted_delay_days : Z;
  dp_risk_level : string;
  dp_confidence_score : float;
  factors : list (string * float)
}.

Record bulk_summary := {
  total_customers : nat;
  successful_predictions : nat;
  high_risk_customers : Z;
  medium_risk_customers : Z;
  low_risk_customers : Z;
  average_delay_probability : float
}.

Record bulk_result := {
  predictions : list prediction;
  summary : bulk_summary
}.

Section Service.

Context {Split Estimator : Type}.
Context `{L : BaseModel.Learner (list PaymentDelayPredictor.feature_row) Split Estimator}.

(** The delay model of the service and the storage directory it saves
    to; the amount model takes no part in the paths modelled here. *)
Record service := {
  payment_delay_model : BaseModel.manager PaymentDelayPredictor.pipeline Estimator;
  disk : BaseModel.storage Estimator
}.

Definition env : Type := BaseModel.run_env PaymentDelayPredictor.frame.

(** [PaymentDelayPredictor()] *)
Definition new_delay_model : BaseModel.manager PaymentDelayPredictor.pipeline Estimator :=
  BaseModel.init (Some "is_delayed") PaymentDelayPredictor.new_pipeline.

(** [_ensure_model_trained] *)
Definition _ensure_model_trained (cfg : settings) (e : env) (s : service)
  : service * Py.result unit :=
  if BaseModel.is_trained (payment_delay_model s) then (s, Py.ok tt)
  else
    let '(m, d, r) :=
      BaseModel.train cfg e (payment_delay_model s) (disk s) None false in
    ({| payment_delay_model := m; disk := d |},
     let* _ := r in Py.ok tt).

(** [amount or customer_data.get('averageOrderValue', 1000)] *)
Definition amount_or_default (amount : option float) (c : customer_doc) : float :=
  match amount with
  | Some a => if (a =? 0)%float then get (averageOrderValue c) 1000%float else a
  | None => get (averageOrderValue c) 1000%float
  end.

(** The one-row frame the prediction is made on. *)
Definition prediction_data (e : env) (c : customer_doc) (amount : option float)
    (due_date : option Calendar.timestamp) (days_ahead : Z)
  : PaymentDelayPredictor.frame :=
  {| PaymentDelayPredictor.columns :=
       [ "customerId"; "amount"; "dueDate"; "creditLimit"; "outstandingAmount";
         "customerCategory"; "paymentMethod" ];
     PaymentDelayPredictor.rows :=
       [ {| PaymentDelayPredictor.cell_dueDate :=
              Some (get due_date (Calendar.add_days (BaseModel.now e) days_ahead));
            PaymentDelayPredictor.cell_paymentDate := None;
            PaymentDelayPredictor.cell_createdAt := None;
            PaymentDelayPredictor.cell_amount := Some (amount_or_default amount c);
            PaymentDelayPredictor.cell_creditLimit := Some (get (creditLimit c) 0%float);
            PaymentDelayPredictor.cell_outstandingAmount :=
              Some (get (outstandingAmount c) 0%float);
            PaymentDelayPredictor.cell_customerCategory :=
              Some (get (category c) "Regular");
            PaymentDelayPredictor.cell_paymentMethod :=
              Some (get (preferredPaymentMethod c) "Bank Transfer") |} ] |}.

(** What is computed from the two outputs of the model. *)
Definition delay_result (customer_id : string) (delay_prob : list (list float))
    (delay_prediction : list float) (feature_importance : list (string * float))
  : Py.result prediction :=
  match delay_prob, delay_prediction with
  | (_ :: p1 :: _) :: _, y0 :: _ =>
      let delay_probability := p1 in
      let* days := (if Py.gt y0 0 then Py.int_of_float y0 else Py.ok 0%Z) in
      Py.ok {| dp_customer_id := customer_id;
               delay_probability := delay_probability;
               predicted_delay_days := days;
               dp_risk_level := _calculate_risk_level delay_probability;
               dp_confidence_score :=
                 Py.max delay_probability (1 - delay_probability)%float;
               factors := take 5 feature_importance |}
  | _, _ => Py.raise Py.IndexError
  end.

Definition predict_payment_delay (cfg : settings) (e : env) (db : database) (s : service)
    (customer_id : string) (amount : option float)
    (due_date : option Calendar.timestamp) (days_ahead : Z)
  : service * Py.result prediction :=
  let '(s, trained) := _ensure_model_trained cfg e s in
  match trained with
  | inl err => (s, inl err)
  | inr _ =>
      match _get_customer_data db customer_id with
      | None => (s, Py.raise (Py.CustomerNotFound customer_id))
      | Some customer_data =>
          let data := prediction_data e customer_data amount due_date days_ahead in
          let '(m, delay_prob) :=
            BaseModel.predict_proba e (payment_delay_model s) (disk s) data in
          let s := {| payment_delay_model := m; disk := disk s |} in
          match delay_prob with
          | inl err => (s, inl err)
          | inr delay_prob =>
              let '(m, delay_prediction) :=
                BaseModel.predict e (payment_delay_model s) (disk s) data in
              let s := {| payment_delay_model := m; disk := disk s |} in
              match delay_prediction with
              | inl err => (s, inl err)
              | inr delay_prediction =>
                  (s, delay_result customer_id delay_prob delay_prediction
                        (BaseModel.get_feature_importance (payment_delay_model s)))
              end
          end
      end
  end.

(** The local variables of the loop of [predict_payment_delay_bulk]. *)
Record bulk_acc := {
  acc_predictions : list prediction;
  high_risk_count : Z;
  medium_risk_count : Z;
  low_risk_count : Z
}.

Definition bulk_start : bulk_acc :=
  {| acc_predictions := []; high_risk_count := 0;
     medium_risk_count := 0; low_risk_count := 0 |}.

(** [predictions.append(prediction)] and the count of its risk level *)
Definition record_prediction (acc : bulk_acc) (p : prediction) : bulk_acc :=
  let ps := (acc_predictions acc ++ [p])%list in
  if String.eqb (dp_risk_level p) "High" then
    {| acc_predictions := ps; high_risk_count := high_risk_count acc + 1;
       medium_risk_count := medium_risk_count acc;
       low_risk_count := low_risk_count acc |}
  else if String.eqb (dp_risk_level p) "Medium" then
    {| acc_predictions := ps; high_risk_count := high_risk_count acc;
       medium_risk_count := medium_risk_count acc + 1;
       low_risk_count := low_risk_count acc |}
  else
    {| acc_predictions := ps; high_risk_count := high_risk_count acc;
       medium_risk_count := medium_risk_count acc;
       low_risk_count := low_risk_count acc + 1 |}.

(** [for customer_id in customer_ids]: an exception of the single path is
    logged and the loop goes on. *)
Fixpoint bulk_loop (cfg : settings) (e : env) (db : database) (days_ahead : Z)
    (customer_ids : list string) (s : service) (acc : bulk_acc) : service * bulk_acc :=
  match customer_ids with
  | [] => (s, acc)
  | customer_id :: rest =>
      let '(s, r) := predict_payment_delay cfg e db s customer_id None None days_ahead in
      match r with
      | inr prediction =>
          bulk_loop cfg e db days_ahead rest s (record_prediction acc prediction)
      | inl _ => bulk_loop cfg e db days_ahead rest s acc
      end
  end.

Definition predict_payment_delay_bulk (cfg : settings) (e : env) (db : database)
    (s : service) (customer_ids : list string) (days_ahead : Z)
  : service * Py.result bulk_result :=
  let '(s, acc) := bulk_loop cfg e db days_ahead customer_ids s bulk_start in
  let ps := acc_predictions acc in
  (s, Py.ok {| predictions := ps;
               summary :=
                 {| total_customers := length customer_ids;
                    successful_predictions := length ps;
                    high_risk_customers := high_risk_count acc;
                    medium_risk_customers := medium_risk_count acc;
                    low_risk_customers := low_risk_count acc;
                    average_delay_probability :=
                      match ps with
                      | [] => 0%float
                      | _ => Numpy.mean (map delay_probability ps)
                      end |} |}).

End Service.

Arguments service : clear implicits.

End PredictionService.

(** ** [TrainingService]: the guard around a training run

    [_train_model] is a coroutine.  Between two of its [await]s it runs
    without interruption; at an [await] the event loop may run any other
    task.  A call is therefore split at its three awaits (the data check,
    [model.train] and the write of the metadata row), and the service is
    driven by the events of the loop: a new call, or the resumption of a
    suspended call with the result it was waiting for. *)

Module TrainingService.

Local Open Scope string_scope.

(** The dictionary [_train_model] returns. *)
Inductive answer : Type :=
| skipped (reason : string)
| failed_insufficient (count need : nat)
| failed_error (error : Py.exn)
| success (training_duration_seconds : Z) (metrics : list (string * float))
    (data_size : nat).

Definition status (a : answer) : string :=
  match a with
  | skipped _ => "skipped"
  | failed_insufficient _ _ | failed_error _ => "failed"
  | success _ _ _ => "success"
  end.

(** Where a suspended call waits. *)
Inductive phase : Type :=
| AwaitingDataCheck
| AwaitingTrain (start_time : Calendar.timestamp)
| AwaitingSaveMetadata (training_result : BaseModel.metadata) (training_duration : Z).

Record task := {
  model_type : string;
  force_retrain : bool;
  at_phase : phase
}.

(** The attribute [training_in_progress] of the service and the calls of
    [_train_model] that are suspended on the event loop. *)
Record world := {
  training_in_progress : gmap string bool;
  tasks : list task
}.

(** [TrainingService()] on an idle loop. *)
Definition initial : world := {| training_in_progress := ∅; tasks := [] |}.

(** What [_train_model] reads of the model it is given. *)
Record model_view := {
  view_is_trained : bool;
  view_trained_at : option Calendar.timestamp
}.

(** What a suspended call is resumed with. *)
Inductive awaited : Type :=
| DataCheck (count : option nat)   (* [None]: the count raised, or the type is unknown *)
    (now : Calendar.timestamp)
| Trained (r : Py.result BaseModel.metadata) (end_time : Calendar.timestamp)
| MetadataSaved.

Inductive event : Type :=
| Call (model_type : string) (force_retrain : bool) (view : model_view)
    (now : Calendar.timestamp)
| Resume (i : nat) (a : awaited).

(** What the rest of the program sees of a step. *)
Inductive observation : Type :=
| Returned (model_type : string) (a : answer)
| TrainCalled (model_type : string) (retrain : bool).

(** [datetime.now() - last_trained_date < timedelta(hours=...)] *)
Definition recent_enough (cfg : settings) (view : model_view) (now : Calendar.timestamp)
  : bool :=
  match view_trained_at view with
  | Some last_trained => (now - last_trained <? MODEL_RETRAIN_INTERVAL_HOURS cfg * 3600)%Z
  | None => false
  end.

(** From the call to the first await, or to an early [return]. *)
Definition enter (cfg : settings) (w : world) (mt : string) (force : bool)
    (view : model_view) (now : Calendar.timestamp) : world * list observation :=
  match training_in_progress w !! mt with
  | Some _ => (w, [Returned mt (skipped "Training already in progress")])
  | None =>
      let marked := <[mt := true]> (training_in_progress w) in
      if negb force && view_is_trained view && recent_enough cfg view now then
        (* [return] inside [try]: the [finally] clause runs *)
        ({| training_in_progress := delete mt marked; tasks := tasks w |},
         [Returned mt (skipped "Model is recent enough")])
      else
        ({| training_in_progress := marked;
            tasks := tasks w ++ [{| model_type := mt; force_retrain := force;
                                    at_phase := AwaitingDataCheck |}] |},
         [])
  end.

(** The [finally] clause, and the end of the task. *)
Definition finish (w : world) (i : nat) (t : task) : world :=
  {| training_in_progress := delete (model_type t) (training_in_progress w);
     tasks := delete i (tasks w) |}.

Definition suspend (w : world) (i : nat) (t : task) (p : phase) : world :=
  {| training_in_progress := training_in_progress w;
     tasks := <[i := {| model_type := model_type t; force_retrain := force_retrain t;
                        at_phase := p |}]> (tasks w) |}.

(** From one await of task [i] to the next, or to its [return]. *)
Definition resume (cfg : settings) (w : world) (i : nat) (a : awaited)
  : option (world * list observation) :=
  match tasks w !! i with
  | None => None
  | Some t =>
      match at_phase t, a with
      | AwaitingDataCheck, DataCheck count now =>
          let n := get count 0%nat in
          let sufficient :=
            match count with
            | Some c => (MIN_TRAINING_DATA_SIZE cfg <=? c)%nat
            | None => false
            end in
          if sufficient then
            Some (suspend w i t (AwaitingTrain now),
                  [TrainCalled (model_type t) (force_retrain t)])
          else
            Some (finish w i t,
                  [Returned (model_type t)
                     (failed_insufficient n (MIN_TRAINING_DATA_SIZE cfg))])
      | AwaitingTrain start_time, Trained (inl e) _ =>
          Some (finish w i t, [Returned (model_type t) (failed_error e)])
      | AwaitingTrain start_time, Trained (inr training_result) end_time =>
          Some (suspend w i t
                  (AwaitingSaveMetadata training_result (end_time - start_time)), [])
      | AwaitingSaveMetadata training_result duration, MetadataSaved =>
          Some (finish w i t,
                [Returned (model_type t)
                   (success duration
                      (BaseModel.metrics (BaseModel.md_evaluation training_result))
                      (BaseModel.training_data_size training_result))])
      | _, _ => None
      end
  end.

(** One event of the loop; an event that is not enabled changes nothing. *)
Definition step (cfg : settings) (w : world) (ev : event) : world * list observation :=
  match ev with
  | Call mt force view now => enter cfg w mt force view now
  | Resume i a =>
      match resume cfg w i a with
      | Some r => r
      | None => (w, [])
      end
  end.

Fixpoint run (cfg : settings) (w : world) (evs : list event) : world * list observation :=
  match evs with
  | [] => (w, [])
  | ev :: rest =>
      let '(w1, o1) := step cfg w ev in
      let '(w2, o2) := run cfg w1 rest in
      (w2, (o1 ++ o2)%list)
  end.

(** The variants that have a call of [_train_model] between its entry and
    its return. *)
Definition in_flight (w : world) : list string := map model_type (tasks w).

End TrainingService.

(** ** [PaymentAmountPredictor]

    The regression variant.  Its [prepare_features] reads five columns of
    the frame it is given; the frame is taken to have no column that bears
    the name of a derived one. *)

Module PaymentAmountPredictor.

Local Open Scope string_scope.

(** A row of the input frame; a cell that is [None] is a value that is
    missing, [NaN], or that could not be parsed. *)
Record row := {
  cell_amount : option float;
  cell_invoiceAmount : option float;
  cell_paymentDate : option Calendar.timestamp;
  cell_creditLimit : option float;
  cell_outstandingAmount : option float
}.

(** A frame: which of the five columns it has, and its rows. *)
Record frame := {
  has_amount : bool;
  has_invoiceAmount : bool;
  has_paymentDate : bool;
  has_creditLimit : bool;
  has_outstandingAmount : bool;
  rows : list row
}.

(** A row of the prepared frame: the six feature columns and the target. *)
Record feature_row := {
  invoice_amount : float;
  credit_limit : float;
  outstanding_amount : float;
  payment_day_of_week : Z;
  payment_month : Z;
  payment_ratio : float;
  payment_amount : float
}.

Definition the_feature_columns : list string :=
  [ "invoice_amount"; "credit_limit"; "outstanding_amount";
    "payment_day_of_week"; "payment_month"; "payment_ratio" ].

(** [col.fillna(0)] on a cell that was computed *)
Definition fillna (x : float) : float :=
  if PrimFloat.is_nan x then 0%float else x.

(** The columns of one row, for a frame that has the columns the
    function cannot do without. *)
Definition features (df : frame) (r : row) : feature_row :=
  let payment := PaymentDelayPredictor.numeric true (cell_amount r) in
  let invoice :=
    if has_invoiceAmount df
    then PaymentDelayPredictor.numeric true (cell_invoiceAmount r)
    else payment in
  let ratio :=
    if has_invoiceAmount df
    then if Py.gt invoice 0 then (payment / invoice)%float else 1.0%float
    else 1.0%float in
  {| invoice_amount := fillna invoice;
     credit_limit :=
       fillna (PaymentDelayPredictor.numeric true (cell_creditLimit r));
     outstanding_amount :=
       fillna (PaymentDelayPredictor.numeric true (cell_outstandingAmount r));
     payment_day_of_week :=
       PaymentDelayPredictor.due_field (has_paymentDate df) Calendar.dayofweek
         (cell_paymentDate r);
     payment_month :=
       PaymentDelayPredictor.due_field (has_paymentDate df) Calendar.month
         (cell_paymentDate r);
     payment_ratio := fillna ratio;
     payment_amount := payment |}.

(** [prepare_features].  Without an [amount] column there is no
    [payment_amount] to read ([KeyError]); [df.get(name, 0)] is the
    integer 0 when the column is missing, which [to_numeric] returns as it
    is and which has no [fillna] ([AttributeError]).  Both happen before
    [feature_columns] is assigned.  Neither the scaler nor the encoders
    are used. *)
Definition prepare_features (current_date : Calendar.timestamp)
    (self : PaymentDelayPredictor.pipeline) (data : frame)
  : BaseModel.prep_outcome PaymentDelayPredictor.pipeline (list feature_row) :=
  if negb (has_amount data) then
    {| BaseModel.po_pipeline := self;
       BaseModel.po_feature_columns := None;
       BaseModel.po_result := Py.raise (Py.External "KeyError: 'payment_amount'") |}
  else if negb (has_creditLimit data) || negb (has_outstandingAmount data) then
    {| BaseModel.po_pipeline := self;
       BaseModel.po_feature_columns := None;
       BaseModel.po_result := Py.raise Py.AttributeError |}
  else
    {| BaseModel.po_pipeline := self;
       BaseModel.po_feature_columns := Some the_feature_columns;
       BaseModel.po_result := Py.ok (map (features data) (rows data)) |}.

End PaymentAmountPredictor.

(** [PaymentAmountPredictor] as a variant: [super().__init__("payment_amount",
    "regression")]. *)
#[export] Instance amount_variant :
  BaseModel.Variant PaymentAmountPredictor.frame
    (list PaymentAmountPredictor.feature_row) PaymentDelayPredictor.pipeline := {|
  BaseModel.model_name := "payment_amount";
  BaseModel.model_type := "regression";
  BaseModel.frame_len := fun df => length (PaymentAmountPredictor.rows df);
  BaseModel.prepare_features := PaymentAmountPredictor.prepare_features
|}.

(** ** [TrainingService]: whole runs, the history and the audit *)

Module TrainingJobs.

Import TrainingService.
Local Open Scope string_scope.

(** What the three awaits of one call of [_train_model] come back with. *)
Record awaits := {
  (** the count of [_check_training_data_availability]; [None] when it
      raised or the type is unknown *)
  data_check : option nat;
  start_time : Calendar.timestamp;
  (** [await model.train(retrain=force_retrain)] *)
  trained : Py.result BaseModel.metadata;
  end_time : Calendar.timestamp
}.

(** [_train_model], read from top to bottom: the call as it runs when no
    other task touches the service between its awaits. *)
Definition _train_model (cfg : settings) (in_progress : gmap string bool)
    (mt : string) (force : bool) (view : model_view) (now : Calendar.timestamp)
    (a : awaits) : gmap string bool * answer :=
  match in_progress !! mt with
  | Some _ => (in_progress, skipped "Training already in progress")
  | None =>
      let marked := <[mt := true]> in_progress in
      let result :=
        if negb force && view_is_trained view && recent_enough cfg view now then
          skipped "Model is recent enough"
        else
          let sufficient :=
            match data_check a with
            | Some c => (MIN_TRAINING_DATA_SIZE cfg <=? c)%nat
            | None => false
            end in
          if negb sufficient then
            failed_insufficient (get (data_check a) 0%nat) (MIN_TRAINING_DATA_SIZE cfg)
          else
            match trained a with
            | inl e => failed_error e
            | inr training_result =>
                success (end_time a - start_time a)
                  (BaseModel.metrics (BaseModel.md_evaluation training_result))
                  (BaseModel.training_data_size training_result)
            end in
      (* [finally] *)
      (delete mt marked, result)
  end.

(** The same call on the event loop, with nothing scheduled in between:
    the call and the resumptions of the task it created. *)
Definition uninterrupted (w : world) (mt : string) (force : bool) (view : model_view)
    (now : Calendar.timestamp) (a : awaits) : list event :=
  let i := length (tasks w) in
  [ Call mt force view now;
    Resume i (DataCheck (data_check a) (start_time a));
    Resume i (Trained (trained a) (end_time a));
    Resume i MetadataSaved ].

Definition returned (obs : list observation) : list answer :=
  concat (map (fun o => match o with
                        | Returned _ a => [a]
                        | TrainCalled _ _ => []
                        end) obs).

(** An entry of [training_history]. *)
Record session := {
  timestamp : Calendar.timestamp;
  results : list (string * answer);
  session_type : string
}.

(** The attributes of the service that [train_all_models] changes. *)
Record service := {
  in_progress : gmap string bool;
  training_history : list session
}.

(** [history[-n:]] *)
Definition last_n {A} (n : nat) (history : list A) : list A :=
  drop (length history - n) history.

(** What one call of [train_all_models] finds: the two models, and for
    each of its two calls of [_train_model] the time and the awaits. *)
Record all_models_call := {
  force_retrain : bool;
  delay_view : model_view;
  delay_now : Calendar.timestamp;
  delay_awaits : awaits;
  amount_view : model_view;
  amount_now : Calendar.timestamp;
  amount_awaits : awaits;
  session_now : Calendar.timestamp
}.

Definition train_all_models (cfg : settings) (s : service) (c : all_models_call)
  : service * list (string * answer) :=
  let '(p1, r1) :=
    _train_model cfg (in_progress s) "payment_delay" (force_retrain c)
      (delay_view c) (delay_now c) (delay_awaits c) in
  let '(p2, r2) :=
    _train_model cfg p1 "payment_amount" (force_retrain c)
      (amount_view c) (amount_now c) (amount_awaits c) in
  let results := [("payment_delay", r1); ("payment_amount", r2)] in
  let training_session :=
    {| timestamp := session_now c;
       results := results;
       session_type := if force_retrain c then "manual" else "scheduled" |} in
  let history := (training_history s ++ [training_session])%list in
  ({| in_progress := p2;
      training_history :=
        if (50 <? length history)%nat then last_n 50 history else history |},
   results).

(** The entry [last_training_sessions] of [get_training_status]. *)
Definition last_training_sessions (s : service) : list session :=
  match training_history s with
  | [] => []
  | history => last_n 5 history
  end.

(** [train_specific_model] picks the model; another name is an error. *)
Definition train_specific_model (cfg : settings) (in_progress : gmap string bool)
    (mt : string) (force : bool) (delay amount : model_view)
    (now : Calendar.timestamp) (a : awaits)
  : Py.result (gmap string bool * answer) :=
  if String.eqb mt "payment_delay" then
    Py.ok (_train_model cfg in_progress "payment_delay" force delay now a)
  else if String.eqb mt "payment_amount" then
    Py.ok (_train_model cfg in_progress "payment_amount" force amount now a)
  else Py.raise (Py.External ("Unknown model type: " ++ mt)).

(** [_meets_performance_threshold] *)
Definition _meets_performance_threshold (cfg : settings) (metrics : list (string * float))
    (model_category : string) : bool :=
  if String.eqb model_category "classification" then
    Py.ge (BaseModel.metric "accuracy" metrics) (MIN_MODEL_ACCURACY cfg)
    && Py.ge (BaseModel.metric "precision" metrics) (MIN_MODEL_PRECISION cfg)
    && Py.ge (BaseModel.metric "recall" metrics) (MIN_MODEL_RECALL cfg)
  else if String.eqb model_category "regression" then
    Py.ge (BaseModel.metric "r2_score" metrics) 0.5
  else false.

(** [model.model_metadata.get('metrics', {})] *)
Definition metrics_of (md : option BaseModel.metadata) : list (string * float) :=
  match md with
  | Some x => BaseModel.metrics (BaseModel.md_evaluation x)
  | None => []
  end.

(** The list [models_to_retrain] of [_check_model_performance]; each of
    its entries is then passed to [train_specific_model] with
    [force_retrain=True]. *)
Definition models_to_retrain {P1 E1 P2 E2 : Type} (cfg : settings)
    (payment_delay_model : BaseModel.manager P1 E1)
    (payment_amount_model : BaseModel.manager P2 E2) : list string :=
  ((if BaseModel.is_trained payment_delay_model
       && negb (_meets_performance_threshold cfg
                  (metrics_of (BaseModel.model_metadata payment_delay_model))
                  "classification")
    then ["payment_delay"] else [])
   ++
   (if BaseModel.is_trained payment_amount_model
       && negb (_meets_performance_threshold cfg
                  (metrics_of (BaseModel.model_metadata payment_amount_model))
                  "regression")
    then ["payment_amount"] else []))%list.

(** A document of the collection [ml_models]. *)
Record model_record := {
  mr_model_type : string;
  mr_version : Calendar.timestamp;
  mr_training_duration_seconds : Z;
  mr_metrics : list (string * float);
  mr_training_data_size : nat;
  mr_feature_count : nat;
  mr_created_at : Calendar.timestamp;
  mr_status : string
}.

Definition set_status (r : model_record) (s : string) : model_record :=
  {| mr_model_type := mr_model_type r; mr_version := mr_version r;
     mr_training_duration_seconds := mr_training_duration_seconds r;
     mr_metrics := mr_metrics r; mr_training_data_size := mr_training_data_size r;
     mr_feature_count := mr_feature_count r; mr_created_at := mr_created_at r;
     mr_status := s |}.

(** [update_many({'model_type': mt, 'version': {'$ne': version},
    'status': 'active'}, {'$set': {'status': 'inactive'}})] *)
Definition update_many (mt : string) (version : Calendar.timestamp)
    (collection : list model_record) : list model_record :=
  map (fun r =>
         if String.eqb (mr_model_type r) mt
            && negb (mr_version r =? version)%Z
            && String.eqb (mr_status r) "active"
         then set_status r "inactive" else r) collection.

(** [_save_training_metadata]: the insert, then the update; an exception
    of either is logged and ends the function.  The two flags say whether
    the database carries the operation out. *)
Definition _save_training_metadata (collection : list model_record) (mt : string)
    (training_result : BaseModel.metadata) (duration : Z) (now : Calendar.timestamp)
    (insert_done update_done : bool) : list model_record :=
  let metadata :=
    {| mr_model_type := mt;
       mr_version := BaseModel.trained_at training_result;
       mr_training_duration_seconds := duration;
       mr_metrics := BaseModel.metrics (BaseModel.md_evaluation training_result);
       mr_training_data_size := BaseModel.training_data_size training_result;
       mr_feature_count := BaseModel.feature_count training_result;
       mr_created_at := now;
       mr_status := "active" |} in
  if negb insert_done then collection
  else
    let collection := (collection ++ [metadata])%list in
    if negb update_done then collection
    else update_many mt (mr_version metadata) collection.

End TrainingJobs.

(** ** The prediction routes ([api/routes/predictions.py])

    Every request is served by a new [PredictionService] (the dependency
    [get_prediction_service] builds one per call); what lasts from one
    request to the next is the storage directory and the database. *)

Module Routes.

Import PredictionRules PredictionService.
Local Open Scope string_scope.

(** What the body of a route raises: an [HTTPException] of its own, or an
    exception of the service. *)
Inductive raised : Type :=
| HTTPException (status_code : Z) (detail : string)
| Exn (e : Py.exn).

(** What the client gets: the body, or the status and detail of the
    [HTTPException] that leaves the route. *)
Inductive detail : Type :=
| Text (s : string)
| StrOf (e : Py.exn).   (* [str(e)] *)

Inductive response (A : Type) : Type :=
| Ok200 (body : A)
| HttpError (status_code : Z) (d : detail).
Arguments Ok200 {A} body.
Arguments HttpError {A} status_code d.

(** [isinstance(e, ValueError)] for the exceptions of the delay and risk
    paths.  On these paths [int()] is applied to a positive float only, so
    that it can raise for an infinity alone ([OverflowError]); of an
    exception of a library or the database only its class is needed, which
    [external] tells. *)
Definition is_ValueError (external : string -> bool) (e : Py.exn) : bool :=
  match e with
  | Py.InsufficientData _ _ | Py.NotTrained _ | Py.UnsupportedOperation _
  | Py.SaveUntrained | Py.CustomerNotFound _ | Py.UnseenLabels _ | Py.EmptyInput
  | Py.InfiniteInput => true
  | Py.NotAnInteger | Py.IndexError | Py.AttributeError | Py.IOError _ => false
  | Py.External what => external what
  end.

(** The two [except] clauses every route ends with.  An [HTTPException]
    is an [Exception] and no [ValueError]: the second clause catches it. *)
Definition handle {A} (external : string -> bool) (r : raised + A) : response A :=
  match r with
  | inr body => Ok200 body
  | inl (Exn e) =>
      if is_ValueError external e then HttpError 400 (StrOf e)
      else HttpError 500 (Text "Prediction service error")
  | inl (HTTPException _ _) => HttpError 500 (Text "Prediction service error")
  end.

(** The fields of [PaymentPredictionRequest] the single route reads. *)
Record payment_request := {
  customer_id : option string;
  amount : option float;
  due_date : option Calendar.timestamp;
  (** validated to lie in 1..365 when it is a number; [null] is accepted *)
  days_ahead : option Z
}.

Section Delay.

Context {Split Estimator : Type}.
Context `{L : BaseModel.Learner (list PaymentDelayPredictor.feature_row) Split Estimator}.

(** [PredictionService.predict_payment_delay] as the route calls it.
    [days_ahead] is only looked at when there is no [due_date], after
    the model was trained and the customer found; [timedelta(days=None)]
    is a [TypeError]. *)
Definition call_predict_payment_delay (cfg : settings) (e : env) (db : database)
    (s : service Estimator) (id : string) (request : payment_request)
  : service Estimator * Py.result prediction :=
  match days_ahead request, due_date request with
  | Some n, _ =>
      predict_payment_delay cfg e db s id (amount request) (due_date request) n
  | None, Some _ =>
      predict_payment_delay cfg e db s id (amount request) (due_date request) 0
  | None, None =>
      let '(s, trained) := _ensure_model_trained cfg e s in
      match trained with
      | inl err => (s, inl err)
      | inr _ =>
          match _get_customer_data db id with
          | None => (s, Py.raise (Py.CustomerNotFound id))
          | Some _ => (s, Py.raise (Py.External "TypeError"))
          end
      end
  end.

(** [POST /payment-delay]: the storage directory after the request and
    the response. *)
Definition predict_payment_delay_route (external : string -> bool) (cfg : settings)
    (e : env) (db : database) (directory : BaseModel.storage Estimator)
    (request : payment_request)
  : BaseModel.storage Estimator * response prediction :=
  let prediction_service :=
    {| payment_delay_model := new_delay_model (Estimator := Estimator);
       disk := directory |} in
  match customer_id request with
  | None | Some "" =>
      (directory, handle external (inl (HTTPException 400 "customer_id is required")))
  | Some id =>
      let '(s, result) :=
        call_predict_payment_delay cfg e db prediction_service id request in
      (disk s,
       handle external
         match result with
         | inl err => inl (Exn err)
         | inr p => inr p
         end)
  end.

End Delay.

(** [POST /risk-assessment]; [customer_id] is a required field. *)
Definition assess_customer_risk_route (external : string -> bool) (db : database)
    (now : Calendar.timestamp) (customer_id assessment_type : string)
  : response risk_assessment :=
  handle external
    match assess_customer_risk db now customer_id assessment_type with
    | inl err => inl (Exn err)
    | inr r => inr r
    end.

End Routes.

(** ** The two services on one event loop

    [main.py] creates one [TrainingService] and one [PredictionService].
    Each holds models of its own for the two variants, and the models of a
    variant share its two files.  The training service trains through
    [_train_model], behind [training_in_progress]; the prediction service
    calls [train] of its models itself, in [retrain_models] (the route
    [POST /models/retrain]) and in [_ensure_model_trained] (the first
    prediction of an untrained model), and reads no guard. *)

Module EventLoop.

Local Open Scope string_scope.
Local Open Scope list_scope.

(** The training service, and the calls of the prediction service that
    are suspended in [train]: each is in the run of the first of its
    variants and trains the others after it. *)
Record process := {
  training_service : TrainingService.world;
  prediction_trainings : list (list string)
}.

Definition initial : process :=
  {| training_service := TrainingService.initial; prediction_trainings := [] |}.

Inductive event : Type :=
| Guarded (ev : TrainingService.event)
    (* an event of the training service *)
| RetrainModels (model_types : option (list string))
    (* [prediction_service.retrain_models(model_types)] *)
| PredictPaymentDelay (is_trained : bool)
    (* [predict_payment_delay] with the delay model trained or not *)
| TrainReturned (i : nat).
    (* [train] returns or raises in the [i]-th suspended call *)

(** [not model_types or name in model_types] *)
Definition requested (model_types : option (list string)) (name : string) : bool :=
  match model_types with
  | None | Some [] => true
  | Some l => existsb (String.eqb name) l
  end.

(** The variants [retrain_models] trains, in its order. *)
Definition retrain_queue (model_types : option (list string)) : list string :=
  List.filter (requested model_types) ["payment_delay"; "payment_amount"].

Definition start (p : process) (queue : list string) : process :=
  match queue with
  | [] => p
  | _ => {| training_service := training_service p;
            prediction_trainings := prediction_trainings p ++ [queue] |}
  end.

Definition step (cfg : settings) (p : process) (ev : event)
  : process * list TrainingService.observation :=
  match ev with
  | Guarded ev =>
      let '(w, obs) := TrainingService.step cfg (training_service p) ev in
      ({| training_service := w; prediction_trainings := prediction_trainings p |}, obs)
  | RetrainModels model_types => (start p (retrain_queue model_types), [])
  | PredictPaymentDelay is_trained =>
      (if is_trained then p else start p ["payment_delay"], [])
  | TrainReturned i =>
      match prediction_trainings p !! i with
      | Some (_ :: ((_ :: _) as rest)) =>
          (* [retrain_models] goes on with its next variant *)
          ({| training_service := training_service p;
              prediction_trainings := <[i := rest]> (prediction_trainings p) |}, [])
      | Some _ =>
          ({| training_service := training_service p;
              prediction_trainings := delete i (prediction_trainings p) |}, [])
      | None => (p, [])
      end
  end.

Fixpoint run (cfg : settings) (p : process) (evs : list event)
  : process * list TrainingService.observation :=
  match evs with
  | [] => (p, [])
  | ev :: rest =>
      let '(p1, o1) := step cfg p ev in
      let '(p2, o2) := run cfg p1 rest in
      (p2, o1 ++ o2)
  end.

(** The variants of the calls of [_train_model] that are in [model.train]. *)
Definition guarded_runs (w : TrainingService.world) : list string :=
  map TrainingService.model_type
    (List.filter
       (fun t => match TrainingService.at_phase t with
                 | TrainingService.AwaitingTrain _ => true
                 | _ => false
                 end)
       (TrainingService.tasks w)).

(** The variants of all runs of [train] that have started and not ended. *)
Definition training_runs (p : process) : list string :=
  guarded_runs (training_service p)
  ++ omap (fun queue => head queue) (prediction_trainings p).

(** The events of the training service among the events of the loop. *)
Definition guarded_events (evs : list event) : list TrainingService.event :=
  omap (fun ev => match ev with Guarded ev => Some ev | _ => None end) evs.

End EventLoop.
(** ** Test doubles and sample data

    A stand-in for the random forests: an estimator that remembers how many
    times it was fit and always answers with the same class and the same
    probabilities.  [classifier] says whether it offers [predict_proba]. *)

Module Fixtures.

Local Open Scope string_scope.

Definition stub_evaluation : BaseModel.evaluation := {|
  BaseModel.train_score := 0.9;
  BaseModel.test_score := 0.8;
  BaseModel.cv_mean_score := 0.8;
  BaseModel.cv_std_score := 0.05;
  BaseModel.metrics := [("accuracy", 0.8%float); ("precision", 0.8%float);
                        ("recall", 0.8%float); ("f1_score", 0.8%float)]
|}.

Definition stub_learner (classifier : bool) (probability : float)
  : BaseModel.Learner (list PaymentDelayPredictor.feature_row) unit nat := {|
  BaseModel.create_model := 0%nat;
  BaseModel.has_predict_proba := fun _ => classifier;
  BaseModel.feature_importances_ := fun _ =>
    Some [0.3; 0.05; 0.05; 0.2; 0.02; 0.02; 0.02; 0.02; 0.2; 0.05; 0.05; 0; 0; 0.02]%float;
  BaseModel.train_test_split := fun _ _ _ _ => Py.ok tt;
  BaseModel.fit := fun est _ => Py.ok (S est);
  BaseModel.evaluate := fun _ _ _ _ _ => Py.ok stub_evaluation;
  BaseModel.estimator_predict := fun _ X _ =>
    Py.ok (map (fun _ => if (0.5 <=? probability)%float then 1%float else 0%float) X);
  BaseModel.estimator_predict_proba := fun _ X _ =>
    Py.ok (map (fun _ => [(1 - probability)%float; probability]) X)
|}.

Definition training_columns : list string :=
  [ "customerId"; "amount"; "dueDate"; "paymentDate"; "creditLimit";
    "outstandingAmount"; "customerCategory"; "paymentMethod" ].

Definition training_row (amount : float) (due paid : Z) (cat method : string)
  : PaymentDelayPredictor.row := {|
  PaymentDelayPredictor.cell_dueDate := Some (due * 86400);
  PaymentDelayPredictor.cell_paymentDate := Some (paid * 86400);
  PaymentDelayPredictor.cell_createdAt := None;
  PaymentDelayPredictor.cell_amount := Some amount;
  PaymentDelayPredictor.cell_creditLimit := Some 1000%float;
  PaymentDelayPredictor.cell_outstandingAmount := Some 500%float;
  PaymentDelayPredictor.cell_customerCategory := Some cat;
  PaymentDelayPredictor.cell_paymentMethod := Some method
|}.

(** Two payments, one on time and one late. *)
Definition two_payments : PaymentDelayPredictor.frame := {|
  PaymentDelayPredictor.columns := training_columns;
  PaymentDelayPredictor.rows :=
    [ training_row 100 19000 18999 "Regular" "Bank Transfer";
      training_row 300 19010 19020 "Premium" "Cash" ]
|}.

(** A hundred payments: fifty copies of the two above. *)
Definition hundred_payments : PaymentDelayPredictor.frame := {|
  PaymentDelayPredictor.columns := training_columns;
  PaymentDelayPredictor.rows :=
    concat (repeat (PaymentDelayPredictor.rows two_payments) 50)
|}.

(** A prediction frame of one row, as [predict_payment_delay] builds it. *)
Definition one_row (amount : float) (cat method : string) : PaymentDelayPredictor.frame := {|
  PaymentDelayPredictor.columns :=
    [ "customerId"; "amount"; "dueDate"; "creditLimit"; "outstandingAmount";
      "customerCategory"; "paymentMethod" ];
  PaymentDelayPredictor.rows :=
    [ {| PaymentDelayPredictor.cell_dueDate := Some (19030 * 86400);
         PaymentDelayPredictor.cell_paymentDate := None;
         PaymentDelayPredictor.cell_createdAt := None;
         PaymentDelayPredictor.cell_amount := Some amount;
         PaymentDelayPredictor.cell_creditLimit := Some 1000%float;
         PaymentDelayPredictor.cell_outstandingAmount := Some 900%float;
         PaymentDelayPredictor.cell_customerCategory := Some cat;
         PaymentDelayPredictor.cell_paymentMethod := Some method |} ]
|}.

Definition a_customer (limit outstanding : float) : customer_doc := {|
  averageOrderValue := None;
  creditLimit := Some limit;
  outstandingAmount := Some outstanding;
  category := None;
  preferredPaymentMethod := None
|}.

Definition on_time : payment_doc := {| isLate := Some false |}.
Definition late : payment_doc := {| isLate := Some true |}.

Definition sale (q day : Z) : sale_doc :=
  {| quantity := Some q; sale_date := Some (day * 86400) |}.

(** One customer with a credit limit of 1000 and 900 outstanding whose
    three payments were on time; one item with 50 in stock that sold two
    units on each of three days. *)
Definition sample_db : database := {|
  customers := {[ "validId" := a_customer 1000 900 ]};
  payments := {[ "validId" := [on_time; on_time; {| isLate := None |}] ]};
  inventory := {[ "item-1" := {| stockLevel := Some 50; itemName := Some "Widget" |} ]};
  sales := {[ "item-1" := [sale 2 19002; sale 2 19001; sale 2 19000] ]}
|}.

Definition sample_now : Calendar.timestamp := 19020 * 86400.

Definition sample_env (o : BaseModel.write_outcome)
  : BaseModel.run_env PaymentDelayPredictor.frame := {|
  BaseModel.now := sample_now;
  BaseModel.loaded := Py.ok hundred_payments;
  BaseModel.io := {| BaseModel.dump_model := o; BaseModel.dump_metadata := BaseModel.Written |}
|}.

End Fixtures.

(** ** Vocabulary of the properties

    The predicates and reference functions the statements below are written
    with, and the concrete managers and services they are tried on. *)

Module Spec.

Local Open Scope string_scope.
Local Open Scope list_scope.

(** *** Numbers *)

(** A float that is a number: comparing it with itself gives an answer. *)
Definition ordered (x : float) : Prop := Prim2SF x <> S754_nan.

(** *** Risk assessment and forecast *)

(** A payment that is not flagged late. *)
Definition never_late (p : payment_doc) : Prop := get (isLate p) false = false.

(** What the reorder recommendation of a forecast must satisfy. *)
Definition reorder_consistent (r : PredictionRules.item_forecast) : Prop :=
  PredictionRules.recommended_quantity (PredictionRules.reorder r)
  = Z.max 0 (PredictionRules.sum_Z
               (map PredictionRules.fp_predicted_demand (PredictionRules.predicted_demand r))
             - PredictionRules.current_stock r)
  /\ (PredictionRules.should_reorder (PredictionRules.reorder r) = true
      <-> 0 < PredictionRules.recommended_quantity (PredictionRules.reorder r)).

(** *** Bulk prediction *)

(** The predictions among the outcomes of the single-customer path. *)
Fixpoint successes (rs : list (Py.result PredictionService.prediction))
  : list PredictionService.prediction :=
  match rs with
  | [] => []
  | inr p :: rest => p :: successes rest
  | inl _ :: rest => successes rest
  end.

Definition is_high (p : PredictionService.prediction) : bool :=
  String.eqb (PredictionService.dp_risk_level p) "High".
Definition is_medium (p : PredictionService.prediction) : bool :=
  String.eqb (PredictionService.dp_risk_level p) "Medium".
Definition is_low (p : PredictionService.prediction) : bool :=
  negb (is_high p) && negb (is_medium p).

Definition count (f : PredictionService.prediction -> bool)
    (ps : list PredictionService.prediction) : Z :=
  Z.of_nat (length (List.filter f ps)).

Section SinglePath.

Context {Split Estimator : Type}.
Context `{L : BaseModel.Learner (list PaymentDelayPredictor.feature_row) Split Estimator}.

(** The single-customer path called on every id in turn, each call
    starting from the service the call before left. *)
Fixpoint single_results (cfg : settings) (e : PredictionService.env) (db : database)
    (days_ahead : Z) (customer_ids : list string)
    (s : PredictionService.service Estimator)
  : list (Py.result PredictionService.prediction) :=
  match customer_ids with
  | [] => []
  | customer_id :: rest =>
      let '(s', r) :=
        PredictionService.predict_payment_delay cfg e db s customer_id None None
          days_ahead in
      r :: single_results cfg e db days_ahead rest s'
  end.

End SinglePath.

(** *** Lifecycle *)

Section Lifecycle.

Context {DataFrame Prepared Pipeline Split Estimator : Type}.
Context `{V : BaseModel.Variant DataFrame Prepared Pipeline}.
Context `{L : BaseModel.Learner Prepared Split Estimator}.

(** How a run of [train] ends: before the persistence step, with
    [is_trained] and the files as they were, or in [save_model], which
    is entered with [is_trained] already set. *)
Definition train_outcome (env : BaseModel.run_env DataFrame)
    (m : BaseModel.manager Pipeline Estimator) (d : BaseModel.storage Estimator)
    (m' : BaseModel.manager Pipeline Estimator) (d' : BaseModel.storage Estimator)
    (r : Py.result BaseModel.metadata) : Prop :=
  match r with
  | inr md =>
      BaseModel.is_trained m' = true /\
      BaseModel.model_metadata m' = Some md /\
      BaseModel.save_model m' d (BaseModel.io env) = (d', inr tt) /\
      d' = {| BaseModel.model_file := BaseModel.Stored (BaseModel.model m');
              BaseModel.metadata_file := BaseModel.Stored (Some md) |}
  | inl e =>
      (BaseModel.is_trained m' = BaseModel.is_trained m /\ d' = d) \/
      (BaseModel.is_trained m' = true /\
       BaseModel.save_model m' d (BaseModel.io env) = (d', inl e))
  end.






End Lifecycle.

(** The stand-in estimator as a classifier and as a regressor. *)
Definition classifier := Fixtures.stub_learner true 0.75.
Definition regressor := Fixtures.stub_learner false 0.75.

(** [PaymentDelayPredictor()] *)
Definition new_manager : BaseModel.manager PaymentDelayPredictor.pipeline nat :=
  BaseModel.init (Some "is_delayed") PaymentDelayPredictor.new_pipeline.

(** A service whose delay model is untrained and whose storage directory
    is empty. *)
Definition sample_service : PredictionService.service nat :=
  {| PredictionService.payment_delay_model := new_manager;
     PredictionService.disk := BaseModel.empty_storage |}.

(** Ten customers, and the ids the bulk path is asked for: the ten,
    with an id that no customer has in their midst. *)
Definition ten_ids : list string :=
  ["c0"; "c1"; "c2"; "c3"; "c4"; "c5"; "c6"; "c7"; "c8"; "c9"].

Definition ten_customers : database :=
  {| customers := list_to_map (map (fun id => (id, Fixtures.a_customer 1000 900)) ten_ids);
     payments := ∅;
     inventory := ∅;
     sales := ∅ |}.

Definition eleven_ids : list string := take 4 ten_ids ++ "invalidId" :: drop 4 ten_ids.

(** Persistence before publication, as the specification words it: a
    manager that a run of [train] leaves trained has both files written. *)
Definition persisted_before_trained : Prop :=
  forall cfg env (m : BaseModel.manager PaymentDelayPredictor.pipeline nat) d data retrain
         m' d' r,
    BaseModel.train (V := delay_variant) (L := classifier) cfg env m d data retrain
    = (m', d', r) ->
    BaseModel.is_trained m = false -> BaseModel.is_trained m' = true ->
    BaseModel.model_file d' = BaseModel.Stored (BaseModel.model m') /\
    BaseModel.metadata_file d' = BaseModel.Stored (BaseModel.model_metadata m').


(** Success after training, as the specification words it: a call of
    [predict] that failed with [NotTrained] on the untrained variant
    succeeds when it is repeated after a successful [train]. *)
Definition predict_succeeds_after_train : Prop :=
  forall cfg env (m : BaseModel.manager PaymentDelayPredictor.pipeline nat) d training
         retrain m' d' md env' data,
    BaseModel.predict (V := delay_variant) (L := classifier) env' m d data
    = (m, inl (Py.NotTrained "payment_delay")) ->
    BaseModel.train (V := delay_variant) (L := classifier) cfg env m d training retrain
    = (m', d', inr md) ->
    Py.is_ok (snd (BaseModel.predict (V := delay_variant) (L := classifier) env' m' d' data))
    = true.

(** *** Feature pipeline *)

(** The labels the two encoders are given. *)
Definition category_labels (data : PaymentDelayPredictor.frame) : list string :=
  map (fun v => get v "Unknown")
    (map PaymentDelayPredictor.cell_customerCategory (PaymentDelayPredictor.rows data)).
Definition method_labels (data : PaymentDelayPredictor.frame) : list string :=
  map (fun v => get v "Unknown")
    (map PaymentDelayPredictor.cell_paymentMethod (PaymentDelayPredictor.rows data)).

(** The codes of labels under fitted classes. *)
Definition codes (cs : Sklearn.LabelEncoder.classes) (labels : list string) : list Z :=
  map (fun s => get (Sklearn.LabelEncoder.encode cs s) 0) labels.

(** The first label, in the order of the rows, that the fitted classes do
    not hold. *)
Definition first_unseen (cs : Sklearn.LabelEncoder.classes) (labels : list string)
  : option string :=
  List.find (fun s => negb (Sklearn.LabelEncoder.seen cs s)) labels.


(** The attributes of the pipeline after the training frame went through. *)
Definition after_training : PaymentDelayPredictor.pipeline :=
  BaseModel.po_pipeline
    (PaymentDelayPredictor.prepare_features Fixtures.sample_now
       PaymentDelayPredictor.new_pipeline Fixtures.two_payments).

(** The numerical columns of a frame before scaling. *)
Definition numerical_matrix (now : Calendar.timestamp) (data : PaymentDelayPredictor.frame)
  : list (list float) :=
  map PaymentDelayPredictor.numerical_features
    (map (PaymentDelayPredictor.base_features data now) (PaymentDelayPredictor.rows data)).

(** *** Training guard *)

(** The guard and the suspended calls agree, and no variant has two calls. *)
Definition consistent (w : TrainingService.world) : Prop :=
  NoDup (TrainingService.in_flight w) /\
  forall mt,
    is_Some (TrainingService.training_in_progress w !! mt)
    <-> In mt (TrainingService.in_flight w).

(** The answer a suspended call waits for at its await. *)
Definition expected (p : TrainingService.phase) (a : TrainingService.awaited) : bool :=
  match p, a with
  | TrainingService.AwaitingDataCheck, TrainingService.DataCheck _ _ => true
  | TrainingService.AwaitingTrain _, TrainingService.Trained _ _ => true
  | TrainingService.AwaitingSaveMetadata _ _, TrainingService.MetadataSaved => true
  | _, _ => false
  end.

(** The number of awaits a suspended call has behind it. *)
Definition awaits_passed (p : TrainingService.phase) : nat :=
  match p with
  | TrainingService.AwaitingDataCheck => 0
  | TrainingService.AwaitingTrain _ => 1
  | TrainingService.AwaitingSaveMetadata _ _ => 2
  end.

Definition returns (obs : list TrainingService.observation) : list (string * TrainingService.answer) :=
  omap (fun o => match o with
                 | TrainingService.Returned mt a => Some (mt, a)
                 | TrainingService.TrainCalled _ _ => None
                 end) obs.

(** One training run per variant, as the specification words it: at no
    instant are two runs of [train] of one variant in flight. *)
Definition one_training_run_per_variant : Prop :=
  forall cfg evs,
    NoDup (EventLoop.training_runs (fst (EventLoop.run cfg EventLoop.initial evs))).

Definition sample_view : TrainingService.model_view :=
  {| TrainingService.view_is_trained := false; TrainingService.view_trained_at := None |}.

End Spec.
(** ** Vocabulary of the further properties *)

Module Laws.

Local Open Scope string_scope.

(** Largest first: no element is smaller than the one after it. *)
Fixpoint descending (l : list float) : Prop :=
  match l with
  | a :: (b :: _) as rest => (b <=? a)%float = true /\ descending rest
  | _ => True
  end.

(** The target of the delay model, said in seconds: 1 for a payment made
    a full day or more after it was due, 0 otherwise and wherever a date
    is missing. *)
Definition late_by_a_day (data : PaymentDelayPredictor.frame)
    (r : PaymentDelayPredictor.row) : Z :=
  if PaymentDelayPredictor.has_column data "paymentDate"
     && PaymentDelayPredictor.has_column data "dueDate"
  then
    match PaymentDelayPredictor.cell_paymentDate r, PaymentDelayPredictor.cell_dueDate r with
    | Some paid, Some due => if (due + 86400 <=? paid)%Z then 1 else 0
    | _, _ => 0
    end
  else 0.

(** The ids of a request that were answered: those whose outcome, at
    the same place in the list of outcomes, is not an exception. *)
Fixpoint answered {A} (ids : list string) (outcomes : list (Py.result A)) : list string :=
  match ids, outcomes with
  | id :: ids', inr _ :: rest => id :: answered ids' rest
  | _ :: ids', inl _ :: rest => answered ids' rest
  | _, _ => []
  end.

(** The score recorded under a name in the metrics of a run, if any. *)
Fixpoint recorded (name : string) (metrics : list (string * float)) : option float :=
  match metrics with
  | [] => None
  | (k, v) :: rest => if String.eqb k name then Some v else recorded name rest
  end.

(** A score misses a threshold when it is not at least the threshold; a
    score that was not recorded counts as 0. *)
Definition misses (threshold : float) (score : option float) : Prop :=
  (threshold <=? match score with Some v => v | None => 0 end)%float = false.

(** A rule of the risk assessment fired: its factor is listed. *)
Definition fired (name : string) (r : PredictionRules.risk_assessment) : Prop :=
  In name (map PredictionRules.factor (PredictionRules.risk_factors r)).

(** The item is in the inventory. *)
Definition known_item (db : database) (id : string) : bool :=
  match PredictionRules._get_item_data db id with
  | Some _ => true
  | None => false
  end.

(** What every item of a forecast looks like. *)
Definition well_formed_forecast (db : database) (now : Calendar.timestamp)
    (days_ahead : Z) (r : PredictionRules.item_forecast) : Prop :=
  (exists item,
      inventory db !! PredictionRules.item_id r = Some item /\
      PredictionRules.current_stock r = get (stockLevel item) 0 /\
      PredictionRules.item_name r = get (itemName item) "Unknown") /\
  length (PredictionRules.predicted_demand r) = Z.to_nat days_ahead /\
  map PredictionRules.fp_date (PredictionRules.predicted_demand r)
  = map (Calendar.add_days now) (PredictionRules.day_range days_ahead) /\
  Forall (fun p => 0 <= PredictionRules.fp_predicted_demand p)
    (PredictionRules.predicted_demand r) /\
  0 <= PredictionRules.recommended_quantity (PredictionRules.reorder r) /\
  PredictionRules.reorder_date (PredictionRules.reorder r) = Calendar.add_days now 7.

(** [train_all_models] called again and again, each call finding what
    the one before left. *)
Definition train_all_models_repeatedly (cfg : settings) (s : TrainingJobs.service)
    (calls : list TrainingJobs.all_models_call) : TrainingJobs.service :=
  fold_left (fun s c => fst (TrainingJobs.train_all_models cfg s c)) calls s.

(** Of every model type, the records that are active are of one version. *)
Definition one_active_version (collection : list TrainingJobs.model_record) : Prop :=
  forall r1 r2,
    In r1 collection -> In r2 collection ->
    TrainingJobs.mr_model_type r1 = TrainingJobs.mr_model_type r2 ->
    TrainingJobs.mr_status r1 = "active" -> TrainingJobs.mr_status r2 = "active" ->
    TrainingJobs.mr_version r1 = TrainingJobs.mr_version r2.

End Laws.


(** ** Further sample data *)

Module Samples.

Local Open Scope string_scope.

(** A stand-in classifier whose evaluation raises. *)
Definition unevaluated_learner
  : BaseModel.Learner (list PaymentDelayPredictor.feature_row) unit nat := {|
  BaseModel.create_model := 0%nat;
  BaseModel.has_predict_proba := fun _ => true;
  BaseModel.feature_importances_ := fun _ => None;
  BaseModel.train_test_split := fun _ _ _ _ => Py.ok tt;
  BaseModel.fit := fun est _ => Py.ok (S est);
  BaseModel.evaluate := fun _ _ _ _ _ => Py.raise (Py.External "cross_val_score");
  BaseModel.estimator_predict := fun _ X _ => Py.ok (map (fun _ => 0%float) X);
  BaseModel.estimator_predict_proba := fun _ X _ =>
    Py.ok (map (fun _ => [0.5%float; 0.5%float]) X)
|}.

(** A stand-in classifier whose accuracy on the held-out part is 0.6, and
    whose recall was not recorded. *)
Definition weak_learner
  : BaseModel.Learner (list PaymentDelayPredictor.feature_row) unit nat := {|
  BaseModel.create_model := 0%nat;
  BaseModel.has_predict_proba := fun _ => true;
  BaseModel.feature_importances_ := fun _ => None;
  BaseModel.train_test_split := fun _ _ _ _ => Py.ok tt;
  BaseModel.fit := fun est _ => Py.ok (S est);
  BaseModel.evaluate := fun _ _ _ _ _ =>
    Py.ok {| BaseModel.train_score := 0.7;
             BaseModel.test_score := 0.6;
             BaseModel.cv_mean_score := 0.6;
             BaseModel.cv_std_score := 0.1;
             BaseModel.metrics := [("accuracy", 0.6%float); ("precision", 0.8%float)] |};
  BaseModel.estimator_predict := fun _ X _ => Py.ok (map (fun _ => 0%float) X);
  BaseModel.estimator_predict_proba := fun _ X _ =>
    Py.ok (map (fun _ => [0.5%float; 0.5%float]) X)
|}.

(** A stand-in regressor for the amount model. *)
Definition amount_learner
  : BaseModel.Learner (list PaymentAmountPredictor.feature_row) unit nat := {|
  BaseModel.create_model := 0%nat;
  BaseModel.has_predict_proba := fun _ => false;
  BaseModel.feature_importances_ := fun _ => None;
  BaseModel.train_test_split := fun _ _ _ _ => Py.ok tt;
  BaseModel.fit := fun est _ => Py.ok (S est);
  BaseModel.evaluate := fun _ _ _ _ _ => Py.ok Fixtures.stub_evaluation;
  BaseModel.estimator_predict := fun _ X _ =>
    Py.ok (map PaymentAmountPredictor.invoice_amount X);
  BaseModel.estimator_predict_proba := fun _ _ _ => Py.raise Py.AttributeError
|}.

(** A manager that holds an estimator and is marked trained. *)
Definition trained_manager : BaseModel.manager PaymentDelayPredictor.pipeline nat :=
  BaseModel.set_is_trained (BaseModel.set_model Spec.new_manager (Some 1%nat)) true.

(** The same with the feature columns of the delay model. *)
Definition ranked_manager : BaseModel.manager PaymentDelayPredictor.pipeline nat := {|
  BaseModel.model := Some 1%nat;
  BaseModel.is_trained := true;
  BaseModel.feature_columns := PaymentDelayPredictor.the_feature_columns;
  BaseModel.target_column := Some "is_delayed";
  BaseModel.model_metadata := None;
  BaseModel.pipeline := PaymentDelayPredictor.new_pipeline
|}.


Definition paid (amount : float) : PaymentAmountPredictor.row := {|
  PaymentAmountPredictor.cell_amount := Some amount;
  PaymentAmountPredictor.cell_invoiceAmount := None;
  PaymentAmountPredictor.cell_paymentDate := Some Fixtures.sample_now;
  PaymentAmountPredictor.cell_creditLimit := Some 1000%float;
  PaymentAmountPredictor.cell_outstandingAmount := None
|}.

(** A hundred payment documents as the collection holds them, without
    the fields of the customer. *)
Definition bare_payments : PaymentAmountPredictor.frame := {|
  PaymentAmountPredictor.has_amount := true;
  PaymentAmountPredictor.has_invoiceAmount := false;
  PaymentAmountPredictor.has_paymentDate := true;
  PaymentAmountPredictor.has_creditLimit := false;
  PaymentAmountPredictor.has_outstandingAmount := false;
  PaymentAmountPredictor.rows := repeat (paid 250) 100
|}.

(** Two payments with the fields of the customer. *)
Definition joined_payments : PaymentAmountPredictor.frame := {|
  PaymentAmountPredictor.has_amount := true;
  PaymentAmountPredictor.has_invoiceAmount := false;
  PaymentAmountPredictor.has_paymentDate := true;
  PaymentAmountPredictor.has_creditLimit := true;
  PaymentAmountPredictor.has_outstandingAmount := true;
  PaymentAmountPredictor.rows := [paid 250; paid 100]
|}.

(** A run of [train_all_models] at time [t] in which both data checks
    find too few payments. *)
Definition idle_call (t : Calendar.timestamp) : TrainingJobs.all_models_call :=
  let a := {| TrainingJobs.data_check := Some 3%nat;
              TrainingJobs.start_time := t;
              TrainingJobs.trained := Py.raise (Py.InsufficientData 3 100);
              TrainingJobs.end_time := t |} in
  {| TrainingJobs.force_retrain := false;
     TrainingJobs.delay_view := Spec.sample_view;
     TrainingJobs.delay_now := t;
     TrainingJobs.delay_awaits := a;
     TrainingJobs.amount_view := Spec.sample_view;
     TrainingJobs.amount_now := t;
     TrainingJobs.amount_awaits := a;
     TrainingJobs.session_now := t |}.

(** The record of an earlier run of the delay model. *)
Definition earlier_record : TrainingJobs.model_record := {|
  TrainingJobs.mr_model_type := "payment_delay";
  TrainingJobs.mr_version := 1;
  TrainingJobs.mr_training_duration_seconds := 5;
  TrainingJobs.mr_metrics := [];
  TrainingJobs.mr_training_data_size := 100;
  TrainingJobs.mr_feature_count := 14;
  TrainingJobs.mr_created_at := 1;
  TrainingJobs.mr_status := "active"
|}.

Definition a_training_result : BaseModel.metadata := {|
  BaseModel.md_model_name := "payment_delay";
  BaseModel.md_model_type := "classification";
  BaseModel.trained_at := 2;
  BaseModel.training_data_size := 120;
  BaseModel.feature_count := 14;
  BaseModel.md_evaluation := Fixtures.stub_evaluation;
  BaseModel.md_feature_columns := PaymentDelayPredictor.the_feature_columns;
  BaseModel.md_target_column := Some "is_delayed"
|}.

(** A request for the customer "validId". *)
Definition a_request (id : option string) : Routes.payment_request := {|
  Routes.customer_id := id;
  Routes.amount := None;
  Routes.due_date := None;
  Routes.days_ahead := Some 30
|}.

End Samples.


(** * Properties *)

(** ** Sanity checks of the calendar and library models *)

Example civil_epoch : Calendar.civil 0 = (1970, 1, 1).
Proof. reflexivity. Qed.

Example civil_leap_day : Calendar.civil 19782 = (2024, 2, 29).
Proof. reflexivity. Qed.

Example dayofweek_2024_03_01 : Calendar.dayofweek (19783 * 86400 + 3600) = 4.
Proof. reflexivity. Qed.

Example int_of_float_truncates :
  Py.int_of_float 2.7 = inr 2 /\ Py.int_of_float (-2.7) = inr (-2) /\
  Py.int_of_float 0.5 = inr 0 /\ Py.int_of_float 60 = inr 60.
Proof. vm_compute. repeat split. Qed.

Example float_of_Z_rounds :
  Py.float_of_Z 900 = 900%float /\ Py.float_of_Z (-3) = (-3)%float /\
  Py.float_of_Z (2 ^ 53 + 1) = 9007199254740992%float /\
  Py.truediv 900 1000 = 0.9%float.
Proof. vm_compute. repeat split. Qed.

(** The quotient of two integers is rounded once, also where the operands
    have no exact float, and down to the smallest floats. *)
Example truediv_rounds_once :
  Py.truediv 9007199254740993 3 = 3002399751580331%float /\
  (Py.float_of_Z 9007199254740993 / 3)%float = 3002399751580330.5%float /\
  Py.truediv 1 3 = (1 / 3)%float /\ Py.truediv (-7) 2 = (-3.5)%float /\
  Py.truediv 0 5 = 0%float /\ Py.truediv (2 ^ 1100) (2 ^ 1099 + 1) = 2%float /\
  Py.truediv 1 (2 ^ 1074) = 0x1p-1074%float /\ Py.truediv 1 (2 ^ 1075) = 0%float /\
  Py.truediv 3 (2 ^ 1075) = 0x1p-1073%float.
Proof. vm_compute. repeat split. Qed.

(** Ten times 0.1: the pairwise sum is 1 and the mean 0.1, where the sum
    from the left is 0.9999999999999999. *)
Example mean_of_ten_tenths :
  Numpy.mean (repeat 0.1%float 10) = 0.1%float /\
  (fold_left PrimFloat.add (repeat 0.1%float 10) 0 / 10)%float = 0.09999999999999999%float.
Proof. vm_compute. split; reflexivity. Qed.

Example sum_of_long_arrays :
  Numpy.sum (repeat 0.1%float 17) = 1.7000000000000002%float /\
  Numpy.sum (repeat 0.1%float 129) = 12.899999999999999%float /\
  Numpy.sum (repeat 0.1%float 1000) = 100.00000000000001%float.
Proof. vm_compute. repeat split. Qed.

(** The depth given to [pairwise_sum] does not matter once it covers the
    cuts an array of that length can take; [np.sum] gives it the length. *)
Lemma pairwise_sum_depth d1 : forall d2 a,
  (length a <= Numpy.PW_BLOCKSIZE + d1)%nat -> (length a <= Numpy.PW_BLOCKSIZE + d2)%nat ->
  Numpy.pairwise_sum d1 a = Numpy.pairwise_sum d2 a.
Proof.
  unfold Numpy.PW_BLOCKSIZE.
  induction d1 as [|d1 IH]; intros [|d2] a H1 H2; cbn [Numpy.pairwise_sum];
    unfold Numpy.PW_BLOCKSIZE; try reflexivity.
  - destruct (Nat.leb_spec (length a) 128); [reflexivity|lia].
  - destruct (Nat.leb_spec (length a) 128); [reflexivity|lia].
  - destruct (Nat.leb_spec (length a) 128) as [Hle|Hlt]; [reflexivity|].
    set (n2 := (length a / 2 - (length a / 2) mod 8)%nat).
    assert (Hn : (1 <= n2 < length a)%nat).
    { unfold n2.
      pose proof (Nat.div_mod_eq (length a) 2) as Ha.
      pose proof (Nat.mod_upper_bound (length a) 2 ltac:(lia)) as Hb.
      pose proof (Nat.mod_upper_bound (length a / 2) 8 ltac:(lia)) as Hc.
      lia. }
    rewrite (IH d2 (take n2 a)), (IH d2 (drop n2 a));
      rewrite ?length_take, ?length_drop; try lia. reflexivity.
Qed.

Lemma sum_depth d a :
  (length a <= d)%nat -> Numpy.sum a = (0 + Numpy.pairwise_sum d a)%float.
Proof.
  intros H. unfold Numpy.sum. f_equal. apply pairwise_sum_depth; lia.
Qed.

Example label_encoder_codes :
  Sklearn.LabelEncoder.fit_transform ["Regular"; "Premium"; "Regular"; "Unknown"]%string
  = (["Premium"; "Regular"; "Unknown"]%string, inr [1; 0; 1; 2]).
Proof. reflexivity. Qed.

(** The first unseen label in the order of the input is the one reported. *)
Example label_encoder_first_unseen :
  Sklearn.LabelEncoder.transform ["a"]%string ["z"; "a"; "b"; "z"]%string
  = inl (Py.UnseenLabels "z").
Proof. reflexivity. Qed.

(** A column that varies within the rounding error is scaled by 1, an
    infinite value is rejected, and a [nan] is left out of the statistics. *)
Example standard_scaler_special_columns :
  Sklearn.StandardScaler.fit_transform [[0.30000000000000004; 1]; [0.3; 1]]%float
  = (Some {| Sklearn.StandardScaler.mean_ := [0.30000000000000004; 1]%float;
             Sklearn.StandardScaler.scale_ := [1; 1]%float |},
     inr [[0; 0]; [-0x1p-54; 0]]%float)
  /\ Sklearn.StandardScaler.fit_transform [[infinity; 1]; [0.3; 1]]%float
     = (None, inl Py.InfiniteInput)
  /\ Sklearn.StandardScaler.fit_transform ([] : list (list float))
     = (None, inl Py.EmptyInput)
  /\ Sklearn.StandardScaler.fit [[nan; 1]; [0.3; 1]]%float
     = inr {| Sklearn.StandardScaler.mean_ := [0.3; 1]%float;
              Sklearn.StandardScaler.scale_ := [1; 1]%float |}.
Proof. vm_compute. repeat split. Qed.

Example standard_scaler_two_rows :
  Sklearn.StandardScaler.fit_transform [[100; 1]; [300; 1]]%float
  = (Some {| Sklearn.StandardScaler.mean_ := [200; 1]%float;
             Sklearn.StandardScaler.scale_ := [100; 1]%float |},
     inr [[-1; 0]; [1; 0]]%float).
Proof. vm_compute. reflexivity. Qed.

(** ** Order of binary64 numbers

    Facts about the comparisons of primitive floats, derived from the
    specification of the primitives. *)

Module FloatOrder.

Import Spec.

Lemma SFcompare_antisym x y : SFcompare y x = option_map CompOpp (SFcompare x y).
Proof.
destruct x as [sx|sx| |sx mx ex], y as [sy|sy| |sy my ey]; simpl;
  try reflexivity; try (destruct sx; reflexivity); try (destruct sy; reflexivity);
  try (destruct sx, sy; reflexivity).
destruct sx, sy; simpl; try reflexivity;
  rewrite (Z.compare_antisym ey ex); destruct (ey ?= ex) eqn:E; simpl; try reflexivity;
  f_equal.
- rewrite CompOpp_involutive. f_equal. exact (Pos.compare_cont_antisym my mx Eq).
- symmetry. exact (Pos.compare_cont_antisym mx my Eq).
Qed.

Lemma SFcompare_refl x : x <> S754_nan -> SFcompare x x = Some Eq.
Proof.
destruct x as [s|s| |s m e]; simpl; intros H; try reflexivity; try congruence.
- destruct s; reflexivity.
- rewrite Z.compare_refl.
  assert (Hm : PosDef.Pos.compare_cont Eq m m = Eq) by exact (Pos.compare_cont_refl m Eq).
  rewrite Hm. destruct s; reflexivity.
Qed.

Lemma leb_ordered_r x y : (x <=? y)%float = true -> ordered y.
Proof.
rewrite FloatAxioms.leb_spec. unfold SFleb, ordered. intros H E. rewrite E in H.
destruct (Prim2SF x); simpl in H; discriminate.
Qed.

Lemma leb_ordered_l x y : (x <=? y)%float = true -> ordered x.
Proof.
rewrite FloatAxioms.leb_spec. unfold SFleb, ordered. intros H E. rewrite E in H.
simpl in H. discriminate.
Qed.

Lemma ltb_ordered_r x y : (x <? y)%float = true -> ordered y.
Proof.
rewrite FloatAxioms.ltb_spec. unfold SFltb, ordered. intros H E. rewrite E in H.
destruct (Prim2SF x); simpl in H; discriminate.
Qed.

Lemma leb_refl x : ordered x -> (x <=? x)%float = true.
Proof.
intros H. rewrite FloatAxioms.leb_spec. unfold SFleb. rewrite SFcompare_refl by exact H.
reflexivity.
Qed.

Lemma ltb_irrefl x : (x <? x)%float = false.
Proof.
rewrite FloatAxioms.ltb_spec. unfold SFltb.
destruct (Prim2SF x) as [s|s| |s m e] eqn:E; simpl; try reflexivity.
- destruct s; reflexivity.
- rewrite Z.compare_refl.
  assert (Hm : PosDef.Pos.compare_cont Eq m m = Eq) by exact (Pos.compare_cont_refl m Eq).
  rewrite Hm. destruct s; reflexivity.
Qed.

Lemma ltb_leb x y : (x <? y)%float = true -> (x <=? y)%float = true.
Proof.
rewrite FloatAxioms.ltb_spec, FloatAxioms.leb_spec. unfold SFltb, SFleb.
destruct (SFcompare (Prim2SF x) (Prim2SF y)) as [[]|]; congruence.
Qed.

Lemma ltb_not_leb x y : (x <? y)%float = true -> (y <=? x)%float = false.
Proof.
rewrite FloatAxioms.ltb_spec, FloatAxioms.leb_spec. unfold SFltb, SFleb.
rewrite (SFcompare_antisym (Prim2SF x) (Prim2SF y)).
destruct (SFcompare (Prim2SF x) (Prim2SF y)) as [[]|]; simpl; congruence.
Qed.

Lemma leb_not_ltb x y : (x <=? y)%float = true -> (y <? x)%float = false.
Proof.
rewrite FloatAxioms.ltb_spec, FloatAxioms.leb_spec. unfold SFltb, SFleb.
rewrite (SFcompare_antisym (Prim2SF x) (Prim2SF y)).
destruct (SFcompare (Prim2SF x) (Prim2SF y)) as [[]|]; simpl; congruence.
Qed.

Lemma SFcompare_ordered x y :
x <> S754_nan -> y <> S754_nan -> exists c, SFcompare x y = Some c.
Proof.
destruct x, y; simpl; intros; try congruence; eauto.
Qed.

Lemma not_leb_ltb x y :
ordered x -> ordered y -> (y <=? x)%float = false -> (x <? y)%float = true.
Proof.
unfold ordered. intros Hx Hy.
rewrite FloatAxioms.ltb_spec, FloatAxioms.leb_spec. unfold SFltb, SFleb.
rewrite (SFcompare_antisym (Prim2SF x) (Prim2SF y)).
destruct (SFcompare_ordered _ _ Hx Hy) as [c ->]. destruct c; simpl; congruence.
Qed.

Lemma not_ltb_leb x y :
ordered x -> ordered y -> (y <? x)%float = false -> (x <=? y)%float = true.
Proof.
unfold ordered. intros Hx Hy.
rewrite FloatAxioms.ltb_spec, FloatAxioms.leb_spec. unfold SFltb, SFleb.
rewrite (SFcompare_antisym (Prim2SF x) (Prim2SF y)).
destruct (SFcompare_ordered _ _ Hx Hy) as [c ->]. destruct c; simpl; congruence.
Qed.

(** 0.4 < 0.7: whatever is at least 0.7 is at least 0.4. *)
Lemma leb_07_04 p : (0.7 <=? p)%float = true -> (0.4 <=? p)%float = true.
Proof.
rewrite !FloatAxioms.leb_spec.
change (Prim2SF 0.7) with (S754_finite false 6305039478318694 (-53)).
change (Prim2SF 0.4) with (S754_finite false 7205759403792794 (-54)).
unfold SFleb. destruct (Prim2SF p) as [s|s| |s m e]; cbn [SFcompare]; try congruence.
destruct s; try congruence.
destruct (Z.compare_spec (-53) e) as [<-|H|H]; try congruence.
- intros _. reflexivity.
- intros _. assert (E : (-54 ?= e) = Lt) by (apply Z.compare_lt_iff; lia).
  rewrite E. reflexivity.
Qed.


(** Rounding a non-negative mantissa never yields [nan]. *)
Lemma shr_1_nonneg mrs : 0 <= shr_m mrs -> 0 <= shr_m (shr_1 mrs).
Proof.
destruct mrs as [m r s]. simpl. destruct m as [|[p|p|]|p]; simpl; lia.
Qed.

Lemma iter_shr_1_nonneg (n : positive) :
forall mrs, 0 <= shr_m mrs -> 0 <= shr_m (SpecFloat.iter_pos shr_1 n mrs).
Proof.
induction n as [n IH|n IH|]; intros mrs H; simpl.
- apply IH, IH, shr_1_nonneg, H.
- apply IH, IH, H.
- apply shr_1_nonneg, H.
Qed.

Lemma shr_fexp_nonneg prec emax m e l :
0 <= m -> 0 <= shr_m (fst (shr_fexp prec emax m e l)).
Proof.
intros H. unfold shr_fexp, shr.
assert (H0 : 0 <= shr_m (shr_record_of_loc m l))
  by (destruct l as [|[]]; simpl; exact H).
destruct (fexp prec emax (Zdigits2 m + e) - e); simpl; try exact H0.
apply iter_shr_1_nonneg, H0.
Qed.

Lemma round_nearest_even_nonneg m l : 0 <= m -> 0 <= round_nearest_even m l.
Proof.
intros H. unfold round_nearest_even. destruct l as [|[]]; try lia.
destruct (Z.even m); lia.
Qed.

Lemma binary_round_aux_not_nan prec emax sx mx ex lx :
0 <= mx -> binary_round_aux prec emax sx mx ex lx <> S754_nan.
Proof.
intros H. unfold binary_round_aux.
pose proof (shr_fexp_nonneg prec emax mx ex lx H) as H1.
destruct (shr_fexp prec emax mx ex lx) as [mrs' e']. simpl in H1.
pose proof (shr_fexp_nonneg prec emax _ e' loc_Exact
              (round_nearest_even_nonneg _ (loc_of_shr_record mrs') H1)) as H2.
destruct (shr_fexp prec emax
            (round_nearest_even (shr_m mrs') (loc_of_shr_record mrs')) e' loc_Exact)
  as [mrs'' e'']. simpl in H2.
destruct (shr_m mrs'') as [|m|m]; try discriminate; try lia.
destruct (e'' <=? emax - prec); discriminate.
Qed.

Lemma binary_normalize_not_nan prec emax m e szero :
binary_normalize prec emax m e szero <> S754_nan.
Proof.
unfold binary_normalize, binary_round. destruct m as [|m|m]; try discriminate.
- destruct (shl_align m e _) as [mz ez]. apply binary_round_aux_not_nan. lia.
- destruct (shl_align m e _) as [mz ez]. apply binary_round_aux_not_nan. lia.
Qed.

(** [1 - p] is a number when [p] lies between 0 and 1. *)
Lemma SFsub_finite_not_nan sx mx ex y :
y <> S754_nan -> (forall s, y <> S754_infinity s) ->
SFsub prec emax (S754_finite sx mx ex) y <> S754_nan.
Proof.
intros Hn Hi. destruct y as [s|s| |s m e].
- discriminate.
- exfalso. exact (Hi s eq_refl).
- exfalso. exact (Hn eq_refl).
- apply binary_normalize_not_nan.
Qed.

Lemma one_minus_ordered p :
(0 <=? p)%float = true -> (p <=? 1)%float = true -> ordered (1 - p)%float.
Proof.
intros H0 H1. unfold ordered. rewrite FloatAxioms.sub_spec.
change (Prim2SF 1) with (S754_finite false 4503599627370496 (-52)).
apply SFsub_finite_not_nan.
- exact (leb_ordered_r _ _ H0).
- intros s E. rewrite FloatAxioms.leb_spec in H0, H1. rewrite E in H0, H1.
  destruct s; [exact (diff_false_true H0) | exact (diff_false_true H1)].
Qed.

End FloatOrder.

(** ** Customer risk assessment *)

Section RiskAssessment.

Import PredictionRules Spec.
Local Open Scope string_scope.

(** A quotient with numerator 0 is never above 0.2. *)
Lemma zero_div_not_above b : Py.gt (Py.truediv 0 b) 0.2 = false.
Proof. unfold Py.truediv. cbn [Z.eqb]. destruct (b <? 0)%Z; reflexivity. Qed.

Lemma filter_never_late h :
  Forall never_late h -> List.filter (fun p => get (isLate p) false) h = [].
Proof.
  induction 1 as [|p h Hp _ IH]; simpl; [reflexivity|].
  unfold never_late in Hp. rewrite Hp. exact IH.
Qed.

Lemma payment_history_rule_never_late h acc :
  Forall never_late h -> payment_history_rule h acc = acc.
Proof.
  intros H. unfold payment_history_rule. destruct h as [|p h]; [reflexivity|].
  rewrite (filter_never_late _ H). cbn [length Z.of_nat].
  rewrite zero_div_not_above. reflexivity.
Qed.

(** C3, as amended: for a customer with a credit limit of 1000 and 900
    outstanding whose trailing payments hold no late one,
    [assess_customer_risk] returns the score 0.5 and the level "Medium":
    the utilization rule (0.9 > 0.8, weight 0.3) and the outstanding-amount
    rule (900 > 0.5 * 1000, weight 0.2) both fire, the late-payment rule
    does not. *)
Theorem assess_customer_risk_high_utilization :
  forall (db : database) (now : Calendar.timestamp) (customer_id assessment_type : string)
         (c : customer_doc),
    customers db !! customer_id = Some c ->
    creditLimit c = Some 1000%float ->
    outstandingAmount c = Some 900%float ->
    Forall never_late (_get_customer_payment_history db customer_id) ->
    exists r,
      assess_customer_risk db now customer_id assessment_type = inr r /\
      risk_score r = 0.5%float /\
      risk_level r = "Medium" /\
      map factor (risk_factors r) = ["High Credit Utilization"; "High Outstanding Amount"] /\
      map value (risk_factors r) = [0.9%float; 900%float].
Proof.
  intros db now id ty c Hc Hl Ho Hh. unfold assess_customer_risk, _get_customer_data.
  rewrite Hc, Hl, Ho. cbn [get].
  rewrite (payment_history_rule_never_late _ _ Hh).
  eexists. split; [reflexivity|]. vm_compute. repeat split.
Qed.

Lemma assess_customer_risk_high_utilization_witness :
  exists r,
    assess_customer_risk Fixtures.sample_db Fixtures.sample_now "validId" "credit" = inr r /\
    risk_score r = 0.5%float /\ risk_level r = "Medium".
Proof.
  destruct (assess_customer_risk_high_utilization Fixtures.sample_db Fixtures.sample_now
              "validId" "credit" (Fixtures.a_customer 1000 900))
    as (r & E & Hs & Hl & _);
    [reflexivity | reflexivity | reflexivity | repeat constructor |].
  exists r. split; [exact E|]. split; [exact Hs | exact Hl].
Defined.

(** C3, as stated, fails on the sample customer: the assessment is not
    (0.3, "Low"). *)
Lemma assess_customer_risk_is_not_low :
  ~ (exists r,
       assess_customer_risk Fixtures.sample_db Fixtures.sample_now "validId" "credit"
       = inr r /\
       risk_score r = 0.3%float /\ risk_level r = "Low").
Proof.
  intros [r [H [_ Hl]]]. vm_compute in H. inversion H; subst r. simpl in Hl. discriminate.
Qed.

End RiskAssessment.

(** ** Inventory demand forecast *)

Section Forecast.

Import PredictionRules Spec.
Local Open Scope string_scope.

Lemma forecast_item_consistent db now id item days seasonal r :
  forecast_item db now id item days seasonal = inr r -> reorder_consistent r.
Proof.
  unfold forecast_item.
  destruct (forecast_days _ _ _ _ _) as [e|forecast_data]; cbn [Py.bind]; [discriminate|].
  intros H. inversion H; subst r; clear H. unfold reorder_consistent. cbn.
  split; [reflexivity|]. apply Z.ltb_lt.
Qed.

Lemma forecast_inventory_demand_consistent db now days seasonal :
  forall ids results,
    forecast_inventory_demand db now ids days seasonal = inr results ->
    Forall reorder_consistent results.
Proof.
  induction ids as [|id ids IH]; intros results H; cbn [forecast_inventory_demand] in H.
  - inversion H. constructor.
  - destruct (_get_item_data db id) as [item|]; [|exact (IH _ H)].
    destruct (forecast_item db now id item days seasonal) as [e|r] eqn:Hr;
      cbn [Py.bind] in H; [discriminate|].
    destruct (forecast_inventory_demand db now ids days seasonal) as [e|rs];
      cbn [Py.bind] in H; [discriminate|].
    inversion H; subst results. constructor.
    + exact (forecast_item_consistent _ _ _ _ _ _ _ Hr).
    + apply IH. reflexivity.
Qed.

Lemma sum_Z_constant c l :
  Forall (fun x => x = c) l -> sum_Z l = c * Z.of_nat (length l).
Proof.
  unfold sum_Z. intros H.
  assert (G : forall acc, fold_left Z.add l acc = acc + c * Z.of_nat (length l)).
  { induction H as [|x l Hx _ IH]; intros acc; cbn [fold_left length].
    - lia.
    - rewrite IH, Hx. lia. }
  rewrite G. lia.
Qed.

(** Without seasonality every day of the forecast predicts the truncated
    average daily demand. *)
Lemma forecast_days_flat now avg sales n :
  Py.int_of_float avg = inr n ->
  forall days,
  exists ps,
    forecast_days now avg false sales days = inr ps /\
  length ps = length days /\
  Forall (fun x => x = Z.max 0 n) (map fp_predicted_demand ps).
Proof.
  intros Hn. induction days as [|day days (ps & E & Hl & Hf)]; cbn [forecast_days].
  - exists []. repeat split. constructor.
  - unfold forecast_day. rewrite Hn. cbn [Py.bind]. rewrite E. cbn [Py.bind].
    eexists. split; [reflexivity|]. cbn [length map fp_predicted_demand].
    split; [rewrite Hl; reflexivity|]. constructor; [reflexivity|exact Hf].
Qed.

Lemma forecast_item_flat db now id item days n :
  Py.int_of_float (_calculate_average_daily_demand now (_get_item_sales_history db id))
  = inr n ->
  0 <= days ->
  exists r,
    forecast_item db now id item days false = inr r /\
    sum_Z (map fp_predicted_demand (predicted_demand r)) = Z.max 0 n * days /\
    recommended_quantity (reorder r)
    = Z.max 0 (Z.max 0 n * days - get (stockLevel item) 0).
Proof.
  intros Hn Hd. unfold forecast_item.
  destruct (forecast_days_flat now _ (_get_item_sales_history db id) n Hn (day_range days))
    as (ps & E & Hl & Hf).
  rewrite E. cbn [Py.bind]. eexists. split; [reflexivity|].
  cbn [predicted_demand reorder recommended_quantity].
  rewrite (sum_Z_constant _ _ Hf), length_map, Hl.
  unfold day_range. rewrite length_map, length_seq, Z2Nat.id by exact Hd.
  split; reflexivity.
Qed.

(** C8: in every item of a forecast the recommended quantity is
    [max(0, sum of the daily predicted demand - current_stock)] and
    [should_reorder] holds exactly when that quantity is positive; with 50
    in stock, an average daily demand of 2, 30 days ahead and no
    seasonality the total is 60, the recommended quantity 10 and
    [should_reorder] true (in general, without seasonality, the total is
    the truncated average daily demand times the number of days); without
    sales history the average daily demand is 1. *)
Theorem forecast_reorder_recommendation :
  (forall db now item_ids days_ahead include_seasonality results,
      forecast_inventory_demand db now item_ids days_ahead include_seasonality
      = inr results ->
      Forall reorder_consistent results)
  /\ (_calculate_average_daily_demand Fixtures.sample_now
        (_get_item_sales_history Fixtures.sample_db "item-1") = 2%float
      /\ exists r,
        forecast_inventory_demand Fixtures.sample_db Fixtures.sample_now ["item-1"] 30 false
        = inr [r]
        /\ current_stock r = 50
        /\ length (predicted_demand r) = 30%nat
        /\ Forall (fun p => fp_predicted_demand p = 2) (predicted_demand r)
        /\ sum_Z (map fp_predicted_demand (predicted_demand r)) = 60
        /\ recommended_quantity (reorder r) = 10
        /\ should_reorder (reorder r) = true)
  /\ (forall db now id item days_ahead n,
        Py.int_of_float
          (_calculate_average_daily_demand now (_get_item_sales_history db id)) = inr n ->
        0 <= days_ahead ->
        exists r,
          forecast_item db now id item days_ahead false = inr r /\
          sum_Z (map fp_predicted_demand (predicted_demand r)) = Z.max 0 n * days_ahead /\
          recommended_quantity (reorder r)
          = Z.max 0 (Z.max 0 n * days_ahead - get (stockLevel item) 0))
  /\ (forall now, _calculate_average_daily_demand now [] = 1%float).
Proof.
  split; [|split; [|split]].
  - intros db now ids days seasonal results. apply forecast_inventory_demand_consistent.
  - split; [vm_compute; reflexivity|].
    eexists. split; [vm_compute; reflexivity|].
    cbn [current_stock predicted_demand reorder recommended_quantity should_reorder].
    repeat split; try reflexivity.
    repeat constructor.
  - intros db now id item days n. apply forecast_item_flat.
  - reflexivity.
Qed.

Lemma forecast_reorder_recommendation_witness :
  exists results,
    forecast_inventory_demand Fixtures.sample_db Fixtures.sample_now
      ["item-1"; "no-such-item"] 30 true = inr results /\
    Forall reorder_consistent results.
Proof.
  destruct (forecast_inventory_demand Fixtures.sample_db Fixtures.sample_now
              ["item-1"; "no-such-item"] 30 true) as [e|results] eqn:E;
    [vm_compute in E; discriminate|].
  exists results. split; [reflexivity|].
  exact (proj1 forecast_reorder_recommendation _ _ _ _ _ _ E).
Defined.

End Forecast.

(** ** The payment-delay path *)

Section DelayPath.

Import PredictionRules PredictionService Spec.
Local Open Scope string_scope.
Local Open Scope list_scope.

Context {Split Estimator : Type}.
Context `{L : BaseModel.Learner (list PaymentDelayPredictor.feature_row) Split Estimator}.

Lemma delay_result_fields id probs preds imps r :
  delay_result id probs preds imps = inr r ->
  dp_risk_level r = _calculate_risk_level (delay_probability r) /\
  dp_confidence_score r = Py.max (delay_probability r) (1 - delay_probability r)%float.
Proof.
  unfold delay_result.
  destruct probs as [|[|p0 [|p1 ?]] ?]; try discriminate.
  destruct preds as [|y0 ?]; try discriminate.
  destruct (if Py.gt y0 0 then Py.int_of_float y0 else Py.ok 0) as [e|days];
    cbn [Py.bind]; [discriminate|].
  intros H. inversion H; subst r. split; reflexivity.
Qed.

Lemma predict_payment_delay_result cfg e db s id amount due days s' r :
  predict_payment_delay cfg e db s id amount due days = (s', inr r) ->
  exists probs preds imps, delay_result id probs preds imps = inr r.
Proof.
  unfold predict_payment_delay.
  destruct (_ensure_model_trained cfg e s) as [s1 [err|[]]]; [inversion 1|].
  destruct (_get_customer_data db id) as [c|]; [|inversion 1].
  destruct (BaseModel.predict_proba _ _ _ _) as [m1 [err|probs]]; [inversion 1|].
  cbn [payment_delay_model disk].
  destruct (BaseModel.predict _ _ _ _) as [m2 [err|preds]]; [inversion 1|].
  intros H. inversion H. eauto.
Qed.

(** The steps behind an answer of the single path: the model is trained
    or was trained, the customer is found, and both calls of the model on
    the frame built for the customer return. *)
Lemma predict_payment_delay_steps cfg e db s id amount due days s' r :
  predict_payment_delay cfg e db s id amount due days = (s', inr r) ->
  exists s1 c m1 probs m2 preds,
    _ensure_model_trained cfg e s = (s1, inr tt) /\
    _get_customer_data db id = Some c /\
    BaseModel.predict_proba e (payment_delay_model s1) (disk s1)
      (prediction_data e c amount due days) = (m1, inr probs) /\
    BaseModel.predict e m1 (disk s1) (prediction_data e c amount due days)
    = (m2, inr preds) /\
    delay_result id probs preds (BaseModel.get_feature_importance m2) = inr r.
Proof.
  unfold predict_payment_delay.
  destruct (_ensure_model_trained cfg e s) as [s1 [err|[]]] eqn:Et; [inversion 1|].
  destruct (_get_customer_data db id) as [c|] eqn:Ec; [|inversion 1].
  destruct (BaseModel.predict_proba _ _ _ _) as [m1 [err|probs]] eqn:Ep; [inversion 1|].
  cbn [payment_delay_model disk].
  destruct (BaseModel.predict _ _ _ _) as [m2 [err|preds]] eqn:Ey; [inversion 1|].
  cbn [payment_delay_model]. intros H. inversion H as [[Hs Hr]].
  exists s1, c, m1, probs, m2, preds. repeat split; assumption || reflexivity.
Qed.

(** The reported probability is [delay_prob[0][1]]. *)
Lemma delay_result_probability id probs preds imps r :
  delay_result id probs preds imps = inr r ->
  exists p0 rest rows, probs = (p0 :: delay_probability r :: rest) :: rows.
Proof.
  unfold delay_result.
  destruct probs as [|[|p0 [|p1 rest]] rows]; try discriminate.
  destruct preds as [|y0 ?]; try discriminate.
  destruct (if Py.gt y0 0 then Py.int_of_float y0 else Py.ok 0) as [e|days];
    cbn [Py.bind]; [discriminate|].
  intros H. inversion H; subst r. cbn [delay_probability]. eauto.
Qed.

Lemma count_app f ps qs : count f (ps ++ qs) = count f ps + count f qs.
Proof.
  unfold count. rewrite List.filter_app, length_app. lia.
Qed.

Lemma count_cons f p ps : count f (p :: ps) = count f [p] + count f ps.
Proof. exact (count_app f [p] ps). Qed.

Lemma record_prediction_counts acc p :
  acc_predictions (record_prediction acc p) = acc_predictions acc ++ [p] /\
  high_risk_count (record_prediction acc p) = high_risk_count acc + count is_high [p] /\
  medium_risk_count (record_prediction acc p)
  = medium_risk_count acc + count is_medium [p] /\
  low_risk_count (record_prediction acc p) = low_risk_count acc + count is_low [p].
Proof.
  unfold record_prediction, count, is_low, is_high, is_medium. cbn [List.filter].
  destruct (String.eqb_spec (dp_risk_level p) "High") as [->|Hh]; cbn.
  - repeat split; lia.
  - destruct (String.eqb (dp_risk_level p) "Medium"); cbn; repeat split; lia.
Qed.

Lemma bulk_loop_spec cfg e db days :
  forall ids s acc,
    let ps := successes (single_results cfg e db days ids s) in
    let acc' := snd (bulk_loop cfg e db days ids s acc) in
    acc_predictions acc' = acc_predictions acc ++ ps /\
    high_risk_count acc' = high_risk_count acc + count is_high ps /\
    medium_risk_count acc' = medium_risk_count acc + count is_medium ps /\
    low_risk_count acc' = low_risk_count acc + count is_low ps.
Proof.
  induction ids as [|id ids IH]; intros s acc; cbn [single_results bulk_loop].
  - cbn. rewrite app_nil_r. unfold count. cbn. repeat split; lia.
  - destruct (predict_payment_delay cfg e db s id None None days) as [s1 [err|p]].
    + cbn [successes]. apply IH.
    + cbn [successes]. specialize (IH s1 (record_prediction acc p)). cbn zeta in IH.
      destruct IH as (H1 & H2 & H3 & H4).
      destruct (record_prediction_counts acc p) as (R1 & R2 & R3 & R4).
      rewrite (count_cons is_high p), (count_cons is_medium p), (count_cons is_low p).
      rewrite H1, H2, H3, H4, R1, R2, R3, R4. rewrite <- app_assoc. cbn [app].
      repeat split; lia.
Qed.

Lemma counts_partition ps :
  count is_high ps + count is_medium ps + count is_low ps = Z.of_nat (length ps).
Proof.
  induction ps as [|p ps IH]; [reflexivity|].
  rewrite (count_cons is_high p), (count_cons is_medium p), (count_cons is_low p).
  cbn [length]. rewrite Nat2Z.inj_succ, <- IH.
  unfold count at 1 3 5. unfold is_low. cbn [List.filter].
  unfold is_high, is_medium.
  destruct (String.eqb_spec (dp_risk_level p) "High") as [Hh|Hh];
    destruct (String.eqb_spec (dp_risk_level p) "Medium") as [Hm|Hm];
    cbn; try lia.
  rewrite Hh in Hm. discriminate.
Qed.

End DelayPath.

Section RiskTiers.

Import PredictionRules PredictionService Spec.
Local Open Scope string_scope.
Local Open Scope list_scope.

Lemma risk_tiers p :
  ordered p ->
  (_calculate_risk_level p = "Low" <-> (p <? 0.4)%float = true) /\
  (_calculate_risk_level p = "Medium" <->
     (0.4 <=? p)%float = true /\ (p <? 0.7)%float = true) /\
  (_calculate_risk_level p = "High" <-> (0.7 <=? p)%float = true).
Proof.
  intros Hp. unfold _calculate_risk_level, Py.ge.
  assert (H4 : ordered 0.4%float) by (vm_compute; discriminate).
  assert (H7 : ordered 0.7%float) by (vm_compute; discriminate).
  destruct (0.7 <=? p)%float eqn:E7.
  - pose proof (FloatOrder.leb_07_04 p E7) as E4.
    pose proof (FloatOrder.leb_not_ltb _ _ E7) as N7.
    pose proof (FloatOrder.leb_not_ltb _ _ E4) as N4.
    rewrite E4, N7, N4. repeat split; try discriminate; try tauto.
    intros [_ ?]; discriminate.
  - pose proof (FloatOrder.not_leb_ltb p 0.7 Hp H7 E7) as L7. rewrite L7.
    destruct (0.4 <=? p)%float eqn:E4.
    + rewrite (FloatOrder.leb_not_ltb _ _ E4). repeat split; try discriminate; tauto.
    + rewrite (FloatOrder.not_leb_ltb p 0.4 Hp H4 E4).
      repeat split; try discriminate; try tauto. intros [? _]; discriminate.
Qed.

Lemma max_is_maximum a b :
  ordered a -> ordered b ->
  (Py.max a b = a \/ Py.max a b = b) /\
  (a <=? Py.max a b)%float = true /\ (b <=? Py.max a b)%float = true.
Proof.
  intros Ha Hb. unfold Py.max. destruct (a <? b)%float eqn:E.
  - split; [auto|]. split; [apply FloatOrder.ltb_leb, E | apply FloatOrder.leb_refl, Hb].
  - split; [auto|]. split; [apply FloatOrder.leb_refl, Ha|].
    apply FloatOrder.not_ltb_leb; assumption.
Qed.

(** C4: the delay probability [p] that the payment-delay path reports is
    the probability of the second class that [predict_proba] of the delay
    model returned for the row built from the customer, and the tier and
    the confidence score are computed from it: the tier is
    [_calculate_risk_level p] and the confidence score [max(p, 1 - p)].
    For [p] between 0 and 1 the tier is "Low" iff [p < 0.4], "Medium" iff
    [0.4 <= p < 0.7] and "High" iff [p >= 0.7], and the confidence score
    is the larger of [p] and [1 - p]; 0.4 gives "Medium", 0.3999 "Low"
    and 0.7 "High". *)
Theorem payment_delay_risk_tier :
  forall (Split Estimator : Type)
         (L : BaseModel.Learner (list PaymentDelayPredictor.feature_row) Split Estimator)
         cfg e db (s s' : service Estimator) customer_id amount due_date days_ahead r,
    predict_payment_delay cfg e db s customer_id amount due_date days_ahead = (s', inr r) ->
    let p := delay_probability r in
    (exists s1 c m1 p0 rest rows,
        _ensure_model_trained cfg e s = (s1, inr tt) /\
        _get_customer_data db customer_id = Some c /\
        BaseModel.predict_proba e (payment_delay_model s1) (disk s1)
          (prediction_data e c amount due_date days_ahead)
        = (m1, inr ((p0 :: p :: rest) :: rows))) /\
    dp_risk_level r = _calculate_risk_level p /\
    dp_confidence_score r = Py.max p (1 - p)%float /\
    ((0 <=? p)%float = true -> (p <=? 1)%float = true ->
     ((dp_risk_level r = "Low" <-> (p <? 0.4)%float = true) /\
      (dp_risk_level r = "Medium" <->
         (0.4 <=? p)%float = true /\ (p <? 0.7)%float = true) /\
      (dp_risk_level r = "High" <-> (0.7 <=? p)%float = true)) /\
     ((dp_confidence_score r = p \/ dp_confidence_score r = (1 - p)%float) /\
      (p <=? dp_confidence_score r)%float = true /\
      (1 - p <=? dp_confidence_score r)%float = true)) /\
    (_calculate_risk_level 0.4 = "Medium" /\ _calculate_risk_level 0.3999 = "Low" /\
     _calculate_risk_level 0.7 = "High").
Proof.
  intros Split Estimator L cfg e db s s' id amount due days r H p.
  destruct (predict_payment_delay_steps _ _ _ _ _ _ _ _ _ _ H)
    as (s1 & c & m1 & probs & m2 & preds & Ht & Hc & Hprobs & _ & Hr).
  destruct (delay_result_fields _ _ _ _ _ Hr) as [Hlevel Hconf]. fold p in Hlevel, Hconf.
  destruct (delay_result_probability _ _ _ _ _ Hr) as (p0 & rest & rows & ->). fold p in Hprobs.
  split; [exists s1, c, m1, p0, rest, rows; repeat split; assumption|].
  split; [exact Hlevel|]. split; [exact Hconf|]. split.
  - intros H0 H1.
    pose proof (FloatOrder.leb_ordered_r _ _ H0) as Hp.
    pose proof (FloatOrder.one_minus_ordered p H0 H1) as Hq.
    split.
    + rewrite Hlevel. exact (risk_tiers p Hp).
    + rewrite Hconf. exact (max_is_maximum p (1 - p)%float Hp Hq).
  - vm_compute. repeat split.
Qed.

(** The path on the sample customer with three estimators, whose
    probabilities of a delay are 0.75, 0.5 and 0.25. *)
Lemma payment_delay_risk_tier_witness :
  (exists s' r,
      predict_payment_delay (L := Fixtures.stub_learner true 0.75) default_settings
        (Fixtures.sample_env BaseModel.Written) Fixtures.sample_db sample_service
        "validId" None None 30 = (s', inr r) /\
      delay_probability r = 0.75%float /\ dp_risk_level r = "High" /\
      dp_confidence_score r = 0.75%float)
  /\ (exists s' r,
      predict_payment_delay (L := Fixtures.stub_learner true 0.5) default_settings
        (Fixtures.sample_env BaseModel.Written) Fixtures.sample_db sample_service
        "validId" None None 30 = (s', inr r) /\
      delay_probability r = 0.5%float /\ dp_risk_level r = "Medium" /\
      dp_confidence_score r = 0.5%float)
  /\ (exists s' r,
      predict_payment_delay (L := Fixtures.stub_learner true 0.25) default_settings
        (Fixtures.sample_env BaseModel.Written) Fixtures.sample_db sample_service
        "validId" None None 30 = (s', inr r) /\
      delay_probability r = 0.25%float /\ dp_risk_level r = "Low" /\
      dp_confidence_score r = 0.75%float).
Proof.
  split; [|split].
  - destruct (predict_payment_delay (L := Fixtures.stub_learner true 0.75) default_settings
                (Fixtures.sample_env BaseModel.Written) Fixtures.sample_db sample_service
                "validId" None None 30) as [s' [e|r]] eqn:E;
      [vm_compute in E; discriminate|].
    exists s', r. split; [reflexivity|].
    destruct (payment_delay_risk_tier _ _ (Fixtures.stub_learner true 0.75)
                _ _ _ _ _ _ _ _ _ _ E)
      as [_ [Hl [Hc _]]].
    assert (Ep : delay_probability r = 0.75%float)
      by (vm_compute in E; inversion E; reflexivity).
    rewrite Hl, Hc, Ep. repeat split.
  - destruct (predict_payment_delay (L := Fixtures.stub_learner true 0.5) default_settings
                (Fixtures.sample_env BaseModel.Written) Fixtures.sample_db sample_service
                "validId" None None 30) as [s' [e|r]] eqn:E;
      [vm_compute in E; discriminate|].
    exists s', r. split; [reflexivity|].
    destruct (payment_delay_risk_tier _ _ (Fixtures.stub_learner true 0.5)
                _ _ _ _ _ _ _ _ _ _ E)
      as [_ [Hl [Hc _]]].
    assert (Ep : delay_probability r = 0.5%float)
      by (vm_compute in E; inversion E; reflexivity).
    rewrite Hl, Hc, Ep. repeat split.
  - destruct (predict_payment_delay (L := Fixtures.stub_learner true 0.25) default_settings
                (Fixtures.sample_env BaseModel.Written) Fixtures.sample_db sample_service
                "validId" None None 30) as [s' [e|r]] eqn:E;
      [vm_compute in E; discriminate|].
    exists s', r. split; [reflexivity|].
    destruct (payment_delay_risk_tier _ _ (Fixtures.stub_learner true 0.25)
                _ _ _ _ _ _ _ _ _ _ E)
      as [_ [Hl [Hc _]]].
    assert (Ep : delay_probability r = 0.25%float)
      by (vm_compute in E; inversion E; reflexivity).
    rewrite Hl, Hc, Ep. repeat split.
Defined.

(** C7: [predict_payment_delay_bulk] never aborts on an id whose single
    prediction fails: it returns the successful predictions in order;
    [total_customers] is the number of ids, [successful_predictions] the
    number of predictions, the three tier counts are taken over the
    predictions, and [average_delay_probability] is their mean as
    [np.mean] computes it, or 0 when there is none.  For
    [validId; invalidId] it returns one prediction, [total_customers = 2]
    and [successful_predictions = 1].  For ten customers of delay
    probability 0.1 and an unknown id among them it returns the ten
    predictions, all of tier "Low", and the average 0.1. *)
Theorem bulk_prediction_summary :
  (forall (Split Estimator : Type)
          (L : BaseModel.Learner (list PaymentDelayPredictor.feature_row) Split Estimator)
          cfg e db (s : service Estimator) customer_ids days_ahead,
      exists s' res,
        predict_payment_delay_bulk cfg e db s customer_ids days_ahead = (s', inr res) /\
        predictions res = successes (single_results cfg e db days_ahead customer_ids s) /\
        total_customers (summary res) = length customer_ids /\
        successful_predictions (summary res) = length (predictions res) /\
        high_risk_customers (summary res) = count is_high (predictions res) /\
        medium_risk_customers (summary res) = count is_medium (predictions res) /\
        low_risk_customers (summary res) = count is_low (predictions res) /\
        high_risk_customers (summary res) + medium_risk_customers (summary res)
          + low_risk_customers (summary res)
        = Z.of_nat (successful_predictions (summary res)) /\
        average_delay_probability (summary res)
        = match predictions res with
          | [] => 0%float
          | ps => Numpy.mean (map delay_probability ps)
          end)
  /\ (exists s' res p,
        predict_payment_delay_bulk (L := classifier) default_settings
          (Fixtures.sample_env BaseModel.Written) Fixtures.sample_db sample_service
          ["validId"; "invalidId"] 30 = (s', inr res) /\
        predictions res = [p] /\ dp_customer_id p = "validId" /\
        total_customers (summary res) = 2%nat /\
        successful_predictions (summary res) = 1%nat /\
        average_delay_probability (summary res) = delay_probability p)
  /\ (exists s' res,
        predict_payment_delay_bulk (L := Fixtures.stub_learner true 0.1) default_settings
          (Fixtures.sample_env BaseModel.Written) ten_customers sample_service
          eleven_ids 30 = (s', inr res) /\
        map dp_customer_id (predictions res) = ten_ids /\
        map delay_probability (predictions res) = repeat 0.1%float 10 /\
        total_customers (summary res) = 11%nat /\
        successful_predictions (summary res) = 10%nat /\
        high_risk_customers (summary res) = 0 /\
        medium_risk_customers (summary res) = 0 /\
        low_risk_customers (summary res) = 10 /\
        average_delay_probability (summary res) = 0.1%float).
Proof.
  split; [|split].
  - intros Split Estimator L cfg e db s ids days. unfold predict_payment_delay_bulk.
    pose proof (bulk_loop_spec cfg e db days ids s bulk_start) as H. cbn zeta in H.
    destruct (bulk_loop cfg e db days ids s bulk_start) as [s' acc]. cbn [snd] in H.
    destruct H as (H1 & H2 & H3 & H4). cbn in H1, H2, H3, H4.
    eexists _, _. split; [reflexivity|].
    cbn [predictions summary total_customers successful_predictions high_risk_customers
         medium_risk_customers low_risk_customers average_delay_probability].
    rewrite H1, H2, H3, H4. repeat split; try reflexivity.
    + apply counts_partition.
    + destruct (successes (single_results cfg e db days ids s)); reflexivity.
  - eexists _, _, _. split; [vm_compute; reflexivity|]. cbn. repeat split.
  - eexists _, _. split; [vm_compute; reflexivity|]. vm_compute. repeat split.
Qed.

End RiskTiers.

(** ** The model lifecycle *)

Section LifecycleFacts.

Import BaseModel Spec.
Local Open Scope string_scope.
Local Open Scope list_scope.

Context {DataFrame Prepared Pipeline Split Estimator : Type}.
Context `{V : Variant DataFrame Prepared Pipeline}.
Context `{L : Learner Prepared Split Estimator}.


Lemma save_model_ok (m : manager Pipeline Estimator) d o d' :
  save_model m d o = (d', inr tt) ->
  d' = {| model_file := Stored (model m); metadata_file := Stored (model_metadata m) |}.
Proof.
  unfold save_model. destruct (is_trained m); cbn [negb]; [|discriminate].
  destruct (dump_model o); cbn [write negb]; try discriminate.
  destruct (dump_metadata o); cbn [write negb model_file metadata_file]; try discriminate.
  intros H. inversion H. reflexivity.
Qed.

Lemma load_model_nothing_stored (m : manager Pipeline Estimator) d :
  exists_ (model_file d) && exists_ (metadata_file d) = false ->
  load_model m d = (m, false).
Proof. intros H. unfold load_model. rewrite H. reflexivity. Qed.

Lemma ensure_loaded_nothing_stored (m : manager Pipeline Estimator) d :
  exists_ (model_file d) && exists_ (metadata_file d) = false ->
  ensure_loaded m d = m.
Proof.
  intros H. unfold ensure_loaded. rewrite (load_model_nothing_stored m d H).
  destruct (is_trained m); reflexivity.
Qed.

Lemma predict_not_trained env (m : manager Pipeline Estimator) d data :
  is_trained m = false ->
  exists_ (model_file d) && exists_ (metadata_file d) = false ->
  predict env m d data = (m, inl (Py.NotTrained model_name)) /\
  predict_proba env m d data = (m, inl (Py.NotTrained model_name)).
Proof.
  intros Ht Hd. unfold predict, predict_proba.
  rewrite (ensure_loaded_nothing_stored m d Hd), Ht. split; reflexivity.
Qed.

Lemma predict_trained env (m : manager Pipeline Estimator) d data :
  is_trained m = true -> predict env m d data = run_estimator estimator_predict env m data.
Proof. intros H. unfold predict, ensure_loaded. rewrite H. cbn. rewrite H. reflexivity. Qed.

Lemma predict_proba_unsupported env (m : manager Pipeline Estimator) d data est :
  is_trained m = true -> model m = Some est -> has_predict_proba est = false ->
  predict_proba env m d data = (m, inl (Py.UnsupportedOperation model_name)).
Proof.
  intros Ht Hm Hp. unfold predict_proba, ensure_loaded. rewrite Ht. cbn.
  rewrite Ht, Hm, Hp. reflexivity.
Qed.

Lemma predict_lazy_load env (m : manager Pipeline Estimator) d data est md :
  is_trained m = false -> model_file d = Stored est -> metadata_file d = Stored md ->
  is_trained (fst (load_model m d)) = true /\
  model (fst (load_model m d)) = est /\
  model_metadata (fst (load_model m d)) = md /\
  predict env m d data = run_estimator estimator_predict env (fst (load_model m d)) data.
Proof.
  intros Ht He Hd. unfold predict, ensure_loaded. rewrite Ht.
  unfold load_model. rewrite He, Hd. cbn. repeat split; reflexivity.
Qed.

(** A load that fails leaves the manager untrained. *)
Lemma load_model_failed (m : manager Pipeline Estimator) d :
  snd (load_model m d) = false -> is_trained (fst (load_model m d)) = is_trained m.
Proof.
  unfold load_model. destruct (exists_ (model_file d) && exists_ (metadata_file d));
    [|reflexivity].
  destruct (model_file d); [reflexivity..|].
  destruct (metadata_file d); [reflexivity..|discriminate].
Qed.

Lemma predict_load_failed env (m : manager Pipeline Estimator) d data :
  is_trained m = false -> snd (load_model m d) = false ->
  predict env m d data = (fst (load_model m d), inl (Py.NotTrained model_name)) /\
  predict_proba env m d data = (fst (load_model m d), inl (Py.NotTrained model_name)).
Proof.
  intros Ht Hl. unfold predict, predict_proba, ensure_loaded. rewrite Ht.
  rewrite (load_model_failed m d Hl), Ht. split; reflexivity.
Qed.

(** [predict_proba] of a manager that is trained in memory. *)
Lemma predict_proba_of_trained env (m : manager Pipeline Estimator) d data :
  is_trained m = true ->
  predict_proba env m d data
  = if match model m with Some e => has_predict_proba e | None => false end
    then run_estimator estimator_predict_proba env m data
    else (m, inl (Py.UnsupportedOperation model_name)).
Proof.
  intros H. unfold predict_proba, ensure_loaded. rewrite H. cbn. rewrite H. cbn.
  destruct (match model m with Some e => has_predict_proba e | None => false end);
    reflexivity.
Qed.

(** The lazy load of a complete artifact, and the two calls after it. *)
Lemma lazy_load env (m : manager Pipeline Estimator) d data est md :
  is_trained m = false -> model_file d = Stored est -> metadata_file d = Stored md ->
  let m1 := fst (load_model m d) in
  (is_trained m1 = true /\ model m1 = est /\ model_metadata m1 = md /\
   pipeline m1 = pipeline m) /\
  predict env m d data = run_estimator estimator_predict env m1 data /\
  predict_proba env m d data
  = if match est with Some e => has_predict_proba e | None => false end
    then run_estimator estimator_predict_proba env m1 data
    else (m1, inl (Py.UnsupportedOperation model_name)).
Proof.
  intros Ht He Hd. unfold predict, predict_proba, ensure_loaded. rewrite Ht.
  unfold load_model. rewrite He, Hd. cbn.
  split; [repeat split; reflexivity|]. split; [reflexivity|].
  destruct (match est with Some e => has_predict_proba e | None => false end);
    reflexivity.
Qed.



Lemma train_success cfg env (m : manager Pipeline Estimator) d data retrain m' d' md :
  train cfg env m d data retrain = (m', d', inr md) ->
  is_trained m' = true /\ exists est, model m' = Some est.
Proof.
  unfold train.
  destruct (match data with Some df => Py.ok df | None => loaded env end) as [e|df];
    [inversion 1|].
  destruct (frame_len df <? MIN_TRAINING_DATA_SIZE cfg)%nat; [inversion 1|].
  destruct (po_result _) as [e|processed]; [inversion 1|].
  destruct (train_test_split _ _ _ _) as [e|split]; [inversion 1|].
  destruct (fit _ split) as [e|fitted]; [inversion 1|].
  destruct (evaluate _ _ _ _ _) as [e|ev]; [inversion 1|].
  destruct (save_model _ d (io env)) as [d1 [e|[]]]; intros H; inversion H; subst.
  split; [reflexivity|]. eexists. reflexivity.
Qed.



End LifecycleFacts.

Section Lifecycle.

Import BaseModel Spec.
Local Open Scope string_scope.
Local Open Scope list_scope.

(** C1, as amended: [train] sets [is_trained] after the fit and the
    evaluation and before it calls [save_model], which refuses an untrained
    manager.  A run that fails before that point leaves [is_trained] and
    both files as they were; a run that fails in [save_model] raises and
    leaves [is_trained] set; a run that succeeds leaves [is_trained] set
    and both files holding the new estimator and its metadata. *)
Theorem train_publishes_then_persists :
  forall (DataFrame Prepared Pipeline Split Estimator : Type)
         (V : Variant DataFrame Prepared Pipeline) (L : Learner Prepared Split Estimator)
         cfg env (m : manager Pipeline Estimator) d data retrain m' d' r,
    train cfg env m d data retrain = (m', d', r) ->
    train_outcome env m d m' d' r.
Proof.
  intros DataFrame Prepared Pipeline Split Estimator V L cfg env m d data retrain m' d' r.
  unfold train, train_outcome.
  (* the steps before the persistence step: a failure returns the manager
     with [is_trained] untouched and the storage as it was *)
  destruct (match data with Some df => Py.ok df | None => loaded env end) as [e|df].
  { intros H; inversion H; subst. left. split; reflexivity. }
  destruct (frame_len df <? MIN_TRAINING_DATA_SIZE cfg)%nat.
  { intros H; inversion H; subst. left. split; reflexivity. }
  set (po := prepare_features (now env) (pipeline m) df).
  destruct (po_result po) as [e|processed].
  { intros H; inversion H; subst. left. split; reflexivity. }
  destruct (train_test_split _ _ _ _) as [e|split].
  { intros H; inversion H; subst. left. split; reflexivity. }
  destruct (fit _ split) as [e|fitted].
  { intros H; inversion H; subst. left. split; reflexivity. }
  destruct (evaluate _ _ _ _ _) as [e|ev].
  { intros H; inversion H; subst. left. split; reflexivity. }
  (* the persistence step, entered with [is_trained] set *)
  match goal with
  | |- context [save_model ?mm d (io env)] => set (m5 := mm)
  end.
  destruct (save_model m5 d (io env)) as [d1 [e|[]]] eqn:Hs; intros H; inversion H; subst.
  - right. split; [reflexivity|exact Hs].
  - split; [reflexivity|]. split; [reflexivity|]. split; [exact Hs|].
    exact (save_model_ok _ _ _ _ Hs).
Qed.

Lemma train_publishes_then_persists_witness :
  exists m' d' e,
    train (V := delay_variant) (L := classifier) default_settings
      (Fixtures.sample_env FailedUntouched) new_manager empty_storage None false
    = (m', d', inl e) /\
    train_outcome (Fixtures.sample_env FailedUntouched) new_manager empty_storage
      m' d' (inl e) /\
    is_trained m' = true /\ d' = empty_storage.
Proof.
  eassert (E : train (V := delay_variant) (L := classifier) default_settings
                 (Fixtures.sample_env FailedUntouched) new_manager empty_storage None false
               = (_, _, inl _)) by (vm_compute; reflexivity).
  eexists _, _, _. split; [exact E|]. split.
  - exact (train_publishes_then_persists _ _ _ _ _ delay_variant classifier
             _ _ _ _ _ _ _ _ _ E).
  - split; reflexivity.
Defined.

(** C1, as stated, fails: when the write of the estimator fails, [train]
    leaves a manager that was untrained marked trained with nothing on
    disk. *)
Lemma train_marks_trained_before_saving : ~ persisted_before_trained.
Proof.
  intros H.
  eassert (E : train (V := delay_variant) (L := classifier) default_settings
                 (Fixtures.sample_env FailedUntouched) new_manager empty_storage None false
               = (_, _, inl _)) by (vm_compute; reflexivity).
  destruct (H _ _ _ _ _ _ _ _ _ E eq_refl eq_refl) as [Hm _]. discriminate.
Qed.

(** C6, as amended: [predict] and [predict_proba] on a manager that is
    untrained in memory first try to load the persisted artifact.  If the
    load fails, as it does when a file is missing, both fail with
    [NotTrained].  If both files are complete the manager takes the
    estimator and the metadata from them and is marked trained, and the
    call goes on with it: [predict] answers with the result of the feature
    pipeline and of the loaded estimator, and so does [predict_proba]
    unless the loaded estimator has no probabilities, when it fails with
    [UnsupportedOperation].  After a successful [train] the manager is
    trained and holds an estimator, and neither call fails with the
    error of the untrained model any more: each returns what the feature
    pipeline and then the estimator return, so that it succeeds exactly
    when both do, and [predict_proba] of an estimator without
    probabilities fails with [UnsupportedOperation]. *)
Theorem predict_requires_trained_model :
  forall (DataFrame Prepared Pipeline Split Estimator : Type)
         (V : Variant DataFrame Prepared Pipeline) (L : Learner Prepared Split Estimator),
    (forall env (m : manager Pipeline Estimator) d data,
        is_trained m = false ->
        (snd (load_model m d) = false ->
         predict env m d data = (fst (load_model m d), inl (Py.NotTrained model_name)) /\
         predict_proba env m d data
         = (fst (load_model m d), inl (Py.NotTrained model_name))) /\
        (exists_ (model_file d) && exists_ (metadata_file d) = false ->
         predict env m d data = (m, inl (Py.NotTrained model_name)) /\
         predict_proba env m d data = (m, inl (Py.NotTrained model_name))))
    /\ (forall env (m : manager Pipeline Estimator) d data est md,
        is_trained m = false ->
        model_file d = Stored est -> metadata_file d = Stored md ->
        let m1 := fst (load_model m d) in
        (is_trained m1 = true /\ model m1 = est /\ model_metadata m1 = md /\
         pipeline m1 = pipeline m) /\
        predict env m d data = run_estimator estimator_predict env m1 data /\
        predict_proba env m d data
        = if match est with Some e => has_predict_proba e | None => false end
          then run_estimator estimator_predict_proba env m1 data
          else (m1, inl (Py.UnsupportedOperation model_name)))
    /\ (forall cfg env (m : manager Pipeline Estimator) d training retrain m' d' md,
        train cfg env m d training retrain = (m', d', inr md) ->
        is_trained m' = true /\
        exists est,
          model m' = Some est /\
          forall env' d'' data,
            let po := prepare_features (now env') (pipeline m') data in
            let m'' := after_prepare m' po in
            predict env' m' d'' data
            = (m'',
               match po_result po with
               | inl e => inl e
               | inr processed => estimator_predict est processed (feature_columns m'')
               end) /\
            predict_proba env' m' d'' data
            = (if has_predict_proba est
               then (m'',
                     match po_result po with
                     | inl e => inl e
                     | inr processed =>
                         estimator_predict_proba est processed (feature_columns m'')
                     end)
               else (m', inl (Py.UnsupportedOperation model_name))) /\
            (Py.is_ok (snd (predict env' m' d'' data)) = true <->
             exists processed,
               po_result po = inr processed /\
               Py.is_ok (estimator_predict est processed (feature_columns m'')) = true))
    /\ (forall env (m : manager Pipeline Estimator) d data est,
        is_trained m = true -> model m = Some est -> has_predict_proba est = false ->
        predict_proba env m d data = (m, inl (Py.UnsupportedOperation model_name))).
Proof.
  intros DataFrame Prepared Pipeline Split Estimator V L. repeat apply conj.
  - intros env m d data Ht. split.
    + apply predict_load_failed, Ht.
    + apply predict_not_trained, Ht.
  - intros env m d data est md. apply lazy_load.
  - intros cfg env m d training retrain m' d' md H.
    destruct (train_success _ _ _ _ _ _ _ _ _ H) as [Ht [est Hm]].
    split; [exact Ht|]. exists est. split; [exact Hm|].
    intros env' d'' data po m''.
    assert (Hp : predict env' m' d'' data
                 = (m'', match po_result po with
                         | inl e => inl e
                         | inr processed =>
                             estimator_predict est processed (feature_columns m'')
                         end)).
    { rewrite (predict_trained env' m' d'' data Ht).
      unfold run_estimator. fold po. fold m''. destruct (po_result po); [reflexivity|].
      unfold m''. cbn [after_prepare model]. rewrite Hm. reflexivity. }
    split; [exact Hp|]. split.
    + rewrite (predict_proba_of_trained env' m' d'' data Ht), Hm.
      destruct (has_predict_proba est); [|reflexivity].
      unfold run_estimator. fold po. fold m''. destruct (po_result po); [reflexivity|].
      unfold m''. cbn [after_prepare model]. rewrite Hm. reflexivity.
    + rewrite Hp. cbn [snd]. destruct (po_result po) as [e|processed].
      * split; [discriminate|]. intros (x & Hx & _). discriminate Hx.
      * split; [intros Hok; exists processed; split; [reflexivity|exact Hok]|].
        intros (x & Hx & Hok). injection Hx as <-. exact Hok.
  - intros env m d data est. apply predict_proba_unsupported.
Qed.

(** The delay model with the stand-in estimator: both calls fail on the
    new manager; after a training run both answer, also from a new manager
    that finds the files of the run; with an estimator without
    probabilities in the files [predict_proba] fails. *)
Lemma predict_requires_trained_model_witness :
  (exists m, predict (V := delay_variant) (L := classifier) (Fixtures.sample_env Written)
               new_manager empty_storage (Fixtures.one_row 250 "Regular" "Cash")
             = (m, inl (Py.NotTrained "payment_delay")))
  /\ (exists m' d' md m'' m3 m4,
        train (V := delay_variant) (L := classifier) default_settings
          (Fixtures.sample_env Written) new_manager empty_storage None false
        = (m', d', inr md) /\
        predict (V := delay_variant) (L := classifier) (Fixtures.sample_env Written)
          m' d' (Fixtures.one_row 250 "Regular" "Cash") = (m'', inr [1%float]) /\
        predict_proba (V := delay_variant) (L := classifier) (Fixtures.sample_env Written)
          m' d' (Fixtures.one_row 250 "Regular" "Cash") = (m'', inr [[0.25; 0.75]%float]) /\
        predict_proba (V := delay_variant) (L := classifier) (Fixtures.sample_env Written)
          new_manager d' (Fixtures.one_row 250 "Regular" "Cash")
        = (m3, inr [[0.25; 0.75]%float]) /\
        predict_proba (V := delay_variant) (L := regressor) (Fixtures.sample_env Written)
          new_manager d' (Fixtures.one_row 250 "Regular" "Cash")
        = (m4, inl (Py.UnsupportedOperation "payment_delay")))
  /\ predict_proba (V := delay_variant) (L := regressor) (Fixtures.sample_env Written)
       (set_is_trained (set_model new_manager (Some 1%nat)) true) empty_storage
       (Fixtures.one_row 250 "Regular" "Cash")
     = (set_is_trained (set_model new_manager (Some 1%nat)) true,
        inl (Py.UnsupportedOperation "payment_delay")).
Proof.
  destruct (predict_requires_trained_model _ _ _ _ _ delay_variant classifier)
    as (Hnot & Hload & Htrained & _).
  destruct (predict_requires_trained_model _ _ _ _ _ delay_variant regressor)
    as (_ & Hload_r & _ & Hunsupported).
  split; [|split].
  - eexists. exact (proj1 (proj2 (Hnot (Fixtures.sample_env Written) new_manager
                                    empty_storage (Fixtures.one_row 250 "Regular" "Cash")
                                    eq_refl) eq_refl)).
  - eassert (E : train (V := delay_variant) (L := classifier) default_settings
                   (Fixtures.sample_env Written) new_manager empty_storage None false
                 = (_, _, inr _)) by (vm_compute; reflexivity).
    destruct (Htrained _ _ _ _ _ _ _ _ _ E) as [_ [est [Hm Hp]]].
    cbn [model] in Hm. injection Hm as <-.
    match type of E with
    | _ = (_, ?d', _) =>
        destruct (Hp (Fixtures.sample_env Written) d'
                    (Fixtures.one_row 250 "Regular" "Cash")) as (Hp1 & Hp2 & _);
        destruct (Hload (Fixtures.sample_env Written) new_manager d'
                    (Fixtures.one_row 250 "Regular" "Cash") _ _ eq_refl eq_refl eq_refl)
          as (_ & _ & Hl);
        destruct (Hload_r (Fixtures.sample_env Written) new_manager d'
                    (Fixtures.one_row 250 "Regular" "Cash") _ _ eq_refl eq_refl eq_refl)
          as (_ & _ & Hlr)
    end.
    eexists _, _, _, _, _, _. split; [exact E|].
    split; [rewrite Hp1; vm_compute; reflexivity|].
    split; [rewrite Hp2; vm_compute; reflexivity|].
    split; [rewrite Hl; vm_compute; reflexivity|].
    rewrite Hlr. vm_compute. reflexivity.
  - apply (Hunsupported _ _ _ _ 1%nat); reflexivity.
Defined.

(** C6, as stated, fails: a row of a category that the training data do
    not hold makes [predict] fail with [NotTrained] before the training
    run and with the unseen-labels error after it. *)
Lemma predict_after_train_can_fail : ~ predict_succeeds_after_train.
Proof.
  intros H.
  eassert (E : train (V := delay_variant) (L := classifier) default_settings
                 (Fixtures.sample_env Written) new_manager empty_storage None false
               = (_, _, inr _)) by (vm_compute; reflexivity).
  assert (N : predict (V := delay_variant) (L := classifier) (Fixtures.sample_env Written)
                new_manager empty_storage (Fixtures.one_row 250 "VIP" "Cash")
              = (new_manager, inl (Py.NotTrained "payment_delay")))
    by (vm_compute; reflexivity).
  pose proof (H _ _ _ _ _ _ _ _ _ _ _ N E) as F.
  vm_compute in F. discriminate F.
Qed.




End Lifecycle.

(** ** The feature pipeline of the delay classifier *)

Section FeaturePipeline.

Import BaseModel PaymentDelayPredictor Spec.
Local Open Scope string_scope.
Local Open Scope list_scope.

Lemma transform_first_unseen cs labels :
  Sklearn.LabelEncoder.transform cs labels
  = match first_unseen cs labels with
    | Some l => inl (Py.UnseenLabels l)
    | None => inr (codes cs labels)
    end.
Proof.
  unfold Sklearn.LabelEncoder.transform, first_unseen.
  induction labels as [|s labels IH]; [reflexivity|]. cbn [List.filter List.find].
  destruct (negb (Sklearn.LabelEncoder.seen cs s)); [reflexivity|].
  destruct (List.filter _ labels), (List.find _ labels); try discriminate IH;
    try reflexivity.
  exact IH.
Qed.

Lemma transform_all_seen cs labels :
  forallb (Sklearn.LabelEncoder.seen cs) labels = true ->
  Sklearn.LabelEncoder.transform cs labels = inr (codes cs labels).
Proof.
  intros H. rewrite transform_first_unseen.
  assert (E : first_unseen cs labels = None).
  { unfold first_unseen. induction labels as [|s labels IH]; [reflexivity|].
    cbn in H |- *. apply andb_true_iff in H as [Hs Hl]. rewrite Hs. cbn. exact (IH Hl). }
  rewrite E. reflexivity.
Qed.





(** Whenever the preparation succeeds, the scaler it leaves behind was
    fit on the frame of this very call. *)
Lemma scaler_after_prepare now self data out :
  po_result (prepare_features now self data) = inr out ->
  scaler (po_pipeline (prepare_features now self data))
  = fst (Sklearn.StandardScaler.fit_transform (numerical_matrix now data)).
Proof.
  unfold prepare_features, numerical_matrix.
  destruct (encode_column "customerCategory" _ _ _) as [e1 [err|cats]];
    [cbn; discriminate|].
  destruct (encode_column "paymentMethod" _ _ _) as [e2 [err|pays]];
    [cbn; discriminate|].
  destruct (Sklearn.StandardScaler.fit_transform _) as [f X]. reflexivity.
Qed.




(** C9, on the code: a prediction call refits the scaler.  After the
    training frame (amounts 100 and 300) the scaler holds the mean 200 and
    the scale 100 for [payment_amount]; the call on a one-row prediction
    frame leaves it with the values of that row as means and 1 as every
    scale, and the numerical features of the prepared row are all 0. *)
Theorem prepare_features_refits_scaler :
  let po := prepare_features Fixtures.sample_now after_training
              (Fixtures.one_row 250 "Regular" "Cash") in
  scaler after_training
  = Some {| Sklearn.StandardScaler.mean_ := [200; 1000; 500; 0.5; -15]%float;
            Sklearn.StandardScaler.scale_ := [100; 1; 1; 1; 5]%float |}
  /\ scaler (po_pipeline po)
     = Some {| Sklearn.StandardScaler.mean_ := [250; 1000; 900; 0.9; 10]%float;
               Sklearn.StandardScaler.scale_ := [1; 1; 1; 1; 1]%float |}
  /\ scaler (po_pipeline po)
     = fst (Sklearn.StandardScaler.fit_transform
              (numerical_matrix Fixtures.sample_now (Fixtures.one_row 250 "Regular" "Cash")))
  /\ scaler (po_pipeline po) <> scaler after_training
  /\ exists row,
      po_result po = inr [row] /\ numerical_features row = [0; 0; 0; 0; 0]%float.
Proof.
  cbv zeta. split; [vm_compute; reflexivity|]. split; [vm_compute; reflexivity|].
  split; [vm_compute; reflexivity|]. split.
  - intros H.
    apply (f_equal (fun o => match o with
                             | Some f => match Sklearn.StandardScaler.mean_ f with
                                         | x :: _ => (x =? 250)%float
                                         | [] => false
                                         end
                             | None => false
                             end)) in H.
    vm_compute in H. discriminate.
  - eexists. split; vm_compute; reflexivity.
Qed.

End FeaturePipeline.

(** ** The training guard *)

Section TrainingGuard.

Import TrainingService Spec.
Local Open Scope string_scope.
Local Open Scope list_scope.

Lemma map_insert_same (l : list task) i t t' :
  l !! i = Some t -> model_type t' = model_type t ->
  map model_type (<[i := t']> l) = map model_type l.
Proof.
  revert i. induction l as [|x l IH]; intros [|i] H E; try discriminate; cbn in *.
  - inversion H; subst. f_equal. exact E.
  - f_equal. exact (IH i H E).
Qed.

Lemma in_map_delete (l : list task) i t mt :
  l !! i = Some t -> NoDup (map model_type l) ->
  (In mt (map model_type (delete i l)) <-> In mt (map model_type l) /\ mt <> model_type t).
Proof.
  revert i. induction l as [|x l IH]; intros [|i] H Hnd; try discriminate; cbn in *.
  - inversion H; subst. apply NoDup_cons in Hnd as [Hx Hnd]. split.
    + intros Hin. split; [right; exact Hin|]. intros ->. apply Hx.
      apply list_elem_of_In. exact Hin.
    + intros [[E|Hin] Hne]; [congruence|exact Hin].
  - apply NoDup_cons in Hnd as [Hx Hnd]. rewrite (IH i H Hnd). split.
    + intros [E|[Hin Hne]].
      * split; [left; exact E|]. intros ->. apply Hx. rewrite E.
        apply list_elem_of_In, in_map. apply list_elem_of_In.
        eapply list_elem_of_lookup_2. exact H.
      * split; [right; exact Hin|exact Hne].
    + intros [[E|Hin] Hne]; [left; exact E|right; split; assumption].
Qed.

Lemma nodup_map_delete (l : list task) i :
  NoDup (map model_type l) -> NoDup (map model_type (delete i l)).
Proof.
  revert i. induction l as [|x l IH]; intros [|i] Hnd; cbn in *; try exact Hnd.
  - apply NoDup_cons in Hnd as [_ Hnd]. exact Hnd.
  - apply NoDup_cons in Hnd as [Hx Hnd]. apply NoDup_cons. split; [|exact (IH i Hnd)].
    intros Hin. apply Hx. clear -Hin. revert i Hin.
    induction l as [|y l IH]; intros [|i] Hin; cbn in *.
    + exact Hin.
    + exact Hin.
    + apply elem_of_cons. right. exact Hin.
    + apply elem_of_cons in Hin as [->|Hin]; apply elem_of_cons; [left; reflexivity|].
      right. exact (IH i Hin).
Qed.

Lemma consistent_initial : consistent initial.
Proof.
  split; [constructor|]. intros mt. cbn. rewrite lookup_empty. split.
  - intros [x Hx]. discriminate.
  - intros [].
Qed.

Lemma consistent_finish w i t :
  consistent w -> tasks w !! i = Some t -> consistent (finish w i t).
Proof.
  intros [Hnd Hdom] Ht. unfold consistent, in_flight, finish in *. cbn [tasks training_in_progress].
  split; [exact (nodup_map_delete _ i Hnd)|].
  intros mt. rewrite (in_map_delete _ _ _ mt Ht Hnd), <- Hdom.
  destruct (decide (model_type t = mt)) as [->|Hne].
  - rewrite lookup_delete_eq. split; [intros [x Hx]; discriminate|intros [_ H]; congruence].
  - rewrite lookup_delete_ne by exact Hne. split; [intros H; split; [exact H|congruence]|tauto].
Qed.

Lemma consistent_suspend w i t p :
  consistent w -> tasks w !! i = Some t -> consistent (suspend w i t p).
Proof.
  intros [Hnd Hdom] Ht. unfold consistent, in_flight, suspend in *. cbn [tasks training_in_progress].
  rewrite (map_insert_same _ _ t) by (assumption || reflexivity). split; assumption.
Qed.

Lemma finish_clears w i t :
  consistent w -> tasks w !! i = Some t ->
  training_in_progress (finish w i t) !! model_type t = None /\
  ~ In (model_type t) (in_flight (finish w i t)).
Proof.
  intros Hc Ht. pose proof (consistent_finish w i t Hc Ht) as [_ Hdom].
  assert (E : training_in_progress (finish w i t) !! model_type t = None)
    by (cbn; apply lookup_delete_eq).
  split; [exact E|]. intros Hin. apply Hdom in Hin. rewrite E in Hin.
  destruct Hin; discriminate.
Qed.

Lemma consistent_enter cfg w mt force view now :
  consistent w -> consistent (fst (enter cfg w mt force view now)).
Proof.
  intros Hc. unfold enter. destruct (training_in_progress w !! mt) eqn:E; [exact Hc|].
  destruct (negb force && view_is_trained view && recent_enough cfg view now).
  - cbn [fst]. rewrite delete_insert_eq, delete_id by exact E. destruct w; exact Hc.
  - destruct Hc as [Hnd Hdom]. unfold consistent, in_flight in *.
    cbn [fst tasks training_in_progress]. rewrite map_app. cbn [map model_type].
    assert (Hfresh : ~ In mt (map model_type (tasks w))).
    { intros Hin. apply Hdom in Hin. rewrite E in Hin. destruct Hin; discriminate. }
    split.
    + apply NoDup_app. split; [exact Hnd|]. split.
      * intros x Hx Hx'. apply list_elem_of_singleton in Hx'. subst.
        apply Hfresh, list_elem_of_In, Hx.
      * apply NoDup_singleton.
    + intros mt'. rewrite in_app_iff. cbn [In]. destruct (decide (mt = mt')) as [->|Hne].
      * rewrite lookup_insert_eq. split; [auto|eauto].
      * rewrite lookup_insert_ne by exact Hne. rewrite Hdom. split; [auto|].
        intros [H|[H|[]]]; [exact H|congruence].
Qed.

Lemma consistent_resume cfg w i a w' obs :
  consistent w -> resume cfg w i a = Some (w', obs) -> consistent w'.
Proof.
  intros Hc. unfold resume. destruct (tasks w !! i) as [t|] eqn:Ht; [|discriminate].
  destruct (at_phase t), a as [count now|[e|md] end_time|]; try discriminate.
  - destruct (match count with Some c => _ | None => false end); intros H; inversion H; subst.
    + exact (consistent_suspend _ _ _ _ Hc Ht).
    + exact (consistent_finish _ _ _ Hc Ht).
  - intros H; inversion H; subst. exact (consistent_finish _ _ _ Hc Ht).
  - intros H; inversion H; subst. exact (consistent_suspend _ _ _ _ Hc Ht).
  - intros H; inversion H; subst. exact (consistent_finish _ _ _ Hc Ht).
Qed.

Lemma consistent_step cfg w ev : consistent w -> consistent (fst (step cfg w ev)).
Proof.
  intros Hc. destruct ev as [mt force view now|i a]; cbn [step].
  - apply consistent_enter, Hc.
  - destruct (resume cfg w i a) as [[w' obs]|] eqn:E; [|exact Hc].
    exact (consistent_resume _ _ _ _ _ _ Hc E).
Qed.

Lemma consistent_run cfg evs : forall w, consistent w -> consistent (fst (run cfg w evs)).
Proof.
  induction evs as [|ev evs IH]; intros w Hc; cbn [run]; [exact Hc|].
  pose proof (consistent_step cfg w ev Hc) as H1.
  destruct (step cfg w ev) as [w1 o1]. cbn [fst] in H1.
  specialize (IH w1 H1). destruct (run cfg w1 evs) as [w2 o2]. exact IH.
Qed.

Lemma resume_returned cfg w i a w' obs mt ans :
  resume cfg w i a = Some (w', obs) -> In (Returned mt ans) obs ->
  exists t, tasks w !! i = Some t /\ model_type t = mt /\ w' = finish w i t.
Proof.
  unfold resume. destruct (tasks w !! i) as [t|] eqn:Ht; [|discriminate].
  destruct (at_phase t), a as [count now|[e|md] end_time|]; try discriminate.
  - destruct (match count with Some c => _ | None => false end); intros H; inversion H; subst;
      intros [E|[]]; inversion E; subst. eauto.
  - intros H; inversion H; subst. intros [E|[]]; inversion E; subst. eauto.
  - intros H; inversion H; subst. intros [].
  - intros H; inversion H; subst. intros [E|[]]; inversion E; subst. eauto.
Qed.

Lemma suspend_lookup w i t p :
  tasks w !! i = Some t ->
  tasks (suspend w i t p) !! i
  = Some {| model_type := model_type t; force_retrain := force_retrain t; at_phase := p |}.
Proof.
  intros Ht. unfold suspend. cbn [tasks].
  apply list_lookup_insert_eq. exact (lookup_lt_Some _ _ _ Ht).
Qed.

(** A suspended call takes the answer it waits for, and either returns,
    its mark cleared, or is suspended at its next await. *)
Lemma resume_progress cfg w i t a :
  consistent w -> tasks w !! i = Some t -> expected (at_phase t) a = true ->
  exists w' obs,
    resume cfg w i a = Some (w', obs) /\
    ((exists ans,
         obs = [Returned (model_type t) ans] /\ w' = finish w i t /\
         training_in_progress w' !! model_type t = None /\
         ~ In (model_type t) (in_flight w'))
     \/ (exists t',
         tasks w' !! i = Some t' /\ model_type t' = model_type t /\
         awaits_passed (at_phase t') = S (awaits_passed (at_phase t)) /\
         returns obs = [] /\
         training_in_progress w' = training_in_progress w)).
Proof.
  intros Hc Ht He. unfold resume. rewrite Ht.
  pose proof (finish_clears w i t Hc Ht) as [Hf1 Hf2].
  destruct (at_phase t) eqn:Ep, a as [count now|[e|md] end_time|]; try discriminate He.
  - destruct (match count with Some c => _ | None => false end).
    + eexists _, _. split; [reflexivity|]. right. eexists. split; [apply suspend_lookup, Ht|].
      cbn. repeat split.
    + eexists _, _. split; [reflexivity|]. left. eexists. repeat split; assumption.
  - eexists _, _. split; [reflexivity|]. left. eexists. repeat split; assumption.
  - eexists _, _. split; [reflexivity|]. right. eexists. split; [apply suspend_lookup, Ht|].
    cbn. repeat split.
  - eexists _, _. split; [reflexivity|]. left. eexists. repeat split; assumption.
Qed.

Lemma guarded_events_cons ev evs :
  EventLoop.guarded_events (ev :: evs)
  = match ev with
    | EventLoop.Guarded e => e :: EventLoop.guarded_events evs
    | _ => EventLoop.guarded_events evs
    end.
Proof. destruct ev; reflexivity. Qed.

Lemma step_unguarded cfg p ev :
  (forall e, ev <> EventLoop.Guarded e) ->
  EventLoop.training_service (fst (EventLoop.step cfg p ev)) = EventLoop.training_service p /\
  snd (EventLoop.step cfg p ev) = [].
Proof.
  intros Hne. destruct ev as [e|model_types|is_trained|i]; cbn [EventLoop.step].
  - destruct (Hne e). reflexivity.
  - unfold EventLoop.start. destruct (EventLoop.retrain_queue model_types);
      split; reflexivity.
  - destruct is_trained; split; reflexivity.
  - destruct (EventLoop.prediction_trainings p !! i) as [[|v [|v' rest]]|];
      split; reflexivity.
Qed.

(** The training service sees only its own events. *)
Lemma guarded_projection cfg evs : forall p,
  EventLoop.training_service (fst (EventLoop.run cfg p evs))
  = fst (run cfg (EventLoop.training_service p) (EventLoop.guarded_events evs)) /\
  snd (EventLoop.run cfg p evs)
  = snd (run cfg (EventLoop.training_service p) (EventLoop.guarded_events evs)).
Proof.
  induction evs as [|ev evs IH]; intros p; [split; reflexivity|].
  cbn [EventLoop.run]. rewrite guarded_events_cons.
  destruct ev as [e|model_types|is_trained|i].
  - cbn [EventLoop.step run].
    destruct (step cfg (EventLoop.training_service p) e) as [w1 o1].
    specialize (IH {| EventLoop.training_service := w1;
                      EventLoop.prediction_trainings := EventLoop.prediction_trainings p |}).
    cbn [EventLoop.training_service] in IH.
    destruct (EventLoop.run cfg _ evs) as [p2 o2].
    destruct (run cfg w1 (EventLoop.guarded_events evs)) as [w2 o2'].
    cbn [fst snd] in *. destruct IH as [IH1 IH2]. split; [exact IH1|]. rewrite IH2.
    reflexivity.
  - destruct (step_unguarded cfg p (EventLoop.RetrainModels model_types)) as [E1 E2];
      [discriminate|].
    destruct (EventLoop.step cfg p _) as [p1 o1]. cbn [fst snd] in E1, E2. subst o1.
    specialize (IH p1). rewrite E1 in IH.
    destruct (EventLoop.run cfg p1 evs) as [p2 o2]. exact IH.
  - destruct (step_unguarded cfg p (EventLoop.PredictPaymentDelay is_trained)) as [E1 E2];
      [discriminate|].
    destruct (EventLoop.step cfg p _) as [p1 o1]. cbn [fst snd] in E1, E2. subst o1.
    specialize (IH p1). rewrite E1 in IH.
    destruct (EventLoop.run cfg p1 evs) as [p2 o2]. exact IH.
  - destruct (step_unguarded cfg p (EventLoop.TrainReturned i)) as [E1 E2];
      [discriminate|].
    destruct (EventLoop.step cfg p _) as [p1 o1]. cbn [fst snd] in E1, E2. subst o1.
    specialize (IH p1). rewrite E1 in IH.
    destruct (EventLoop.run cfg p1 evs) as [p2 o2]. exact IH.
Qed.

Lemma guarded_runs_nodup w : consistent w -> NoDup (EventLoop.guarded_runs w).
Proof.
  intros [Hnd _]. unfold EventLoop.guarded_runs, in_flight in *.
  induction (tasks w) as [|t l IH]; cbn [List.filter map]; [constructor|].
  cbn [map] in Hnd. apply NoDup_cons in Hnd as [Hx Hnd].
  destruct (match at_phase t with AwaitingTrain _ => true | _ => false end);
    [|exact (IH Hnd)].
  cbn [map]. apply NoDup_cons. split; [|exact (IH Hnd)].
  intros Hin. apply Hx. apply list_elem_of_In. apply list_elem_of_In in Hin.
  apply in_map_iff in Hin as (x & E & Hin). apply filter_In in Hin as [Hin _].
  apply in_map_iff. exists x. split; assumption.
Qed.

(** C5, as amended: a call of [_train_model] for a variant that is in the
    in-flight dictionary returns "skipped" with the reason "Training
    already in progress", starts no training run and changes nothing; in
    every state the training service can reach, no variant has two calls
    of [_train_model] in flight and the dictionary holds exactly the
    variants that have one; every call that returns, whatever its answer,
    leaves its variant out of the dictionary and out of the calls in
    flight; and every call in flight takes the result it waits for and
    then either returns, its variant removed, or waits at its next await,
    of which there are three.  The guard covers the calls of
    [_train_model] only: whatever else runs on the loop, no two of them
    are in [train] for one variant, but a run of [train] that the
    prediction service starts, in [retrain_models] or before a first
    prediction, is in flight next to the guarded run of the variant. *)
Theorem at_most_one_training_in_flight :
  forall cfg,
    (forall w mt force view now,
        is_Some (training_in_progress w !! mt) ->
        enter cfg w mt force view now
        = (w, [Returned mt (skipped "Training already in progress")]))
    /\ (forall evs,
        let w := fst (run cfg initial evs) in
        NoDup (in_flight w) /\
        forall mt, is_Some (training_in_progress w !! mt) <-> In mt (in_flight w))
    /\ (forall evs i a w' obs mt ans,
        resume cfg (fst (run cfg initial evs)) i a = Some (w', obs) ->
        In (Returned mt ans) obs ->
        training_in_progress w' !! mt = None /\ ~ In mt (in_flight w'))
    /\ (forall evs mt force view now w' ans,
        let w := fst (run cfg initial evs) in
        training_in_progress w !! mt = None ->
        enter cfg w mt force view now = (w', [Returned mt ans]) ->
        w' = w)
    /\ (forall evs i t a,
        let w := fst (run cfg initial evs) in
        tasks w !! i = Some t -> expected (at_phase t) a = true ->
        exists w' obs,
          resume cfg w i a = Some (w', obs) /\
          ((exists ans,
               obs = [Returned (model_type t) ans] /\ w' = finish w i t /\
               training_in_progress w' !! model_type t = None /\
               ~ In (model_type t) (in_flight w'))
           \/ (exists t',
               tasks w' !! i = Some t' /\ model_type t' = model_type t /\
               awaits_passed (at_phase t') = S (awaits_passed (at_phase t)) /\
               awaits_passed (at_phase t') <= 2 /\
               returns obs = [] /\
               training_in_progress w' = training_in_progress w)))%nat
    /\ (forall evs,
        let p := fst (EventLoop.run cfg EventLoop.initial evs) in
        EventLoop.training_service p
        = fst (run cfg initial (EventLoop.guarded_events evs)) /\
        NoDup (EventLoop.guarded_runs (EventLoop.training_service p)))
    /\ EventLoop.training_runs
         (fst (EventLoop.run cfg EventLoop.initial
                 [ EventLoop.Guarded (Call "payment_delay" true sample_view 0);
                   EventLoop.Guarded
                     (Resume 0 (DataCheck (Some (MIN_TRAINING_DATA_SIZE cfg)) 1));
                   EventLoop.RetrainModels None ]))
       = ["payment_delay"; "payment_delay"].
Proof.
  intros cfg. repeat apply conj.
  - intros w mt force view now [x Hx]. unfold enter. rewrite Hx. reflexivity.
  - intros evs. exact (consistent_run cfg evs initial consistent_initial).
  - intros evs i a w' obs mt ans Hr Hin.
    destruct (resume_returned _ _ _ _ _ _ _ _ Hr Hin) as (t & Ht & <- & ->).
    exact (finish_clears _ _ _ (consistent_run cfg evs initial consistent_initial) Ht).
  - intros evs mt force view now w' ans w Hnone. unfold enter. rewrite Hnone.
    destruct (negb force && view_is_trained view && recent_enough cfg view now);
      intros H; inversion H.
    rewrite delete_insert_eq, delete_id by exact Hnone. destruct w; reflexivity.
  - intros evs i t a w Ht He.
    destruct (resume_progress cfg w i t a
                (consistent_run cfg evs initial consistent_initial) Ht He)
      as (w' & obs & Hr & [H|(t' & H1 & H2 & H3 & H4 & H5)]).
    + exists w', obs. split; [exact Hr|]. left. exact H.
    + exists w', obs. split; [exact Hr|]. right. exists t'.
      repeat split; try assumption. destruct (at_phase t'); cbn; lia.
  - intros evs p. subst p.
    destruct (guarded_projection cfg evs EventLoop.initial) as [E _].
    split; [exact E|]. rewrite E. apply guarded_runs_nodup.
    exact (consistent_run cfg _ initial consistent_initial).
  - cbv -[Nat.leb MIN_TRAINING_DATA_SIZE]. rewrite Nat.leb_refl. reflexivity.
Qed.

(** A forced training of the delay model on the default settings: the
    second request is skipped; the first takes its data check and is
    suspended in [train]; when [train] raises it returns "failed" and a
    new request is let in. *)
Lemma at_most_one_training_in_flight_witness :
  let w := fst (run default_settings initial [Call "payment_delay" true sample_view 0]) in
  in_flight w = ["payment_delay"] /\
  enter default_settings w "payment_delay" true sample_view 5
  = (w, [Returned "payment_delay" (skipped "Training already in progress")]) /\
  (exists w1 w2,
      resume default_settings w 0 (DataCheck (Some 150%nat) 2)
      = Some (w1, [TrainCalled "payment_delay" true]) /\
      in_flight w1 = ["payment_delay"] /\
      resume default_settings w1 0 (Trained (inl (Py.IOError "joblib.dump")) 9)
      = Some (w2, [Returned "payment_delay" (failed_error (Py.IOError "joblib.dump"))]) /\
      w2 = initial).
Proof.
  cbv zeta.
  destruct (at_most_one_training_in_flight default_settings)
    as (Hskip & _ & _ & _ & Hprogress & _).
  split; [reflexivity|]. split; [apply Hskip; vm_compute; eauto|].
  destruct (Hprogress [Call "payment_delay" true sample_view 0] 0%nat _
              (DataCheck (Some 150%nat) 2) eq_refl eq_refl)
    as (w1 & obs1 & E1 & _).
  vm_compute in E1. injection E1 as <- <-.
  eexists _, _. split; [vm_compute; reflexivity|]. split; [reflexivity|].
  destruct (Hprogress [Call "payment_delay" true sample_view 0;
                       Resume 0 (DataCheck (Some 150%nat) 2)] 0%nat _
              (Trained (inl (Py.IOError "joblib.dump")) 9) eq_refl eq_refl)
    as (w2 & obs2 & E2 & _).
  vm_compute in E2. injection E2 as <- <-.
  split; vm_compute; reflexivity.
Defined.

(** C5, as stated, fails: while a guarded call of [_train_model] is in
    [train] of the delay model, [retrain_models] of the prediction service
    starts a second run of [train] for the variant. *)
Lemma prediction_service_trains_unguarded : ~ one_training_run_per_variant.
Proof.
  intros H.
  specialize (H default_settings
                [ EventLoop.Guarded (Call "payment_delay" true sample_view 0);
                  EventLoop.Guarded (Resume 0 (DataCheck (Some 150%nat) 1));
                  EventLoop.RetrainModels None ]).
  vm_compute in H. apply NoDup_cons in H as [H _]. apply H. left.
Qed.

(** A run of the guard: a forced training of the delay model, a second
    request while it is in flight, its three awaits, and a new request
    once it has returned. *)
Example guard_trace :
  snd (run default_settings initial
         [ Call "payment_delay" true sample_view 0;
           Call "payment_delay" true sample_view 1;
           Resume 0 (DataCheck (Some 150%nat) 2);
           Call "payment_delay" false sample_view 3;
           Resume 0 (Trained (inl (Py.IOError "joblib.dump")) 9);
           Call "payment_delay" true sample_view 10 ])
  = [ Returned "payment_delay" (skipped "Training already in progress");
      TrainCalled "payment_delay" true;
      Returned "payment_delay" (skipped "Training already in progress");
      Returned "payment_delay" (failed_error (Py.IOError "joblib.dump")) ]
  /\ in_flight (fst (run default_settings initial
                       [ Call "payment_delay" true sample_view 0;
                         Resume 0 (DataCheck (Some 150%nat) 2);
                         Resume 0 (Trained (inl (Py.IOError "joblib.dump")) 9) ]))
     = [].
Proof. split; vm_compute; reflexivity. Qed.

End TrainingGuard.
(** ** The artifact of a model: what is written, what comes back *)

Section Artifact.

Import BaseModel Spec Laws.
Local Open Scope string_scope.
Local Open Scope list_scope.

Context {DataFrame Prepared Pipeline Split Estimator : Type}.
Context `{V : Variant DataFrame Prepared Pipeline}.
Context `{L : Learner Prepared Split Estimator}.

(** What a successful [train] leaves in the manager and on the disk. *)
Lemma train_success_artifact cfg env (m : manager Pipeline Estimator) d data retrain
    m' d' md :
  train cfg env m d data retrain = (m', d', inr md) ->
  model_metadata m' = Some md /\
  md_feature_columns md = feature_columns m' /\
  md_target_column md = target_column m' /\
  d' = {| model_file := Stored (model m'); metadata_file := Stored (Some md) |}.
Proof.
  unfold train.
  destruct (match data with Some df => Py.ok df | None => loaded env end) as [e|df];
    [inversion 1|].
  destruct (frame_len df <? MIN_TRAINING_DATA_SIZE cfg)%nat; [inversion 1|].
  destruct (po_result _) as [e|processed]; [inversion 1|].
  destruct (train_test_split _ _ _ _) as [e|split]; [inversion 1|].
  destruct (fit _ split) as [e|fitted]; [inversion 1|].
  destruct (evaluate _ _ _ _ _) as [e|ev]; [inversion 1|].
  destruct (save_model _ d (io env)) as [d1 [e|[]]] eqn:Es; intros H; inversion H; subst.
  apply save_model_ok in Es. subst d'. repeat split; reflexivity.
Qed.

(** X1.  The artifact of a successful training run, loaded into any
    manager of the variant, brings back the estimator, the metadata, the
    feature columns and the target column of the manager that trained,
    and marks the loading manager trained; the attributes of the subclass
    (the encoders and the scaler) are not part of the artifact and stay as
    the loading manager had them. *)
Theorem train_then_load_restores :
  forall cfg env (m fresh : manager Pipeline Estimator) d data retrain m' d' md,
    train cfg env m d data retrain = (m', d', inr md) ->
    let loaded := load_model fresh d' in
    snd loaded = true /\
    is_trained (fst loaded) = true /\
    model (fst loaded) = model m' /\
    model_metadata (fst loaded) = model_metadata m' /\
    feature_columns (fst loaded) = feature_columns m' /\
    target_column (fst loaded) = target_column m' /\
    pipeline (fst loaded) = pipeline fresh.
Proof.
  intros cfg env m fresh d data retrain m' d' md H.
  destruct (train_success_artifact _ _ _ _ _ _ _ _ _ H) as (Hmd & Hf & Ht & ->).
  unfold load_model. cbn. rewrite Hmd, Hf, Ht. repeat split; reflexivity.
Qed.

(** X2.  [load_model] answers [True] exactly when both files are there
    and complete.  When it answers [False] the manager keeps its trained
    flag, its metadata, its feature columns, its target column and the
    attributes of the subclass; only the estimator may have been replaced
    (by the content of a model file that was read before the metadata
    failed to parse). *)
Theorem load_model_complete_files :
  forall (m : manager Pipeline Estimator) d,
    let loaded := load_model m d in
    (snd loaded = true <->
     exists est md, model_file d = Stored est /\ metadata_file d = Stored md) /\
    (snd loaded = false ->
     is_trained (fst loaded) = is_trained m /\
     model_metadata (fst loaded) = model_metadata m /\
     feature_columns (fst loaded) = feature_columns m /\
     target_column (fst loaded) = target_column m /\
     pipeline (fst loaded) = pipeline m /\
     (model (fst loaded) = model m \/
      model_file d = Stored (model (fst loaded)) /\ metadata_file d = Truncated)).
Proof.
  intros m d. unfold load_model.
  destruct (model_file d) as [| |est], (metadata_file d) as [| |md]; cbn;
    (split; [split; [try discriminate; intros _; eauto
                    |intros (est' & md' & E1 & E2); try discriminate; reflexivity]
            |try discriminate; intros _; repeat split; auto]).
Qed.

(** X3.  [save_model] is not atomic.  When the estimator is written and
    the metadata file cannot be opened, the call raises, the new estimator
    lies beside the metadata of the previous artifact, and [load_model]
    accepts the pair: the loading manager gets the new estimator with the
    old metadata, feature columns and target column. *)
Theorem save_model_failure_mixes_artifacts :
  forall (m fresh : manager Pipeline Estimator) d o old,
    is_trained m = true ->
    metadata_file d = Stored old ->
    dump_model o = Written ->
    dump_metadata o = FailedUntouched ->
    let saved := save_model m d o in
    snd saved = inl (Py.IOError "json.dump") /\
    fst saved = {| model_file := Stored (model m); metadata_file := Stored old |} /\
    snd (load_model fresh (fst saved)) = true /\
    model (fst (load_model fresh (fst saved))) = model m /\
    model_metadata (fst (load_model fresh (fst saved))) = old.
Proof.
  intros m fresh d o old Ht Hold Hm Hj. unfold save_model.
  rewrite Ht, Hm. cbn [negb write]. cbn [metadata_file]. rewrite Hj, Hold. cbn.
  repeat split; reflexivity.
Qed.

Lemma insert_by_importance_perm x l :
  Permutation (insert_by_importance x l) (x :: l).
Proof.
  induction l as [|y l IH]; cbn; [reflexivity|].
  destruct (snd x <? snd y)%float; [|reflexivity].
  rewrite IH. apply perm_swap.
Qed.

Lemma sort_by_importance_perm l :
  Permutation (fold_right insert_by_importance [] l) l.
Proof.
  induction l as [|x l IH]; cbn; [reflexivity|].
  rewrite insert_by_importance_perm, IH. reflexivity.
Qed.

Lemma descending_cons a l :
  descending (a :: l) <->
  match l with [] => True | b :: _ => (b <=? a)%float = true end /\ descending l.
Proof. destruct l; cbn; tauto. Qed.

Lemma insert_by_importance_descending x l :
  ordered (snd x) -> Forall (fun y => ordered (snd y)) l ->
  descending (map snd l) ->
  descending (map snd (insert_by_importance x l)).
Proof.
  intros Hx. induction l as [|y l IH]; intros Hl Hd; [exact I|].
  inversion Hl as [|? ? Hy Hl']; subst.
  cbn [insert_by_importance].
  destruct (snd x <? snd y)%float eqn:E.
  - cbn [map] in Hd |- *. apply descending_cons in Hd as [Hh Ht].
    apply descending_cons. split; [|exact (IH Hl' Ht)].
    destruct l as [|z l]; cbn [insert_by_importance map].
    + apply FloatOrder.ltb_leb. exact E.
    + destruct (snd x <? snd z)%float; cbn [map]; [exact Hh|].
      apply FloatOrder.ltb_leb. exact E.
  - cbn [map]. apply descending_cons. split; [|exact Hd].
    apply FloatOrder.not_ltb_leb; assumption.
Qed.

Lemma sort_by_importance_descending l :
  Forall (fun y => ordered (snd y)) l ->
  descending (map snd (fold_right insert_by_importance [] l)).
Proof.
  induction l as [|x l IH]; intros Hl; [exact I|].
  inversion Hl as [|? ? Hx Hl']; subst. cbn [fold_right].
  apply insert_by_importance_descending; [exact Hx| |exact (IH Hl')].
  rewrite (sort_by_importance_perm l). exact Hl'.
Qed.

Lemma Forall_zip_snd {A} (P : float -> Prop) (cols : list A) imps :
  Forall P imps -> Forall (fun y => P (snd y)) (zip cols imps).
Proof.
  revert imps. induction cols as [|c cols IH]; intros [|i imps] H; cbn;
    try constructor.
  - inversion H; assumption.
  - apply IH. inversion H; assumption.
Qed.

(** X4.  The ranking [get_feature_importance] returns for a trained
    model pairs every feature column with its importance, each pair once,
    and lists them from the largest importance to the smallest (the
    feature names being distinct, as the keys of the dictionary are, and
    the importances numbers, not [nan]).  Before training it is empty. *)
Theorem get_feature_importance_ranks :
  forall (m : manager Pipeline Estimator) est imps,
    is_trained m = true ->
    model m = Some est ->
    feature_importances_ est = Some imps ->
    NoDup (feature_columns m) ->
    Forall ordered imps ->
    Permutation (get_feature_importance m) (zip (feature_columns m) imps) /\
    descending (map snd (get_feature_importance m)) /\
    forall m0 : manager Pipeline Estimator,
      is_trained m0 = false -> get_feature_importance m0 = [].
Proof.
  intros m est imps Ht Hm Hi _ Ho. unfold get_feature_importance.
  rewrite Ht, Hm, Hi. cbn [negb]. split; [apply sort_by_importance_perm|].
  split.
  - apply sort_by_importance_descending. apply Forall_zip_snd. exact Ho.
  - intros m0 H0. rewrite H0. reflexivity.
Qed.

(** X5.  [train] checks the size of the frame before anything else: on a
    frame with fewer rows than [MIN_TRAINING_DATA_SIZE] it raises the
    insufficient-data error and leaves the manager and the storage
    directory exactly as they were, whatever the state of the manager,
    the [retrain] flag and the behaviour of the disk. *)
Theorem train_insufficient_data_changes_nothing :
  forall cfg env (m : manager Pipeline Estimator) d data retrain df,
    match data with Some df => Py.ok df | None => loaded env end = inr df ->
    (frame_len df < MIN_TRAINING_DATA_SIZE cfg)%nat ->
    train cfg env m d data retrain
    = (m, d, inl (Py.InsufficientData (frame_len df) (MIN_TRAINING_DATA_SIZE cfg))).
Proof.
  intros cfg env m d data retrain df Hd Hlt. unfold train. rewrite Hd.
  destruct (Nat.ltb_spec (frame_len df) (MIN_TRAINING_DATA_SIZE cfg)); [reflexivity|lia].
Qed.

(** X6.  With a disk that takes every write, a [train] that fails has
    written nothing and has left the trained flag, the metadata and the
    target column of the manager as they were. *)
Theorem train_failure_keeps_artifact :
  forall cfg env (m : manager Pipeline Estimator) d data retrain m' d' e,
    io env = no_fault ->
    train cfg env m d data retrain = (m', d', inl e) ->
    d' = d /\
    is_trained m' = is_trained m /\
    model_metadata m' = model_metadata m /\
    target_column m' = target_column m.
Proof.
  intros cfg env m d data retrain m' d' e Hio. unfold train.
  destruct (match data with Some df => Py.ok df | None => loaded env end) as [e0|df];
    [intros H; inversion H; subst; now repeat split|].
  destruct (frame_len df <? MIN_TRAINING_DATA_SIZE cfg)%nat;
    [intros H; inversion H; subst; now repeat split|].
  destruct (po_result _) as [e0|processed];
    [intros H; inversion H; subst; now repeat split|].
  destruct (train_test_split _ _ _ _) as [e0|split];
    [intros H; inversion H; subst; now repeat split|].
  destruct (fit _ split) as [e0|fitted];
    [intros H; inversion H; subst; now repeat split|].
  destruct (evaluate _ _ _ _ _) as [e0|ev];
    [intros H; inversion H; subst; now repeat split|].
  rewrite Hio. unfold save_model. cbn. discriminate.
Qed.

(** X7.  What a failed [train] does not undo: when the fit succeeds and
    the evaluation raises, the freshly fitted estimator stays in the
    manager.  A manager that was trained before keeps its trained flag and
    its old metadata and from then on predicts with an estimator that was
    neither evaluated nor saved. *)
Theorem train_failure_keeps_fitted_estimator :
  forall cfg env (m : manager Pipeline Estimator) d data (retrain : bool)
         (df : DataFrame)
         (processed : Prepared) (split : Split) (fitted : Estimator) e,
    match data with Some df => Py.ok df | None => loaded env end = inr df ->
    (MIN_TRAINING_DATA_SIZE cfg <= frame_len df)%nat ->
    let po := prepare_features (now env) (pipeline m) df in
    let m1 := after_prepare m po in
    po_result po = inr processed ->
    train_test_split processed (feature_columns m1) (target_column m1)
      (_is_classification m1) = inr split ->
    fit (match model m with
         | Some est => if retrain then create_model else est
         | None => create_model
         end) split = inr fitted ->
    evaluate fitted split processed (feature_columns m1) (target_column m1) = inl e ->
    let '(m', d', r) := train cfg env m d data retrain in
    r = inl e /\ d' = d /\
    model m' = Some fitted /\
    is_trained m' = is_trained m /\
    model_metadata m' = model_metadata m.
Proof.
  intros cfg env m d data retrain df processed split fitted e Hd Hn po m1 Hp Hs Hf He.
  unfold train. rewrite Hd.
  destruct (Nat.ltb_spec (frame_len df) (MIN_TRAINING_DATA_SIZE cfg)); [lia|].
  fold po. fold m1. rewrite Hp, Hs. cbn [set_model model feature_columns target_column].
  change (model m1) with (model m). rewrite Hf.
  cbn [set_model model feature_columns target_column]. rewrite He.
  repeat split.
Qed.

End Artifact.

(** The properties of the artifact on the sample data. *)

Section ArtifactSamples.

Import BaseModel Spec Laws Samples.
Local Open Scope string_scope.
Local Open Scope list_scope.

Lemma train_then_load_restores_witness :
  exists m' d' md,
    train (V := delay_variant) (L := classifier) default_settings
      (Fixtures.sample_env Written) new_manager empty_storage None false
    = (m', d', inr md) /\
    snd (load_model new_manager d') = true /\
    model (fst (load_model new_manager d')) = model m' /\
    feature_columns (fst (load_model new_manager d')) = feature_columns m' /\
    pipeline (fst (load_model new_manager d')) = PaymentDelayPredictor.new_pipeline.
Proof.
  eassert (E : train (V := delay_variant) (L := classifier) default_settings
                 (Fixtures.sample_env Written) new_manager empty_storage None false
               = (_, _, inr _)) by (vm_compute; reflexivity).
  eexists _, _, _. split; [exact E|].
  destruct (@train_then_load_restores _ _ _ _ _ delay_variant classifier
              _ _ _ new_manager _ _ _ _ _ _ E) as (H1 & _ & H3 & _ & H5 & _ & H7).
  repeat split; assumption.
Defined.

Lemma save_model_failure_mixes_artifacts_witness :
  let d := {| model_file := Stored (Some 0%nat); metadata_file := Stored None |} in
  let o := {| dump_model := Written; dump_metadata := FailedUntouched |} in
  snd (save_model trained_manager d o) = inl (Py.IOError "json.dump") /\
  snd (load_model new_manager (fst (save_model trained_manager d o))) = true /\
  model (fst (load_model new_manager (fst (save_model trained_manager d o))))
  = Some 1%nat /\
  model_metadata (fst (load_model new_manager (fst (save_model trained_manager d o))))
  = None.
Proof.
  intros d o.
  destruct (@save_model_failure_mixes_artifacts _ _ trained_manager new_manager d o None
              eq_refl eq_refl eq_refl eq_refl) as (H1 & _ & H3 & H4 & H5).
  repeat split; assumption.
Defined.

Lemma get_feature_importance_ranks_witness :
  Permutation (get_feature_importance (L := classifier) ranked_manager)
    (zip (feature_columns ranked_manager)
       [0.3; 0.05; 0.05; 0.2; 0.02; 0.02; 0.02; 0.02; 0.2; 0.05; 0.05; 0; 0; 0.02]%float) /\
  descending (map snd (get_feature_importance (L := classifier) ranked_manager)).
Proof.
  destruct (@get_feature_importance_ranks _ _ _ _ classifier ranked_manager 1%nat _
              eq_refl eq_refl eq_refl) as (H1 & H2 & _).
  - apply (bool_decide_unpack _). vm_compute. reflexivity.
  - repeat constructor; unfold ordered; vm_compute; discriminate.
  - split; assumption.
Defined.

Lemma train_insufficient_data_changes_nothing_witness :
  train (V := delay_variant) (L := classifier) default_settings
    (Fixtures.sample_env Written) trained_manager empty_storage
    (Some Fixtures.two_payments) true
  = (trained_manager, empty_storage, inl (Py.InsufficientData 2 100)).
Proof.
  apply (@train_insufficient_data_changes_nothing _ _ _ _ _ delay_variant classifier
           default_settings (Fixtures.sample_env Written) trained_manager empty_storage
           (Some Fixtures.two_payments) true Fixtures.two_payments eq_refl).
  cbn. lia.
Defined.

Lemma train_failure_keeps_artifact_witness :
  exists m' d' e,
    train (V := delay_variant) (L := unevaluated_learner) default_settings
      (Fixtures.sample_env Written) new_manager empty_storage None false
    = (m', d', inl e) /\
    d' = empty_storage /\ is_trained m' = false /\ model_metadata m' = None.
Proof.
  eassert (E : train (V := delay_variant) (L := unevaluated_learner) default_settings
                 (Fixtures.sample_env Written) new_manager empty_storage None false
               = (_, _, inl _)) by (vm_compute; reflexivity).
  eexists _, _, _. split; [exact E|].
  destruct (@train_failure_keeps_artifact _ _ _ _ _ delay_variant unevaluated_learner
              _ (Fixtures.sample_env Written) _ _ _ _ _ _ _ eq_refl E)
    as (H1 & H2 & H3 & _).
  repeat split; assumption.
Defined.

Lemma train_failure_keeps_fitted_estimator_witness :
  let '(m', d', r) :=
    train (V := delay_variant) (L := unevaluated_learner) default_settings
      (Fixtures.sample_env Written) trained_manager empty_storage None true in
  r = inl (Py.External "cross_val_score") /\ d' = empty_storage /\
  model m' = Some 1%nat /\ is_trained m' = true /\ model_metadata m' = None.
Proof.
  eassert (Hp : po_result (PaymentDelayPredictor.prepare_features Fixtures.sample_now
                             (pipeline trained_manager) Fixtures.hundred_payments)
                = inr _) by (vm_compute; reflexivity).
  exact (@train_failure_keeps_fitted_estimator _ _ _ _ _ delay_variant unevaluated_learner
           default_settings (Fixtures.sample_env Written) trained_manager empty_storage
           None true Fixtures.hundred_payments _ tt 1%nat (Py.External "cross_val_score")
           eq_refl ltac:(vm_compute; lia) Hp eq_refl eq_refl eq_refl).
Defined.

End ArtifactSamples.

(** ** The feature pipeline of the delay model, from its first call on *)

Section FirstFrame.

Import BaseModel PaymentDelayPredictor Spec Laws.
Local Open Scope string_scope.
Local Open Scope list_scope.

Lemma seen_cons c cs s :
  Sklearn.LabelEncoder.seen (c :: cs) s
  = String.eqb c s || Sklearn.LabelEncoder.seen cs s.
Proof.
  unfold Sklearn.LabelEncoder.seen. cbn [Sklearn.LabelEncoder.encode].
  destruct (String.eqb c s); [reflexivity|].
  destruct (Sklearn.LabelEncoder.encode cs s); reflexivity.
Qed.

Lemma seen_insert_sorted x cs s :
  Sklearn.LabelEncoder.seen (Sklearn.LabelEncoder.insert_sorted x cs) s
  = String.eqb x s || Sklearn.LabelEncoder.seen cs s.
Proof.
  induction cs as [|c cs IH]; cbn [Sklearn.LabelEncoder.insert_sorted].
  - apply seen_cons.
  - destruct (String.compare x c) eqn:E.
    + apply String.compare_eq_iff in E. subst c. rewrite seen_cons.
      destruct (String.eqb x s); reflexivity.
    + rewrite seen_cons. reflexivity.
    + rewrite !seen_cons, IH.
      destruct (String.eqb c s), (String.eqb x s); reflexivity.
Qed.

(** The labels a fitted encoder knows are those it was fit on. *)
Lemma seen_fit y s :
  Sklearn.LabelEncoder.seen (Sklearn.LabelEncoder.fit y) s = true <-> In s y.
Proof.
  unfold Sklearn.LabelEncoder.fit. induction y as [|x y IH]; cbn [fold_right In].
  - split; [discriminate|contradiction].
  - rewrite seen_insert_sorted, orb_true_iff, IH, String.eqb_eq. tauto.
Qed.

Lemma fit_sees_all y :
  forallb (Sklearn.LabelEncoder.seen (Sklearn.LabelEncoder.fit y)) y = true.
Proof. apply forallb_forall. intros s Hs. apply seen_fit. exact Hs. Qed.

(** A column whose encoder does not exist yet: the encoder is fit on the
    column and every label gets its code. *)
Lemma encode_column_unfitted name present values encoders :
  encoders !! name = None ->
  let labels := map (fun v => get v "Unknown") values in
  encode_column name present values encoders
  = (if present then <[name := Sklearn.LabelEncoder.fit labels]> encoders else encoders,
     inr (if present then codes (Sklearn.LabelEncoder.fit labels) labels
          else map (fun _ => 0) values)).
Proof.
  intros H labels. unfold encode_column, Sklearn.LabelEncoder.fit_transform.
  destruct present; [|reflexivity]. rewrite H. fold labels.
  rewrite (transform_all_seen _ _ (fit_sees_all labels)). reflexivity.
Qed.

(** The codes of a column: as many as there are rows. *)
Lemma encode_column_length name present values encoders encoders' cs :
  encode_column name present values encoders = (encoders', inr cs) ->
  length cs = length values.
Proof.
  unfold encode_column, Sklearn.LabelEncoder.fit_transform,
    Sklearn.LabelEncoder.transform.
  destruct present.
  - destruct (encoders !! name).
    + destruct (List.filter _ _); intros H; inversion H.
      rewrite !length_map. reflexivity.
    + destruct (List.filter _ _); intros H; inversion H.
      rewrite !length_map. reflexivity.
  - intros H. inversion H. rewrite length_map. reflexivity.
Qed.

Lemma assemble_target base : forall cats pays X,
  length cats = length base -> length pays = length base -> length X = length base ->
  map is_delayed (assemble base cats pays X) = map is_delayed base.
Proof.
  induction base as [|b base IH]; intros [|c cats] [|p pays] [|x X] H1 H2 H3;
    try discriminate; cbn [assemble map]; [reflexivity|].
  cbn in H1, H2, H3. rewrite IH by lia. reflexivity.
Qed.

Lemma whole_days_late x : (0 <? x / 86400)%Z = (86400 <=? x)%Z.
Proof.
  pose proof (Z.div_mod x 86400 ltac:(lia)).
  pose proof (Z.mod_pos_bound x 86400 ltac:(lia)).
  destruct (Z.ltb_spec 0 (x / 86400)), (Z.leb_spec 86400 x); try reflexivity; lia.
Qed.

Lemma base_features_is_delayed data now r :
  is_delayed (base_features data now r) = late_by_a_day data r.
Proof.
  unfold base_features, late_by_a_day. cbn [is_delayed].
  destruct (has_column data "paymentDate" && has_column data "dueDate");
    [|reflexivity].
  destruct (cell_paymentDate r) as [paid|], (cell_dueDate r) as [due|];
    try reflexivity.
  unfold Calendar.days_between, Calendar.seconds_per_day.
  rewrite whole_days_late.
  destruct (Z.leb_spec 86400 (paid - due)), (Z.leb_spec (due + 86400) paid);
    try reflexivity; lia.
Qed.

Lemma fit_transform_length X f out :
  Sklearn.StandardScaler.fit_transform X = (f, inr out) -> length out = length X.
Proof.
  unfold Sklearn.StandardScaler.fit_transform.
  destruct (Sklearn.StandardScaler.fit X) as [e|g]; intros H; inversion H.
  unfold Sklearn.StandardScaler.transform. apply length_map.
Qed.

(** The two encoded columns of a frame whose encoders do not exist yet. *)
Lemma prepare_features_unfitted now self data :
  label_encoders self !! "customerCategory" = None ->
  label_encoders self !! "paymentMethod" = None ->
  prepare_features now self data
  = let base := map (base_features data now) (rows data) in
    let cats := if has_column data "customerCategory"
                then codes (Sklearn.LabelEncoder.fit (category_labels data))
                       (category_labels data)
                else map (fun _ => 0) (map cell_customerCategory (rows data)) in
    let pays := if has_column data "paymentMethod"
                then codes (Sklearn.LabelEncoder.fit (method_labels data))
                       (method_labels data)
                else map (fun _ => 0) (map cell_paymentMethod (rows data)) in
    let encoders1 :=
      if has_column data "customerCategory"
      then <["customerCategory" := Sklearn.LabelEncoder.fit (category_labels data)]>
             (label_encoders self)
      else label_encoders self in
    let encoders2 :=
      if has_column data "paymentMethod"
      then <["paymentMethod" := Sklearn.LabelEncoder.fit (method_labels data)]> encoders1
      else encoders1 in
    let '(fitted, scaled) :=
      Sklearn.StandardScaler.fit_transform (map numerical_features base) in
    {| po_pipeline := {| scaler := fitted; label_encoders := encoders2 |};
       po_feature_columns := Some the_feature_columns;
       po_result := let* X := scaled in Py.ok (assemble base cats pays X) |}.
Proof.
  intros Hc Hp. unfold prepare_features.
  rewrite (encode_column_unfitted _ _ _ _ Hc).
  rewrite encode_column_unfitted
    by (destruct (has_column data "customerCategory");
        [rewrite lookup_insert_ne by discriminate|]; exact Hp).
  reflexivity.
Qed.



(** X9.  The target the delay model learns: in every prepared frame
    [is_delayed] is 1 exactly for the rows whose payment came a full day
    (86400 seconds) or more after the due date.  A payment that is late by
    less than a day, a row without one of the two dates, and every row of
    a frame without a [paymentDate] column count as on time. *)
Theorem prepare_features_is_delayed :
  forall now self data out,
    po_result (prepare_features now self data) = inr out ->
    map is_delayed out = map (late_by_a_day data) (rows data).
Proof.
  intros now self data out. unfold prepare_features.
  destruct (encode_column "customerCategory" _ _ _) as [e1 [err|cats]] eqn:E1;
    [cbn; discriminate|].
  destruct (encode_column "paymentMethod" _ _ _) as [e2 [err|pays]] eqn:E2;
    [cbn; discriminate|].
  apply encode_column_length in E1, E2. rewrite length_map in E1, E2.
  unfold Sklearn.StandardScaler.fit_transform.
  destruct (Sklearn.StandardScaler.fit _) as [err|f]; cbn [po_result Py.bind];
    [discriminate|].
  intros H. inversion H. subst out. clear H.
  rewrite assemble_target.
  - rewrite map_map. apply map_ext. intros r. apply base_features_is_delayed.
  - rewrite length_map. exact E1.
  - rewrite length_map. exact E2.
  - unfold Sklearn.StandardScaler.transform. rewrite !length_map. reflexivity.
Qed.


(** X29.  The encoders are not part of the stored artifact, so a model
    that was loaded, not trained, meets the first request without them:
    the one-row frame [predict_payment_delay] builds then fits them, and
    whatever category and payment method the customer has, both are
    encoded as 0. *)
Theorem first_prediction_encodes_zero :
  forall now self e c amount due days out,
    label_encoders self !! "customerCategory" = None ->
    label_encoders self !! "paymentMethod" = None ->
    po_result (prepare_features now self
                 (PredictionService.prediction_data e c amount due days)) = inr out ->
    map customer_category_encoded out = [0] /\
    map payment_method_encoded out = [0] /\
    label_encoders
      (po_pipeline (prepare_features now self
                      (PredictionService.prediction_data e c amount due days)))
    !! "customerCategory" = Some [get (category c) "Regular"].
Proof.
  intros now self e c amount due days out Hc Hp.
  set (data := PredictionService.prediction_data e c amount due days).
  rewrite (prepare_features_unfitted _ _ _ Hc Hp). cbv zeta.
  change (has_column data "customerCategory") with true.
  change (has_column data "paymentMethod") with true.
  change (category_labels data) with [get (category c) "Regular"].
  change (method_labels data) with [get (preferredPaymentMethod c) "Bank Transfer"].
  destruct (Sklearn.StandardScaler.fit_transform _) as [f [err|X]] eqn:Ef;
    cbn [po_result Py.bind]; [discriminate|].
  intros [= <-].
  apply fit_transform_length in Ef. cbn [length map rows data] in Ef.
  destruct X as [|x [|x' X]]; try discriminate Ef.
  cbn [map assemble_row customer_category_encoded payment_method_encoded].
  rewrite !String.eqb_refl. cbn [get]. repeat split.
  cbn [po_pipeline label_encoders].
  rewrite lookup_insert_ne by discriminate. rewrite lookup_insert_eq. reflexivity.
Qed.

End FirstFrame.

(** The properties of the first frame on the sample data. *)

Section FirstFrameSamples.

Import BaseModel Spec Laws Samples.
Local Open Scope string_scope.
Local Open Scope list_scope.


Lemma prepare_features_is_delayed_witness :
  exists out,
    po_result (PaymentDelayPredictor.prepare_features Fixtures.sample_now
                 PaymentDelayPredictor.new_pipeline Fixtures.two_payments) = inr out /\
    map PaymentDelayPredictor.is_delayed out = [0; 1].
Proof.
  eassert (E : po_result (PaymentDelayPredictor.prepare_features Fixtures.sample_now
                            PaymentDelayPredictor.new_pipeline Fixtures.two_payments)
               = inr _) by (vm_compute; reflexivity).
  eexists. split; [exact E|].
  exact (prepare_features_is_delayed _ _ _ _ E).
Defined.


Lemma first_prediction_encodes_zero_witness :
  exists out,
    po_result
      (PaymentDelayPredictor.prepare_features Fixtures.sample_now
         PaymentDelayPredictor.new_pipeline
         (PredictionService.prediction_data (Fixtures.sample_env Written)
            (Fixtures.a_customer 1000 900) None None 30)) = inr out /\
    map PaymentDelayPredictor.customer_category_encoded out = [0] /\
    map PaymentDelayPredictor.payment_method_encoded out = [0].
Proof.
  eassert (E : po_result
                 (PaymentDelayPredictor.prepare_features Fixtures.sample_now
                    PaymentDelayPredictor.new_pipeline
                    (PredictionService.prediction_data (Fixtures.sample_env Written)
                       (Fixtures.a_customer 1000 900) None None 30)) = inr _)
    by (vm_compute; reflexivity).
  eexists. split; [exact E|].
  destruct (first_prediction_encodes_zero Fixtures.sample_now
              PaymentDelayPredictor.new_pipeline _ _ _ _ _ _ eq_refl eq_refl E)
    as (H1 & H2 & _).
  split; assumption.
Defined.

End FirstFrameSamples.

(** ** The amount model *)

Section AmountModel.

Import BaseModel Spec Laws.
Local Open Scope string_scope.
Local Open Scope list_scope.

Context {Split Estimator : Type}.
Context `{L : Learner (list PaymentAmountPredictor.feature_row) Split Estimator}.

Lemma after_prepare_failed (m : manager PaymentDelayPredictor.pipeline Estimator) e :
  after_prepare m
    {| po_pipeline := pipeline m; po_feature_columns := None;
       po_result := inl e : Py.result (list PaymentAmountPredictor.feature_row) |}
  = m.
Proof. destruct m. reflexivity. Qed.

(** X27.  The amount model cannot be trained on a frame that lacks one
    of the columns [amount], [creditLimit] and [outstandingAmount], however
    many rows it has: without [amount] the preparation raises a
    [KeyError]; with it, but without one of the other two, an
    [AttributeError] ([df.get(name, 0)] is then the number 0, which has no
    [fillna]).  [train] passes the error on and leaves the manager and the
    directory as they were. *)
Theorem amount_model_needs_its_columns :
  forall cfg env (m : manager PaymentDelayPredictor.pipeline Estimator) d retrain data,
    (MIN_TRAINING_DATA_SIZE cfg <= length (PaymentAmountPredictor.rows data))%nat ->
    PaymentAmountPredictor.has_amount data
    && PaymentAmountPredictor.has_creditLimit data
    && PaymentAmountPredictor.has_outstandingAmount data = false ->
    train (V := amount_variant) cfg env m d (Some data) retrain
    = (m, d,
       inl (if PaymentAmountPredictor.has_amount data then Py.AttributeError
            else Py.External "KeyError: 'payment_amount'")).
Proof.
  intros cfg env m d retrain data Hn Hc. unfold train. cbn [Py.ok].
  change (frame_len data) with (length (PaymentAmountPredictor.rows data)).
  destruct (Nat.ltb_spec (length (PaymentAmountPredictor.rows data))
              (MIN_TRAINING_DATA_SIZE cfg)); [lia|].
  change (prepare_features (now env) (pipeline m) data)
    with (PaymentAmountPredictor.prepare_features (now env) (pipeline m) data).
  unfold PaymentAmountPredictor.prepare_features.
  destruct (PaymentAmountPredictor.has_amount data); cbn [negb].
  - cbn [andb] in Hc.
    destruct (PaymentAmountPredictor.has_creditLimit data); cbn [andb negb orb] in Hc |- *.
    + rewrite Hc. cbn [negb po_result Py.raise]. rewrite after_prepare_failed.
      reflexivity.
    + cbn [po_result Py.raise]. rewrite after_prepare_failed. reflexivity.
  - cbn [po_result Py.raise]. rewrite after_prepare_failed. reflexivity.
Qed.

Lemma numeric_not_nan present cell :
  PrimFloat.is_nan (PaymentDelayPredictor.numeric present cell) = false.
Proof.
  unfold PaymentDelayPredictor.numeric. destruct present; [|reflexivity].
  destruct cell as [x|]; [|reflexivity].
  destruct (PrimFloat.is_nan x) eqn:E; [reflexivity|exact E].
Qed.

Lemma fillna_not_nan x : PrimFloat.is_nan (PaymentAmountPredictor.fillna x) = false.
Proof.
  unfold PaymentAmountPredictor.fillna.
  destruct (PrimFloat.is_nan x) eqn:E; [reflexivity|exact E].
Qed.

Lemma fillna_number x :
  PrimFloat.is_nan x = false -> PaymentAmountPredictor.fillna x = x.
Proof. intros H. unfold PaymentAmountPredictor.fillna. rewrite H. reflexivity. Qed.

(** X28.  On a frame that has the three columns the features of the
    amount model are always prepared, one row per record and also for a
    frame without rows; no feature of a row is [nan].  When the frame has
    no [invoiceAmount] column the feature [invoice_amount] of every row
    is the target [payment_amount] itself, and [payment_ratio] is 1. *)
Theorem amount_features_prepared :
  forall now self data,
    PaymentAmountPredictor.has_amount data = true ->
    PaymentAmountPredictor.has_creditLimit data = true ->
    PaymentAmountPredictor.has_outstandingAmount data = true ->
    let po := PaymentAmountPredictor.prepare_features now self data in
    exists out,
      po_result po = inr out /\
      po_feature_columns po = Some PaymentAmountPredictor.the_feature_columns /\
      po_pipeline po = self /\
      length out = length (PaymentAmountPredictor.rows data) /\
      Forall (fun r =>
                PrimFloat.is_nan (PaymentAmountPredictor.invoice_amount r) = false /\
                PrimFloat.is_nan (PaymentAmountPredictor.credit_limit r) = false /\
                PrimFloat.is_nan (PaymentAmountPredictor.outstanding_amount r) = false /\
                PrimFloat.is_nan (PaymentAmountPredictor.payment_ratio r) = false) out /\
      (PaymentAmountPredictor.has_invoiceAmount data = false ->
       Forall (fun r =>
                 PaymentAmountPredictor.invoice_amount r
                 = PaymentAmountPredictor.payment_amount r /\
                 PaymentAmountPredictor.payment_ratio r = 1%float) out).
Proof.
  intros now self data Ha Hc Ho po. subst po.
  unfold PaymentAmountPredictor.prepare_features. rewrite Ha, Hc, Ho. cbn.
  eexists. split; [reflexivity|]. split; [reflexivity|]. split; [reflexivity|].
  split; [apply length_map|]. split.
  - apply List.Forall_forall. intros r Hr. apply in_map_iff in Hr as (x & <- & _).
    unfold PaymentAmountPredictor.features. cbn.
    repeat split; apply fillna_not_nan.
  - intros Hi. apply List.Forall_forall. intros r Hr. apply in_map_iff in Hr as (x & <- & _).
    unfold PaymentAmountPredictor.features. rewrite Hi.
    cbn [PaymentAmountPredictor.invoice_amount PaymentAmountPredictor.payment_amount
         PaymentAmountPredictor.payment_ratio].
    split; [apply fillna_number, numeric_not_nan|reflexivity].
Qed.

End AmountModel.

(** The properties of the amount model on the sample data. *)

Section AmountSamples.

Import BaseModel Spec Laws Samples.
Local Open Scope string_scope.
Local Open Scope list_scope.

Lemma amount_model_needs_its_columns_witness :
  train (V := amount_variant) (L := amount_learner) default_settings
    {| now := Fixtures.sample_now; loaded := Py.ok bare_payments; io := no_fault |}
    (init (Some "payment_amount") PaymentDelayPredictor.new_pipeline) empty_storage
    (Some bare_payments) false
  = (init (Some "payment_amount") PaymentDelayPredictor.new_pipeline, empty_storage,
     inl Py.AttributeError).
Proof.
  apply (@amount_model_needs_its_columns _ _ amount_learner default_settings
           {| now := Fixtures.sample_now; loaded := Py.ok bare_payments; io := no_fault |}
           (init (Some "payment_amount") PaymentDelayPredictor.new_pipeline) empty_storage
           false bare_payments).
  - vm_compute. lia.
  - reflexivity.
Defined.

Lemma amount_features_prepared_witness :
  exists out,
    po_result (PaymentAmountPredictor.prepare_features Fixtures.sample_now
                 PaymentDelayPredictor.new_pipeline joined_payments) = inr out /\
    length out = 2%nat /\
    Forall (fun r => PaymentAmountPredictor.invoice_amount r
                     = PaymentAmountPredictor.payment_amount r /\
                     PaymentAmountPredictor.payment_ratio r = 1%float) out.
Proof.
  destruct (amount_features_prepared Fixtures.sample_now PaymentDelayPredictor.new_pipeline
              joined_payments eq_refl eq_refl eq_refl)
    as (out & H1 & _ & _ & H4 & _ & H6).
  exists out. split; [exact H1|]. split; [exact H4|]. exact (H6 eq_refl).
Defined.

End AmountSamples.
(** ** The payment-delay path of the service, beyond the risk tiers *)

Section DelayService.

Import PredictionRules PredictionService Spec.
Local Open Scope string_scope.
Local Open Scope list_scope.

Context {Split Estimator : Type}.
Context `{L : BaseModel.Learner (list PaymentDelayPredictor.feature_row) Split Estimator}.

(** [int()] of a float above zero is not negative. *)
Lemma int_of_positive_float y n :
  Py.gt y 0 = true -> Py.int_of_float y = inr n -> 0 <= n.
Proof.
  unfold Py.gt, Py.int_of_float. rewrite FloatAxioms.ltb_spec.
  change (Prim2SF 0) with (S754_zero false).
  destruct (Prim2SF y) as [s|s| |s m e]; cbn; try discriminate.
  destruct s; [discriminate|]. intros _ H. inversion H. subst n.
  destruct (Z.leb_spec 0 e).
  - apply Z.mul_nonneg_nonneg; [lia|]. apply Z.pow_nonneg. lia.
  - apply Z.quot_pos; [lia|]. apply Z.pow_pos_nonneg; lia.
Qed.

Lemma delay_result_shape id probs preds imps r :
  delay_result id probs preds imps = inr r ->
  dp_customer_id r = id /\ 0 <= predicted_delay_days r /\ factors r = take 5 imps.
Proof.
  unfold delay_result.
  destruct probs as [|[|p0 [|p1 ?]] ?]; try discriminate.
  destruct preds as [|y0 ?]; try discriminate.
  destruct (Py.gt y0 0) eqn:Ey.
  - destruct (Py.int_of_float y0) as [e|days] eqn:Ei; cbn [Py.bind]; [discriminate|].
    intros H. inversion H; subst r. cbn. repeat split.
    exact (int_of_positive_float _ _ Ey Ei).
  - cbn [Py.bind]. intros H. inversion H; subst r. cbn. repeat split. lia.
Qed.

(** What the two model calls leave of a trained manager. *)
Lemma run_estimator_keeps {R}
    (call : Estimator -> list PaymentDelayPredictor.feature_row -> list string
            -> Py.result R) e m data :
  let m' := fst (BaseModel.run_estimator call e m data) in
  BaseModel.model m' = BaseModel.model m /\
  BaseModel.is_trained m' = BaseModel.is_trained m /\
  BaseModel.model_metadata m' = BaseModel.model_metadata m /\
  BaseModel.target_column m' = BaseModel.target_column m.
Proof.
  unfold BaseModel.run_estimator. cbv zeta.
  destruct (BaseModel.po_result _); [cbn; auto|].
  cbn [BaseModel.after_prepare BaseModel.model].
  destruct (BaseModel.model m) eqn:E; cbn; auto.
Qed.

Lemma predict_proba_keeps e m d data :
  BaseModel.is_trained m = true ->
  let m' := fst (BaseModel.predict_proba e m d data) in
  BaseModel.model m' = BaseModel.model m /\
  BaseModel.is_trained m' = true /\
  BaseModel.model_metadata m' = BaseModel.model_metadata m /\
  BaseModel.target_column m' = BaseModel.target_column m.
Proof.
  intros Ht. unfold BaseModel.predict_proba, BaseModel.ensure_loaded. rewrite Ht.
  cbn [negb]. rewrite Ht. cbn [negb].
  destruct (negb _); [cbn; repeat split; assumption|].
  destruct (run_estimator_keeps BaseModel.estimator_predict_proba e m data)
    as (H1 & H2 & H3 & H4).
  cbv zeta. repeat split; [exact H1|rewrite H2; exact Ht|exact H3|exact H4].
Qed.

Lemma predict_keeps e m d data :
  BaseModel.is_trained m = true ->
  let m' := fst (BaseModel.predict e m d data) in
  BaseModel.model m' = BaseModel.model m /\
  BaseModel.is_trained m' = true /\
  BaseModel.model_metadata m' = BaseModel.model_metadata m /\
  BaseModel.target_column m' = BaseModel.target_column m.
Proof.
  intros Ht. rewrite (predict_trained e m d data Ht).
  destruct (run_estimator_keeps BaseModel.estimator_predict e m data)
    as (H1 & H2 & H3 & H4).
  cbv zeta. repeat split; [exact H1|rewrite H2; exact Ht|exact H3|exact H4].
Qed.

(** X11.  A service whose model is trained serves a prediction without
    training, loading or saving: the storage directory, the estimator, the
    metadata and the trained flag are the same after the call, whatever
    its outcome.  For a customer the database does not have the call
    raises the not-found error and leaves the whole service as it was. *)
Theorem predict_payment_delay_serves_trained_model :
  forall cfg e db (s : service Estimator) id amount due days,
    BaseModel.is_trained (payment_delay_model s) = true ->
    let served := predict_payment_delay cfg e db s id amount due days in
    disk (fst served) = disk s /\
    BaseModel.model (payment_delay_model (fst served))
    = BaseModel.model (payment_delay_model s) /\
    BaseModel.model_metadata (payment_delay_model (fst served))
    = BaseModel.model_metadata (payment_delay_model s) /\
    BaseModel.is_trained (payment_delay_model (fst served)) = true /\
    (customers db !! id = None ->
     served = (s, inl (Py.CustomerNotFound id))).
Proof.
  intros cfg e db s id amount due days Ht served. subst served.
  unfold predict_payment_delay, _ensure_model_trained, _get_customer_data.
  rewrite Ht.
  destruct (customers db !! id) as [c|];
    [|cbn; repeat split; try assumption; reflexivity].
  set (data := prediction_data e c amount due days).
  pose proof (predict_proba_keeps e (payment_delay_model s) (disk s) data Ht)
    as (P1 & P2 & P3 & P4).
  destruct (BaseModel.predict_proba e (payment_delay_model s) (disk s) data)
    as [m1 [err|probs]]; cbn [fst] in P1, P2, P3, P4;
    [cbn; repeat split; try assumption; discriminate|].
  cbn [payment_delay_model disk].
  pose proof (predict_keeps e m1 (disk s) data P2) as (Q1 & Q2 & Q3 & Q4).
  destruct (BaseModel.predict e m1 (disk s) data) as [m2 [err|preds]];
    cbn [fst] in Q1, Q2, Q3, Q4; cbn; repeat split; try congruence; discriminate.
Qed.

(** X12.  A prediction that is returned names the customer it was asked
    for, who is in the database; its predicted delay is not negative; its
    factors are the first five entries of the feature-importance ranking
    of the model, so at most five. *)
Theorem predict_payment_delay_result_shape :
  forall cfg e db (s s' : service Estimator) id amount due days r,
    predict_payment_delay cfg e db s id amount due days = (s', inr r) ->
    dp_customer_id r = id /\
    is_Some (customers db !! id) /\
    0 <= predicted_delay_days r /\
    factors r = take 5 (BaseModel.get_feature_importance (payment_delay_model s')) /\
    (length (factors r) <= 5)%nat.
Proof.
  intros cfg e db s s' id amount due days r. unfold predict_payment_delay.
  destruct (_ensure_model_trained cfg e s) as [s1 [err|[]]]; [inversion 1|].
  unfold _get_customer_data.
  destruct (customers db !! id) as [c|]; [|inversion 1].
  destruct (BaseModel.predict_proba _ _ _ _) as [m1 [err|probs]]; [inversion 1|].
  cbn [payment_delay_model disk].
  destruct (BaseModel.predict _ _ _ _) as [m2 [err|preds]]; [inversion 1|].
  intros H. inversion H as [[Hs Hr]]. clear H.
  destruct (delay_result_shape _ _ _ _ _ Hr) as (H1 & H2 & H3).
  cbn [payment_delay_model]. rewrite H3.
  repeat split; [exact H1|eauto|exact H2|]. rewrite length_take. lia.
Qed.

Lemma predicted_customer cfg e db (s s' : service Estimator) id amount due days r :
  predict_payment_delay cfg e db s id amount due days = (s', inr r) ->
  dp_customer_id r = id.
Proof.
  intros H.
  destruct (predict_payment_delay_result _ _ _ _ _ _ _ _ _ _ H)
    as (probs & preds & imps & Hr).
  exact (proj1 (delay_result_shape _ _ _ _ _ Hr)).
Qed.

Lemma successes_follow_request cfg e db days :
  forall ids (s : service Estimator),
    sublist (map dp_customer_id (successes (single_results cfg e db days ids s))) ids.
Proof.
  induction ids as [|id ids IH]; intros s; cbn [single_results].
  - constructor.
  - destruct (predict_payment_delay cfg e db s id None None days) as [s1 [err|p]] eqn:E;
      cbn [successes map].
    + apply sublist_cons. apply IH.
    + rewrite (predicted_customer _ _ _ _ _ _ _ _ _ _ E).
      apply sublist_skip. apply IH.
Qed.

Lemma successes_answered cfg e db days :
  forall ids (s : service Estimator),
    map dp_customer_id (successes (single_results cfg e db days ids s))
    = Laws.answered ids (single_results cfg e db days ids s).
Proof.
  induction ids as [|id ids IH]; intros s; cbn [single_results]; [reflexivity|].
  destruct (predict_payment_delay cfg e db s id None None days) as [s1 [err|p]] eqn:E;
    cbn [successes map Laws.answered].
  - apply IH.
  - rewrite (predicted_customer _ _ _ _ _ _ _ _ _ _ E). f_equal. apply IH.
Qed.

Lemma single_results_length cfg e db days :
  forall ids (s : service Estimator),
    length (single_results cfg e db days ids s) = length ids.
Proof.
  induction ids as [|id ids IH]; intros s; cbn [single_results]; [reflexivity|].
  destruct (predict_payment_delay cfg e db s id None None days) as [s1 r].
  cbn [length]. f_equal. apply IH.
Qed.

(** X13.  The bulk path answers in the order of the request: it calls
    the single path once for every requested id, each call on the service
    the call before left; its predictions are those the calls returned,
    and their customers are the requested ids with exactly those left out
    for which the single path raised; it never raises itself, and it
    counts every requested id in [total_customers] and every prediction in
    [successful_predictions]. *)
Theorem predict_payment_delay_bulk_follows_request :
  forall cfg e db (s : service Estimator) ids days,
  exists b,
    snd (predict_payment_delay_bulk cfg e db s ids days) = inr b /\
    length (single_results cfg e db days ids s) = length ids /\
    predictions b = successes (single_results cfg e db days ids s) /\
    map dp_customer_id (predictions b)
    = Laws.answered ids (single_results cfg e db days ids s) /\
    sublist (map dp_customer_id (predictions b)) ids /\
    total_customers (summary b) = length ids /\
    successful_predictions (summary b) = length (predictions b) /\
    (successful_predictions (summary b) <= total_customers (summary b))%nat.
Proof.
  intros cfg e db s ids days. unfold predict_payment_delay_bulk.
  pose proof (bulk_loop_spec cfg e db days ids s bulk_start) as (H & _).
  cbn zeta in H.
  destruct (bulk_loop cfg e db days ids s bulk_start) as [s1 acc].
  cbn [snd] in H |- *. eexists. split; [reflexivity|].
  cbn [predictions summary total_customers successful_predictions].
  rewrite H. cbn [acc_predictions bulk_start app].
  pose proof (successes_follow_request cfg e db days ids s) as Hs.
  split; [apply single_results_length|]. split; [reflexivity|].
  split; [apply successes_answered|].
  repeat split; [exact Hs|].
  apply sublist_length in Hs. rewrite length_map in Hs. exact Hs.
Qed.




End DelayService.

(** The properties of the delay path on the sample data. *)

Section DelayServiceSamples.

Import BaseModel PredictionRules PredictionService Spec Laws Samples.
Local Open Scope string_scope.
Local Open Scope list_scope.

Lemma predict_payment_delay_serves_trained_model_witness :
  predict_payment_delay (L := classifier) default_settings (Fixtures.sample_env Written)
    Fixtures.sample_db
    {| payment_delay_model := trained_manager; disk := empty_storage |}
    "nobody" None None 30
  = ({| payment_delay_model := trained_manager; disk := empty_storage |},
     inl (Py.CustomerNotFound "nobody")).
Proof.
  apply (@predict_payment_delay_serves_trained_model _ _ classifier default_settings
           (Fixtures.sample_env Written) Fixtures.sample_db
           {| payment_delay_model := trained_manager; disk := empty_storage |}
           "nobody" None None 30 eq_refl).
  reflexivity.
Defined.

Lemma predict_payment_delay_result_shape_witness :
  exists s' r,
    predict_payment_delay (L := classifier) default_settings (Fixtures.sample_env Written)
      Fixtures.sample_db sample_service "validId" None None 30 = (s', inr r) /\
    dp_customer_id r = "validId" /\ 0 <= predicted_delay_days r /\
    (length (factors r) <= 5)%nat.
Proof.
  destruct (predict_payment_delay (L := classifier) default_settings
              (Fixtures.sample_env Written) Fixtures.sample_db sample_service
              "validId" None None 30) as [s' [e|r]] eqn:E;
    [vm_compute in E; discriminate|].
  exists s', r. split; [reflexivity|].
  destruct (@predict_payment_delay_result_shape _ _ classifier _ _ _ _ _ _ _ _ _ _ E)
    as (H1 & _ & H3 & _ & H5).
  repeat split; assumption.
Defined.


End DelayServiceSamples.

(** ** The rule-based paths: risk levels and the shape of a forecast *)

Section Rules.

Import PredictionRules Spec Laws.
Local Open Scope string_scope.
Local Open Scope list_scope.

(** X15.  The risk level of an assessment is decided by which rules
    fired.  It is "High" exactly when both the credit-utilization rule and
    the late-payment rule fired, and "Low" exactly when the late-payment
    rule did not fire and the other two did not fire together.  The score
    lies between 0 and 0.9, so the cap at 1.0 never acts; the list of
    recommendations is never empty. *)
Theorem assess_customer_risk_levels :
  forall db now customer_id assessment_type r,
    assess_customer_risk db now customer_id assessment_type = inr r ->
    (risk_level r = "High" <->
     fired "High Credit Utilization" r /\ fired "Frequent Late Payments" r) /\
    (risk_level r = "Low" <->
     ~ fired "Frequent Late Payments" r /\
     ~ (fired "High Credit Utilization" r /\ fired "High Outstanding Amount" r)) /\
    (0 <=? risk_score r)%float = true /\
    (risk_score r <=? 0.9)%float = true /\
    recommendations r <> [] /\
    ra_customer_id r = customer_id /\
    is_Some (customers db !! customer_id).
Proof.
  intros db now id ty r. unfold assess_customer_risk, _get_customer_data.
  destruct (customers db !! id) as [c|]; [|discriminate].
  generalize (_get_customer_payment_history db id). intros history.
  generalize (get (creditLimit c) 0%float) (get (outstandingAmount c) 0%float).
  intros limit outstanding H. inversion H; subst r; clear H.
  unfold fired. cbn [risk_level risk_score recommendations ra_customer_id risk_factors].
  unfold credit_utilization_rule, payment_history_rule, outstanding_amount_rule.
  destruct (Py.gt limit 0); [destruct (Py.gt (outstanding / limit) 0.8)|];
    (destruct history as [|p history];
     [|destruct (Py.gt (Py.truediv _ _) 0.2)]);
    destruct (Py.gt outstanding (limit * 0.5));
    cbn [fire fst snd app map factor];
    (repeat split; [..|eauto]);
    try (vm_compute; congruence);
    try (vm_compute; intuition congruence);
    try (vm_compute; intuition discriminate).
Qed.

Lemma forecast_days_shape now avg seasonal sales :
  forall days ps,
    forecast_days now avg seasonal sales days = inr ps ->
    map fp_date ps = map (Calendar.add_days now) days /\
    Forall (fun p => 0 <= fp_predicted_demand p) ps.
Proof.
  induction days as [|day days IH]; intros ps; cbn [forecast_days].
  - intros H. inversion H. split; [reflexivity|constructor].
  - unfold forecast_day.
    destruct (Py.int_of_float _) as [e|n]; cbn [Py.bind]; [discriminate|].
    destruct (forecast_days now avg seasonal sales days) as [e|ps'];
      cbn [Py.bind]; [discriminate|].
    intros H. inversion H; subst ps. destruct (IH ps' eq_refl) as [Hd Hp].
    cbn [map fp_date]. rewrite Hd. split; [reflexivity|].
    constructor; [cbn; lia|exact Hp].
Qed.

Lemma forecast_item_shape db now id item days seasonal r :
  inventory db !! id = Some item ->
  forecast_item db now id item days seasonal = inr r ->
  item_id r = id /\ well_formed_forecast db now days r.
Proof.
  intros Hi. unfold forecast_item.
  destruct (forecast_days _ _ _ _ _) as [e|ps] eqn:E; cbn [Py.bind]; [discriminate|].
  intros H. inversion H; subst r; clear H.
  destruct (forecast_days_shape _ _ _ _ _ _ E) as [Hd Hp].
  unfold well_formed_forecast.
  cbn [item_id item_name current_stock predicted_demand reorder recommended_quantity
       reorder_date].
  split; [reflexivity|]. split; [eauto|].
  split.
  { rewrite <- (length_map fp_date), Hd, length_map. unfold day_range.
    rewrite length_map, length_seq. reflexivity. }
  repeat split; [exact Hd|exact Hp|lia].
Qed.

(** X16.  A forecast has one entry for every requested item that is in
    the inventory, in the order of the request; an unknown item is passed
    over without an error.  Every entry reports the stock and the name of
    its item ("Unknown" without a name, 0 without a stock level), one
    prediction for each of the days 1 to [days_ahead] after today, none of
    them negative, a recommended quantity that is not negative and a
    reorder date a week from today. *)
Theorem forecast_inventory_demand_shape :
  forall db now item_ids days_ahead include_seasonality results,
    forecast_inventory_demand db now item_ids days_ahead include_seasonality
    = inr results ->
    map item_id results = List.filter (known_item db) item_ids /\
    Forall (well_formed_forecast db now days_ahead) results.
Proof.
  intros db now ids days seasonal. induction ids as [|id ids IH]; intros results H;
    cbn [forecast_inventory_demand] in H.
  - inversion H. split; [reflexivity|constructor].
  - cbn [List.filter]. unfold known_item at 1.
    destruct (_get_item_data db id) as [item|] eqn:Ei; [|exact (IH _ H)].
    destruct (forecast_item db now id item days seasonal) as [e|r] eqn:Hr;
      cbn [Py.bind] in H; [discriminate|].
    destruct (forecast_inventory_demand db now ids days seasonal) as [e|rs];
      cbn [Py.bind] in H; [discriminate|].
    inversion H; subst results. destruct (IH rs eq_refl) as [Hids Hwf].
    destruct (forecast_item_shape _ _ _ _ _ _ _ Ei Hr) as [Hid Hw].
    cbn [map]. rewrite Hid, Hids. split; [reflexivity|].
    constructor; assumption.
Qed.



(** X18.  Whatever the date and the sales history, the seasonal factor
    is one of the twelve monthly constants: it lies between 0.8 and 1.4,
    and the history of the item plays no part in it. *)
Theorem seasonal_factor_bounds :
  forall date sales,
    (0.8 <=? _get_seasonal_factor date sales)%float = true /\
    (_get_seasonal_factor date sales <=? 1.4)%float = true /\
    _get_seasonal_factor date sales = _get_seasonal_factor date [].
Proof.
  intros date sales. unfold _get_seasonal_factor.
  generalize (Calendar.month date). intros m.
  unfold seasonal_factors, lookup_factor.
  repeat (match goal with
          | |- context [(?k =? m)%Z] => destruct (k =? m)%Z
          end; [vm_compute; repeat split|]).
  vm_compute. repeat split.
Qed.

End Rules.

(** The properties of the rule-based paths on the sample data. *)

Section RulesSamples.

Import BaseModel PredictionRules Spec Laws Samples.
Local Open Scope string_scope.
Local Open Scope list_scope.

Lemma assess_customer_risk_levels_witness :
  exists r,
    assess_customer_risk Fixtures.sample_db Fixtures.sample_now "validId" "credit" = inr r /\
    ~ (fired "High Credit Utilization" r /\ fired "Frequent Late Payments" r) /\
    (risk_score r <=? 0.9)%float = true /\
    recommendations r <> [].
Proof.
  eassert (E : assess_customer_risk Fixtures.sample_db Fixtures.sample_now "validId" "credit"
               = inr _) by (vm_compute; reflexivity).
  eexists. split; [exact E|].
  destruct (assess_customer_risk_levels _ _ _ _ _ E) as (H1 & _ & _ & H4 & H5 & _).
  split; [|split; [exact H4|exact H5]].
  intros H. apply H1 in H. discriminate H.
Defined.

Lemma forecast_inventory_demand_shape_witness :
  exists results,
    forecast_inventory_demand Fixtures.sample_db Fixtures.sample_now
      ["no-such-item"; "item-1"] 30 true = inr results /\
    map item_id results = ["item-1"] /\
    Forall (well_formed_forecast Fixtures.sample_db Fixtures.sample_now 30) results.
Proof.
  destruct (forecast_inventory_demand Fixtures.sample_db Fixtures.sample_now
              ["no-such-item"; "item-1"] 30 true) as [e|results] eqn:E;
    [vm_compute in E; discriminate|].
  exists results. split; [reflexivity|].
  exact (forecast_inventory_demand_shape _ _ _ _ _ _ E).
Defined.


End RulesSamples.

(** ** The prediction routes *)

Section RouteFacts.

Import PredictionRules PredictionService Routes Spec Laws.
Local Open Scope string_scope.
Local Open Scope list_scope.

Context {Split Estimator : Type}.
Context `{L : BaseModel.Learner (list PaymentDelayPredictor.feature_row) Split Estimator}.

(** What [save_model] answers does not depend on what the directory held. *)
Lemma save_model_answer (m : BaseModel.manager PaymentDelayPredictor.pipeline Estimator)
    d1 d2 o :
  snd (BaseModel.save_model m d1 o) = snd (BaseModel.save_model m d2 o).
Proof.
  unfold BaseModel.save_model. destruct (negb (BaseModel.is_trained m)); [reflexivity|].
  destruct (BaseModel.dump_model o); cbn; try reflexivity;
    destruct (BaseModel.dump_metadata o); reflexivity.
Qed.

(** Neither does [train] read the directory: the manager it leaves and
    its answer are the same over any two directories. *)
Lemma train_ignores_directory cfg e
    (m : BaseModel.manager PaymentDelayPredictor.pipeline Estimator) d1 d2 data retrain :
  fst (fst (BaseModel.train cfg e m d1 data retrain))
  = fst (fst (BaseModel.train cfg e m d2 data retrain)) /\
  snd (BaseModel.train cfg e m d1 data retrain)
  = snd (BaseModel.train cfg e m d2 data retrain).
Proof.
  unfold BaseModel.train.
  destruct (match data with Some df => Py.ok df | None => BaseModel.loaded e end)
    as [err|df]; [split; reflexivity|].
  destruct (BaseModel.frame_len df <? MIN_TRAINING_DATA_SIZE cfg)%nat;
    [split; reflexivity|].
  destruct (BaseModel.po_result _) as [err|processed]; [split; reflexivity|].
  destruct (BaseModel.train_test_split _ _ _ _) as [err|sp]; [split; reflexivity|].
  destruct (BaseModel.fit _ sp) as [err|fitted]; [split; reflexivity|].
  destruct (BaseModel.evaluate _ _ _ _ _) as [err|ev]; [split; reflexivity|].
  match goal with
  | |- context [BaseModel.save_model ?m d1 ?o] =>
      pose proof (save_model_answer m d1 d2 o) as Hs;
      destruct (BaseModel.save_model m d1 o) as [x1 [e1|[]]];
      destruct (BaseModel.save_model m d2 o) as [x2 [e2|[]]]
  end; cbn [snd] in Hs; try discriminate; cbn [fst snd]; split; congruence.
Qed.

Lemma predict_proba_trained e
    (m : BaseModel.manager PaymentDelayPredictor.pipeline Estimator) d1 d2 data :
  BaseModel.is_trained m = true ->
  BaseModel.predict_proba e m d1 data = BaseModel.predict_proba e m d2 data.
Proof.
  intros Ht. unfold BaseModel.predict_proba, BaseModel.ensure_loaded. rewrite Ht.
  reflexivity.
Qed.

(** The answer of the single path from an untrained model does not
    depend on the directory either. *)
Lemma fresh_service_ignores_directory cfg e db d1 d2 id amount due days :
  snd (predict_payment_delay cfg e db
         {| payment_delay_model := new_delay_model (Estimator := Estimator);
            disk := d1 |} id amount due days)
  = snd (predict_payment_delay cfg e db
           {| payment_delay_model := new_delay_model (Estimator := Estimator);
              disk := d2 |} id amount due days).
Proof.
  unfold predict_payment_delay, _ensure_model_trained.
  cbn [payment_delay_model disk new_delay_model BaseModel.init BaseModel.is_trained].
  destruct (train_ignores_directory cfg e
              (BaseModel.init (Some "is_delayed") PaymentDelayPredictor.new_pipeline)
              d1 d2 None false) as [Hm Hr].
  destruct (BaseModel.train cfg e _ d1 None false) as [[m1 x1] r1] eqn:E1.
  destruct (BaseModel.train cfg e _ d2 None false) as [[m2 x2] r2] eqn:E2.
  cbn [fst snd] in Hm, Hr. subst m2 r2.
  destruct r1 as [err|md]; cbn [Py.bind]; [reflexivity|].
  destruct (train_success _ _ _ _ _ _ _ _ _ E1) as [Ht _].
  destruct (_get_customer_data db id) as [c|]; [|reflexivity].
  cbn [payment_delay_model disk].
  rewrite (predict_proba_trained e m1 x1 x2 _ Ht).
  pose proof (predict_proba_keeps e m1 x2 (prediction_data e c amount due days) Ht)
    as (_ & Ht3 & _).
  destruct (BaseModel.predict_proba e m1 x2 _) as [m3 [err|probs]]; [reflexivity|].
  cbn [fst] in Ht3. cbn [payment_delay_model disk].
  rewrite !(predict_trained e m3 _ _ Ht3).
  destruct (BaseModel.run_estimator _ e m3 _) as [m4 [err|preds]]; reflexivity.
Qed.

(** X23.  A request without a customer id does not get the 400 the route
    raises for it: the [HTTPException] is raised inside the [try] whose
    last clause catches every [Exception], so the client gets status 500
    with the detail "Prediction service error".  Nothing is trained or
    written. *)
Theorem payment_delay_route_without_customer_id :
  forall external cfg e db (directory : BaseModel.storage Estimator) request,
    customer_id request = None \/ customer_id request = Some "" ->
    predict_payment_delay_route external cfg e db directory request
    = (directory, HttpError 500 (Text "Prediction service error")).
Proof.
  intros external cfg e db directory request [H|H];
    unfold predict_payment_delay_route; rewrite H; reflexivity.
Qed.

(** X24.  The route never serves a stored model.  Each request gets a
    service of its own, whose model is untrained and is therefore trained
    from the database before the prediction: the response is the same
    whatever the storage directory holds. *)
Theorem payment_delay_route_ignores_stored_model :
  forall external cfg e db (directory1 directory2 : BaseModel.storage Estimator) request,
    snd (predict_payment_delay_route external cfg e db directory1 request)
    = snd (predict_payment_delay_route external cfg e db directory2 request).
Proof.
  intros external cfg e db d1 d2 request. unfold predict_payment_delay_route.
  destruct (customer_id request) as [[|ch id]|]; try reflexivity.
  set (cid := String ch id).
  assert (H : snd (call_predict_payment_delay cfg e db
                     {| payment_delay_model := new_delay_model; disk := d1 |}
                     cid request)
              = snd (call_predict_payment_delay cfg e db
                       {| payment_delay_model := new_delay_model; disk := d2 |}
                       cid request)).
  { unfold call_predict_payment_delay.
    destruct (days_ahead request) as [n|];
      [apply fresh_service_ignores_directory|].
    destruct (due_date request) as [due|];
      [apply fresh_service_ignores_directory|].
    unfold _ensure_model_trained.
    cbn [payment_delay_model disk new_delay_model BaseModel.init BaseModel.is_trained].
    destruct (train_ignores_directory cfg e
                (BaseModel.init (Some "is_delayed") PaymentDelayPredictor.new_pipeline)
                d1 d2 None false) as [Hm Hr].
    destruct (BaseModel.train cfg e _ d1 None false) as [[m1 x1] r1].
    destruct (BaseModel.train cfg e _ d2 None false) as [[m2 x2] r2].
    cbn [fst snd] in Hm, Hr. subst m2 r2.
    destruct r1 as [err|md]; cbn [Py.bind]; [reflexivity|].
    destruct (_get_customer_data db cid); reflexivity. }
  destruct (call_predict_payment_delay cfg e db _ cid request) as [s1 r1].
  destruct (call_predict_payment_delay cfg e db _ cid request) as [s2 r2].
  cbn [snd] in H |- *. rewrite H. reflexivity.
Qed.


(** X26.  The risk route answers 200 with the assessment of the customer
    when the customer is in the database and 400 with the not-found
    message otherwise; it never answers 500. *)
Theorem risk_route_answers :
  forall external db now id assessment_type,
    match assess_customer_risk_route external db now id assessment_type with
    | Ok200 r => is_Some (customers db !! id) /\ ra_customer_id r = id
    | HttpError status d =>
        status = 400 /\ d = StrOf (Py.CustomerNotFound id) /\ customers db !! id = None
    end.
Proof.
  intros external db now id ty.
  unfold assess_customer_risk_route, assess_customer_risk, _get_customer_data.
  destruct (customers db !! id) as [c|]; cbn; [split; [eauto|reflexivity]|].
  repeat split.
Qed.

End RouteFacts.

(** The properties of the routes on the sample data. *)

Section RouteSamples.

Import BaseModel PredictionRules PredictionService Routes Spec Laws Samples.
Local Open Scope string_scope.
Local Open Scope list_scope.

Lemma payment_delay_route_without_customer_id_witness :
  predict_payment_delay_route (L := classifier) (fun _ => false) default_settings
    (Fixtures.sample_env Written) Fixtures.sample_db empty_storage (a_request None)
  = (empty_storage, HttpError 500 (Text "Prediction service error")).
Proof.
  apply (@payment_delay_route_without_customer_id _ _ classifier).
  left. reflexivity.
Defined.


End RouteSamples.
(** ** Training runs, the session history and the model records *)

Section TrainingRuns.

Import TrainingService TrainingJobs Spec Laws.
Local Open Scope string_scope.
Local Open Scope list_scope.

Lemma lookup_snoc {A} (l : list A) x : (l ++ [x]) !! length l = Some x.
Proof. apply list_lookup_middle. reflexivity. Qed.

Lemma insert_snoc {A} (l : list A) x y : <[length l := y]> (l ++ [x]) = l ++ [y].
Proof.
  rewrite insert_app_r_alt by lia. rewrite Nat.sub_diag. reflexivity.
Qed.

Lemma delete_snoc {A} (l : list A) x : delete (length l) (l ++ [x]) = l.
Proof. rewrite delete_middle. apply app_nil_r. Qed.

Lemma lookup_end {A} (l : list A) : l !! length l = None.
Proof. apply lookup_ge_None_2. lia. Qed.

Lemma run_cons cfg w ev evs :
  run cfg w (ev :: evs)
  = (fst (run cfg (fst (step cfg w ev)) evs),
     snd (step cfg w ev) ++ snd (run cfg (fst (step cfg w ev)) evs)).
Proof.
  cbn [run]. destruct (step cfg w ev) as [w1 o1]. cbn [fst snd].
  destruct (run cfg w1 evs) as [w2 o2]. reflexivity.
Qed.

(** Resuming a task that is not there changes nothing. *)
Lemma run_no_task cfg w i l :
  tasks w !! i = None -> run cfg w (map (Resume i) l) = (w, []).
Proof.
  intros H. induction l as [|a l IH]; [reflexivity|].
  cbn [map]. rewrite run_cons. unfold step, resume. rewrite H.
  cbn [fst snd]. rewrite IH. reflexivity.
Qed.

Lemma step_resume cfg w i a r :
  resume cfg w i a = Some r -> step cfg w (Resume i a) = r.
Proof. intros H. unfold step. rewrite H. reflexivity. Qed.

(** X19.  A call of [_train_model] that runs from its entry to its return
    with no other task in between returns exactly one answer, the one
    the function read from top to bottom gives, and leaves the suspended
    tasks as they were; when no run of the variant was in progress the
    whole service, the mark of the variant included, is as before the
    call. *)
Theorem train_model_uninterrupted :
  forall cfg w mt force view now a,
    let outcome := run cfg w (uninterrupted w mt force view now a) in
    let direct := _train_model cfg (training_in_progress w) mt force view now a in
    tasks (fst outcome) = tasks w /\
    training_in_progress (fst outcome) = fst direct /\
    returned (snd outcome) = [snd direct] /\
    (training_in_progress w !! mt = None -> fst outcome = w).
Proof.
  intros cfg [tip ts] mt force view now a outcome direct. subst outcome direct.
  unfold uninterrupted, _train_model. cbn [tasks training_in_progress].
  rewrite run_cons. cbn [step]. unfold enter. cbn [tasks training_in_progress].
  destruct (tip !! mt) as [b|] eqn:Em.
  { cbn [fst snd].
    change [Resume (length ts) ?x; Resume (length ts) ?y; Resume (length ts) ?z]
      with (map (Resume (length ts)) [x; y; z]).
    rewrite run_no_task by apply lookup_end. cbn. repeat split. }
  destruct (negb force && view_is_trained view && recent_enough cfg view now).
  { cbn [fst snd].
    change [Resume (length ts) ?x; Resume (length ts) ?y; Resume (length ts) ?z]
      with (map (Resume (length ts)) [x; y; z]).
    rewrite run_no_task by apply lookup_end. cbn.
    rewrite delete_insert_id by exact Em. repeat split. }
  cbn [fst snd]. rewrite run_cons.
  set (t0 := {| model_type := mt; TrainingService.force_retrain := force;
                at_phase := AwaitingDataCheck |}).
  destruct (match data_check a with
            | Some c => (MIN_TRAINING_DATA_SIZE cfg <=? c)%nat
            | None => false
            end) eqn:Es; cbn [negb].
  2:{ rewrite (step_resume _ _ _ _
                 (finish {| training_in_progress := <[mt:=true]> tip;
                            tasks := ts ++ [t0] |} (length ts) t0,
                  [Returned mt (failed_insufficient (get (data_check a) 0%nat)
                                  (MIN_TRAINING_DATA_SIZE cfg))]))
        by (unfold resume; cbn [tasks]; rewrite lookup_snoc; try unfold t2; try unfold t1; try unfold t0;
        cbn [at_phase model_type TrainingService.force_retrain];
            rewrite Es; reflexivity).
      unfold finish. unfold t0. cbn [fst snd tasks training_in_progress model_type].
      rewrite delete_snoc.
      change [Resume (length ts) ?y; Resume (length ts) ?z]
        with (map (Resume (length ts)) [y; z]).
      rewrite run_no_task by apply lookup_end. cbn.
      rewrite delete_insert_id by exact Em. repeat split. }
  set (t1 := {| model_type := mt; TrainingService.force_retrain := force;
                at_phase := AwaitingTrain (start_time a) |}).
  rewrite (step_resume _ _ _ _
             ({| training_in_progress := <[mt:=true]> tip; tasks := ts ++ [t1] |},
              [TrainCalled mt force]))
    by (unfold resume; cbn [tasks]; rewrite lookup_snoc; try unfold t2; try unfold t1; try unfold t0;
        cbn [at_phase model_type TrainingService.force_retrain];
        rewrite Es; unfold suspend; cbn [tasks training_in_progress];
        rewrite insert_snoc; reflexivity).
  cbn [fst snd]. rewrite run_cons.
  destruct (trained a) as [e|md].
  { rewrite (step_resume _ _ _ _
               ({| training_in_progress := delete mt (<[mt:=true]> tip); tasks := ts |},
                [Returned mt (failed_error e)]))
      by (unfold resume; cbn [tasks]; rewrite lookup_snoc; try unfold t2; try unfold t1; try unfold t0;
        cbn [at_phase model_type TrainingService.force_retrain];
          unfold finish; cbn [tasks training_in_progress model_type];
          rewrite delete_snoc; reflexivity).
    cbn [fst snd].
    change [Resume (length ts) ?z] with (map (Resume (length ts)) [z]).
    rewrite run_no_task by apply lookup_end. cbn.
    rewrite delete_insert_id by exact Em. repeat split. }
  set (t2 := {| model_type := mt; TrainingService.force_retrain := force;
                at_phase := AwaitingSaveMetadata md (end_time a - start_time a) |}).
  rewrite (step_resume _ _ _ _
             ({| training_in_progress := <[mt:=true]> tip; tasks := ts ++ [t2] |}, []))
    by (unfold resume; cbn [tasks]; rewrite lookup_snoc; try unfold t2; try unfold t1; try unfold t0;
        cbn [at_phase model_type TrainingService.force_retrain];
        unfold suspend; cbn [tasks training_in_progress];
        rewrite insert_snoc; reflexivity).
  cbn [fst snd]. rewrite run_cons.
  rewrite (step_resume _ _ _ _
             ({| training_in_progress := delete mt (<[mt:=true]> tip); tasks := ts |},
              [Returned mt
                 (success (end_time a - start_time a)
                    (BaseModel.metrics (BaseModel.md_evaluation md))
                    (BaseModel.training_data_size md))]))
    by (unfold resume; cbn [tasks]; rewrite lookup_snoc; try unfold t2; try unfold t1; try unfold t0;
        cbn [at_phase model_type TrainingService.force_retrain];
        unfold finish; cbn [tasks training_in_progress model_type];
        rewrite delete_snoc; reflexivity).
  cbn. rewrite delete_insert_id by exact Em. repeat split.
Qed.

Lemma last_n_all {A} n (l : list A) : (length l <= n)%nat -> last_n n l = l.
Proof.
  intros H. unfold last_n. replace (length l - n)%nat with 0%nat by lia. reflexivity.
Qed.

Lemma length_last_n {A} n (l : list A) : length (last_n n l) = Nat.min n (length l).
Proof. unfold last_n. rewrite length_drop. lia. Qed.

Lemma last_n_last_n {A} n m (l : list A) :
  (n <= m)%nat -> last_n n (last_n m l) = last_n n l.
Proof.
  intros H. unfold last_n at 1 3. rewrite length_last_n. unfold last_n.
  rewrite drop_drop. f_equal. lia.
Qed.

Lemma last_n_app_last_n {A} n (l r : list A) :
  last_n n (last_n n l ++ r) = last_n n (l ++ r).
Proof.
  unfold last_n at 1 3. rewrite !length_app, length_last_n.
  unfold last_n. set (k := (length l - n)%nat).
  replace (l ++ r) with (take k l ++ (drop k l ++ r))
    by (rewrite app_assoc, take_drop; reflexivity).
  rewrite (drop_app_ge (take k l)) by (rewrite length_take; lia).
  rewrite length_take. f_equal. lia.
Qed.

Lemma map_last_n {A B} (f : A -> B) n l : map f (last_n n l) = last_n n (map f l).
Proof. unfold last_n. rewrite skipn_map, length_map. reflexivity. Qed.

Lemma train_all_models_history cfg s c :
  map timestamp (training_history (fst (train_all_models cfg s c)))
  = last_n 50 (map timestamp (training_history s) ++ [session_now c]).
Proof.
  unfold train_all_models.
  destruct (_train_model cfg (in_progress s) _ _ _ _ _) as [p1 r1].
  destruct (_train_model cfg p1 _ _ _ _ _) as [p2 r2].
  cbn [fst training_history].
  match goal with
  | |- context [training_history s ++ [?x]] => set (h := training_history s ++ [x])
  end.
  assert (Hh : map timestamp h = map timestamp (training_history s) ++ [session_now c])
    by (unfold h; rewrite map_app; reflexivity).
  rewrite <- Hh. destruct (Nat.ltb_spec 50 (length h)).
  - apply map_last_n.
  - rewrite last_n_all by (rewrite length_map; lia). reflexivity.
Qed.

(** X20.  The service remembers the latest fifty runs of
    [train_all_models] and no more: after any number of runs the history
    holds, oldest first, the last fifty of all sessions recorded so far,
    and [get_training_status] shows the last five of them. *)
Theorem training_history_keeps_latest :
  forall cfg calls s,
    (length (training_history s) <= 50)%nat ->
    let s' := train_all_models_repeatedly cfg s calls in
    let all := map timestamp (training_history s) ++ map session_now calls in
    map timestamp (training_history s') = last_n 50 all /\
    length (training_history s') = Nat.min 50 (length all) /\
    map timestamp (last_training_sessions s') = last_n 5 all.
Proof.
  intros cfg calls s Hs s' all.
  assert (H : map timestamp (training_history s') = last_n 50 all).
  { subst s' all. revert s Hs. induction calls as [|c calls IH]; intros s Hs.
    - cbn. rewrite app_nil_r. rewrite last_n_all by (rewrite length_map; lia).
      reflexivity.
    - unfold train_all_models_repeatedly in *. cbn [fold_left map].
      rewrite IH.
      + rewrite train_all_models_history, last_n_app_last_n, <- app_assoc.
        reflexivity.
      + rewrite <- (length_map timestamp), train_all_models_history, length_last_n.
        lia. }
  split; [exact H|]. split.
  - rewrite <- (length_map timestamp), H. apply length_last_n.
  - unfold last_training_sessions.
    transitivity (map timestamp (last_n 5 (training_history s'))).
    { destruct (training_history s'); reflexivity. }
    rewrite map_last_n, H. apply last_n_last_n. lia.
Qed.

Lemma update_many_member mt v collection r' :
  In r' (update_many mt v collection) ->
  exists r,
    In r collection /\
    mr_model_type r' = mr_model_type r /\ mr_version r' = mr_version r /\
    (mr_status r' = "active" ->
     r' = r /\ mr_status r = "active" /\
     (mr_model_type r = mt -> mr_version r = v)).
Proof.
  unfold update_many. intros H. apply in_map_iff in H as (r & <- & Hr).
  exists r. split; [exact Hr|].
  destruct (String.eqb_spec (mr_model_type r) mt) as [Ht|Ht]; cbn [andb].
  - destruct (Z.eqb_spec (mr_version r) v) as [Hv|Hv]; cbn [negb andb].
    + repeat split; intros; assumption.
    + destruct (String.eqb_spec (mr_status r) "active") as [Ha|Ha].
      * cbn. repeat split; intros; discriminate.
      * repeat split; intros; try assumption; contradiction.
  - repeat split; intros; try assumption; contradiction.
Qed.

Lemma update_many_other_types mt v collection :
  List.filter (fun r => negb (String.eqb (mr_model_type r) mt))
    (update_many mt v collection)
  = List.filter (fun r => negb (String.eqb (mr_model_type r) mt)) collection.
Proof.
  unfold update_many. induction collection as [|r l IH]; [reflexivity|].
  cbn [map List.filter].
  destruct (String.eqb_spec (mr_model_type r) mt) as [E|E]; cbn [andb negb].
  - destruct (negb (mr_version r =? v)%Z && String.eqb (mr_status r) "active");
      cbn [set_status mr_model_type]; rewrite (proj2 (String.eqb_eq _ _) E);
      cbn [negb]; exact IH.
  - rewrite (proj2 (String.eqb_neq _ _) E). cbn [negb]. rewrite IH. reflexivity.
Qed.

(** X21.  When the database carries out both operations,
    [_save_training_metadata] adds one record, active, for the run that
    just ended, and afterwards every active record of that model type has
    the version of this run; records of other model types are not
    touched.  So a collection in which every model type has one active
    version stays that way. *)
Theorem save_training_metadata_one_active_version :
  forall collection mt training_result duration now,
    one_active_version collection ->
    let saved :=
      _save_training_metadata collection mt training_result duration now true true in
    one_active_version saved /\
    length saved = S (length collection) /\
    (forall r, In r saved -> mr_model_type r = mt -> mr_status r = "active" ->
               mr_version r = BaseModel.trained_at training_result) /\
    (exists r, In r saved /\ mr_model_type r = mt /\ mr_status r = "active" /\
               mr_version r = BaseModel.trained_at training_result /\
               mr_created_at r = now) /\
    List.filter (fun r => negb (String.eqb (mr_model_type r) mt)) saved
    = List.filter (fun r => negb (String.eqb (mr_model_type r) mt)) collection.
Proof.
  intros collection mt md duration now Hc saved. subst saved.
  unfold _save_training_metadata. cbn [negb mr_version].
  set (new := {| mr_model_type := mt; mr_version := BaseModel.trained_at md;
                 mr_training_duration_seconds := duration;
                 mr_metrics := BaseModel.metrics (BaseModel.md_evaluation md);
                 mr_training_data_size := BaseModel.training_data_size md;
                 mr_feature_count := BaseModel.feature_count md;
                 mr_created_at := now; mr_status := "active" |}).
  set (v := BaseModel.trained_at md).
  assert (Hmt : forall r, In r (update_many mt v (collection ++ [new])) ->
                          mr_model_type r = mt -> mr_status r = "active" ->
                          mr_version r = v).
  { intros r Hr Ht Ha. apply update_many_member in Hr as (r0 & _ & Et & Ev & Hact).
    destruct (Hact Ha) as (-> & _ & Hv). apply Hv. exact Ht. }
  split; [|split; [|split; [|split]]].
  - intros r1 r2 H1 H2 Ht A1 A2.
    destruct (String.eqb_spec (mr_model_type r1) mt) as [E|E].
    + rewrite (Hmt r1 H1 E A1), (Hmt r2 H2) by congruence. reflexivity.
    + apply update_many_member in H1 as (q1 & I1 & T1 & V1 & Hact1).
      apply update_many_member in H2 as (q2 & I2 & T2 & V2 & Hact2).
      destruct (Hact1 A1) as (-> & B1 & _). destruct (Hact2 A2) as (-> & B2 & _).
      apply in_app_iff in I1 as [I1|[<-|[]]]; [|contradiction E; reflexivity].
      apply in_app_iff in I2 as [I2|[<-|[]]];
        [|contradiction E; rewrite Ht; reflexivity].
      apply Hc; assumption.
  - unfold update_many. rewrite length_map, length_app. cbn. lia.
  - exact Hmt.
  - exists new. repeat split. unfold update_many. apply in_map_iff. exists new.
    split; [|apply in_app_iff; right; left; reflexivity].
    cbn [mr_model_type mr_version mr_status new]. unfold v.
    rewrite Z.eqb_refl, andb_false_r. reflexivity.
  - rewrite update_many_other_types, List.filter_app.
    cbn [List.filter new mr_model_type]. rewrite String.eqb_refl. cbn [negb].
    apply app_nil_r.
Qed.

End TrainingRuns.

(** ** The performance audit *)

Section Audit.

Import BaseModel TrainingService TrainingJobs Spec Laws.
Local Open Scope string_scope.
Local Open Scope list_scope.

Context {DataFrame Prepared Pipeline Split Estimator : Type}.
Context `{V : Variant DataFrame Prepared Pipeline}.
Context `{L : Learner Prepared Split Estimator}.

Lemma metric_recorded name ms :
  metric name ms = match recorded name ms with Some v => v | None => 0%float end.
Proof.
  induction ms as [|[k v] ms IH]; cbn [metric recorded]; [reflexivity|].
  destruct (String.eqb k name); [reflexivity|exact IH].
Qed.

Lemma classification_threshold cfg ms :
  _meets_performance_threshold cfg ms "classification" = false <->
  misses (MIN_MODEL_ACCURACY cfg) (recorded "accuracy" ms) \/
  misses (MIN_MODEL_PRECISION cfg) (recorded "precision" ms) \/
  misses (MIN_MODEL_RECALL cfg) (recorded "recall" ms).
Proof.
  unfold _meets_performance_threshold, misses, Py.ge. cbn [String.eqb Ascii.eqb Bool.eqb].
  rewrite !metric_recorded.
  destruct (MIN_MODEL_ACCURACY cfg <=? _)%float, (MIN_MODEL_PRECISION cfg <=? _)%float,
    (MIN_MODEL_RECALL cfg <=? _)%float; cbn [andb]; intuition discriminate.
Qed.

(** X22.  [train] publishes a model whatever its scores; the audit
    [_check_model_performance] is what reacts to them.  After a
    successful training run of the delay model the audit queues
    "payment_delay" exactly when the accuracy, the precision or the recall
    that the run recorded is not at least its threshold of the settings
    (0.75, 0.70 and 0.70 by default), a metric that was not recorded
    counting as 0; and the retraining it then asks for is forced: it is
    not skipped for a model that was trained a moment ago.  A model that
    is not trained is never queued.  With the default thresholds the
    scores 0.75, 0.70 and 0.70 are enough, an accuracy of 0.7499 is not,
    and neither are scores without a recall. *)
Theorem audit_queues_underperforming_model :
  forall cfg env (m : manager Pipeline Estimator) d data retrain m' d' md
         {P2 E2 : Type} (amount : manager P2 E2),
    train cfg env m d data retrain = (m', d', inr md) ->
    is_trained m' = true /\
    (In "payment_delay" (models_to_retrain cfg m' amount) <->
     _meets_performance_threshold cfg (metrics (md_evaluation md)) "classification"
     = false) /\
    (In "payment_delay" (models_to_retrain cfg m' amount) <->
     misses (MIN_MODEL_ACCURACY cfg) (recorded "accuracy" (metrics (md_evaluation md))) \/
     misses (MIN_MODEL_PRECISION cfg) (recorded "precision" (metrics (md_evaluation md))) \/
     misses (MIN_MODEL_RECALL cfg) (recorded "recall" (metrics (md_evaluation md)))) /\
    (MIN_MODEL_ACCURACY default_settings = 0.75%float /\
     MIN_MODEL_PRECISION default_settings = 0.70%float /\
     MIN_MODEL_RECALL default_settings = 0.70%float /\
     _meets_performance_threshold default_settings
       [("accuracy", 0.75%float); ("precision", 0.70%float); ("recall", 0.70%float)]
       "classification" = true /\
     _meets_performance_threshold default_settings
       [("accuracy", 0.7499%float); ("precision", 0.70%float); ("recall", 0.70%float)]
       "classification" = false /\
     _meets_performance_threshold default_settings
       [("accuracy", 0.75%float); ("precision", 0.6999%float); ("recall", 0.70%float)]
       "classification" = false /\
     _meets_performance_threshold default_settings
       [("accuracy", 0.75%float); ("precision", 0.70%float); ("recall", 0.6999%float)]
       "classification" = false /\
     _meets_performance_threshold default_settings
       [("accuracy", 0.9%float); ("precision", 0.9%float)] "classification" = false) /\
    (forall w view now,
        training_in_progress w !! "payment_delay" = None ->
        snd (enter cfg w "payment_delay" true view now) = [] /\
        In "payment_delay" (in_flight (fst (enter cfg w "payment_delay" true view now)))) /\
    (forall m0 : manager Pipeline Estimator,
        is_trained m0 = false -> ~ In "payment_delay" (models_to_retrain cfg m0 amount)).
Proof.
  intros cfg env m d data retrain m' d' md P2 E2 amount H.
  destruct (train_success _ _ _ _ _ _ _ _ _ H) as [Ht _].
  destruct (train_success_artifact _ _ _ _ _ _ _ _ _ H) as (Hmd & _).
  assert (Hamount : forall b : bool,
             ~ In "payment_delay" (if b then ["payment_amount"] else [])).
  { intros [|]; cbn; [intros [E|[]]; discriminate|tauto]. }
  assert (Hq : In "payment_delay" (models_to_retrain cfg m' amount) <->
               _meets_performance_threshold cfg (metrics (md_evaluation md))
                 "classification" = false).
  { unfold models_to_retrain. rewrite Ht, Hmd. cbn [metrics_of andb].
    destruct (_meets_performance_threshold cfg _ "classification"); cbn [negb app].
    + split; [|discriminate]. intros E. exfalso. exact (Hamount _ E).
    + split; [reflexivity|]. intros _. left. reflexivity. }
  split; [exact Ht|]. split; [exact Hq|]. split; [|split; [|split]].
  - rewrite Hq. apply classification_threshold.
  - vm_compute. repeat split.
  - intros w view now Hw. unfold enter. rewrite Hw. cbn [negb andb fst snd].
    split; [reflexivity|]. unfold in_flight. cbn [tasks]. rewrite map_app.
    apply in_app_iff. right. left. reflexivity.
  - intros m0 H0. unfold models_to_retrain. rewrite H0. cbn [andb app].
    apply Hamount.
Qed.

End Audit.

(** The properties of the training runs on the sample data. *)

Section TrainingRunsSamples.

Import BaseModel TrainingService TrainingJobs Spec Laws Samples.
Local Open Scope string_scope.
Local Open Scope list_scope.

Lemma training_history_keeps_latest_witness :
  let s := {| in_progress := ∅; training_history := [] |} in
  let s' := train_all_models_repeatedly default_settings s (map (fun n => idle_call (Z.of_nat n)) (seq 1 60)) in
  length (training_history s') = 50%nat /\
  map timestamp (last_training_sessions s') = [56; 57; 58; 59; 60].
Proof.
  intros s s'.
  destruct (training_history_keeps_latest default_settings
              (map (fun n => idle_call (Z.of_nat n)) (seq 1 60)) s ltac:(cbn; lia)) as (_ & H2 & H3).
  split; [exact H2|exact H3].
Defined.

Lemma save_training_metadata_one_active_version_witness :
  let saved :=
    _save_training_metadata [earlier_record] "payment_delay" a_training_result 7 3
      true true in
  one_active_version saved /\
  map mr_status saved = ["inactive"; "active"].
Proof.
  intros saved.
  destruct (save_training_metadata_one_active_version [earlier_record] "payment_delay"
              a_training_result 7 3) as (H1 & _).
  - intros r1 r2 [<-|[]] [<-|[]] _ _ _. reflexivity.
  - split; [exact H1|reflexivity].
Defined.

Lemma audit_queues_underperforming_model_witness :
  (exists m' d' md,
      train (V := delay_variant) (L := classifier) default_settings
        (Fixtures.sample_env Written) new_manager empty_storage None false
      = (m', d', inr md) /\
      is_trained m' = true /\
      ~ In "payment_delay" (models_to_retrain default_settings m' new_manager))
  /\ (exists m' d' md,
      train (V := delay_variant) (L := weak_learner) default_settings
        (Fixtures.sample_env Written) new_manager empty_storage None false
      = (m', d', inr md) /\
      is_trained m' = true /\
      models_to_retrain default_settings m' new_manager = ["payment_delay"]).
Proof.
  split.
  - eassert (E : train (V := delay_variant) (L := classifier) default_settings
                   (Fixtures.sample_env Written) new_manager empty_storage None false
                 = (_, _, inr _)) by (vm_compute; reflexivity).
    eexists _, _, _. split; [exact E|].
    destruct (@audit_queues_underperforming_model _ _ _ _ _ delay_variant classifier
                _ _ _ _ _ _ _ _ _ _ _ new_manager E) as (H1 & H2 & _).
    split; [exact H1|]. intros H. apply H2 in H. vm_compute in H. discriminate H.
  - eassert (E : train (V := delay_variant) (L := weak_learner) default_settings
                   (Fixtures.sample_env Written) new_manager empty_storage None false
                 = (_, _, inr _)) by (vm_compute; reflexivity).
    eexists _, _, _. split; [exact E|].
    destruct (@audit_queues_underperforming_model _ _ _ _ _ delay_variant weak_learner
                _ _ _ _ _ _ _ _ _ _ _ new_manager E) as (H1 & _).
    split; [exact H1|]. vm_compute. reflexivity.
Defined.

End TrainingRunsSamples.
